(** * cursor-reset: a verification model of [reset.py]

    [reset.py] locates the editor's [storage.json] for the current platform,
    makes a timestamped backup of it, loads it as JSON (or starts from an
    empty mapping), overwrites three telemetry identifiers with fresh random
    values, writes the document back and prints the new identifiers.

    The model below follows the script statement by statement.  The Python
    runtime it runs on is made explicit:
    - the file system is a finite map from paths to nodes;
    - the exceptions a step can raise are values of [exn];
    - the sources of nondeterminism ([platform.system()], the environment,
      [os.urandom], [datetime.now()]) are fields of an environment record
      that the run reads in order;
    - [json.load] / [json.dump] are modelled after CPython's [json] package
      (strict decoder, [ensure_ascii] encoder with [indent=2]).

    A float is kept as the literal it was read from: what the literal
    denotes is [float_value], and the text [json.dump] prints for it is an
    environment function.  Out of the model: interpreter resource limits
    (recursion depth, the integer-string digit limit), I/O failures of the
    operating system other than the ones the path structure itself causes,
    and the encoding of [sys.stdout]. *)

From Stdlib Require Import ZArith NArith Ascii String List Lia Bool.
From Stdlib Require Import DecimalString.
From Stdlib Require DecimalPos DecimalFacts.
From Stdlib Require Import Floats.SpecFloat.
From Stdlib.Strings Require Import Byte.
From stdpp Require Import base option list gmap strings.

Import ListNotations.
Local Open Scope string_scope.
Local Open Scope list_scope.

(* ===================================================================== *)
(** * Python strings and bytes *)
(* ===================================================================== *)

(** A Python [str] is a sequence of Unicode code points; [bytes] and file
    contents are lists of [byte]; text that is known to be ASCII (paths,
    timestamps, the output of the JSON encoder) is a Rocq [string]. *)
Abbreviation pystr := (list N).

Definition str_lit (s : string) : pystr :=
  map N_of_ascii (list_ascii_of_string s).

Definition str_encode_ascii (s : string) : list byte :=
  list_byte_of_string s.

(** [bytes.hex()]: two lowercase digits per byte, from the table
    ["0123456789abcdef"]. *)
Definition hexdigits : list ascii :=
  list_ascii_of_string "0123456789abcdef".

Definition hexdigit (n : N) : ascii :=
  nth (N.to_nat n) hexdigits "0"%char.

Definition byte_hex (b : byte) : list ascii :=
  [hexdigit (Byte.to_N b / 16); hexdigit (Byte.to_N b mod 16)].

Definition bytes_hex (bs : list byte) : string :=
  string_of_list_ascii (flat_map byte_hex bs).

(* ===================================================================== *)
(** * [uuid.uuid4] and [str(UUID)] *)
(* ===================================================================== *)

(** [int.from_bytes(bytes)], big endian. *)
Definition int_from_bytes (bs : list byte) : Z :=
  fold_left (fun acc b => (acc * 256 + Z.of_N (Byte.to_N b))%Z) bs 0%Z.

(** [UUID(bytes=..., version=4)]: the variant and version bits are forced
    on the 128-bit integer, exactly as [uuid.UUID.__init__] does. *)
Definition UUID_v4 (bs : list byte) : Z :=
  let int := int_from_bytes bs in
  let int := Z.land int (Z.lnot (Z.shiftl 0xc000 48)) in
  let int := Z.lor int (Z.shiftl 0x8000 48) in
  let int := Z.land int (Z.lnot (Z.shiftl 0xf000 64)) in
  Z.lor int (Z.shiftl 4 76).

(** ['%032x' % int] for [0 <= int < 2^128]: digit [i] (from the left) is the
    nibble at bit [4 * (31 - i)]. *)
Definition hex32_digit (n : Z) (i : nat) : ascii :=
  hexdigit (Z.to_N (Z.land (Z.shiftr n (4 * Z.of_nat (31 - i))) 15)).

Definition hex32 (n : Z) : list ascii :=
  map (hex32_digit n) (seq 0 32).

(** [UUID.__str__]: ['%s-%s-%s-%s-%s' % (hex[:8], hex[8:12], hex[12:16],
    hex[16:20], hex[20:])]. *)
Definition UUID_str (n : Z) : string :=
  let hex := hex32 n in
  let dash := ["-"%char] in
  string_of_list_ascii
    (firstn 8 hex ++ dash ++
     firstn 4 (skipn 8 hex) ++ dash ++
     firstn 4 (skipn 12 hex) ++ dash ++
     firstn 4 (skipn 16 hex) ++ dash ++
     skipn 20 hex).

(* ===================================================================== *)
(** * [datetime] and [strftime('%Y%m%d_%H%M%S')] *)
(* ===================================================================== *)

Record datetime := mkDatetime {
  dt_year : N; dt_month : N; dt_day : N;
  dt_hour : N; dt_minute : N; dt_second : N
}.

(** The ranges a [datetime] object guarantees, with the year at four
    digits (before year 1000 the padding of [%Y] depends on the C library). *)
Definition datetime_valid (d : datetime) : bool :=
  (1000 <=? dt_year d)%N && (dt_year d <=? 9999)%N &&
  (1 <=? dt_month d)%N && (dt_month d <=? 12)%N &&
  (1 <=? dt_day d)%N && (dt_day d <=? 31)%N &&
  (dt_hour d <=? 23)%N && (dt_minute d <=? 59)%N &&
  (dt_second d <=? 59)%N.

(** Decimal rendering, left-padded with zeros to [width] (never truncated). *)
Definition zero_pad (width : nat) (n : N) : string :=
  let s := NilEmpty.string_of_uint (N.to_uint n) in
  string_of_list_ascii (repeat "0"%char (width - String.length s)) ++ s.

Definition strftime_Ymd_HMS (d : datetime) : string :=
  zero_pad 4 (dt_year d) ++ zero_pad 2 (dt_month d) ++ zero_pad 2 (dt_day d)
  ++ "_" ++
  zero_pad 2 (dt_hour d) ++ zero_pad 2 (dt_minute d) ++ zero_pad 2 (dt_second d).

(* ===================================================================== *)
(** * JSON documents *)
(* ===================================================================== *)

(** The values [json.load] produces.  A [dict] keeps its keys in insertion
    order, which is the order [json.dump] prints them in, so it is an
    association list without repeated keys.  A float is kept as the text
    Python's [float()] was applied to (a number literal, or one of [NaN],
    [Infinity], [-Infinity]). *)
#[warnings="-register-all"]
Inductive json :=
| JNull
| JBool (b : bool)
| JInt (z : Z)
| JFloat (lit : pystr)
| JString (s : pystr)
| JArray (items : list json)
| JObject (members : list (pystr * json)).

Abbreviation dict := (list (pystr * json)).

(** [d[k]] as a lookup, and [d[k] = v]: an existing key keeps its position,
    a new key goes last. *)
Fixpoint dict_get (d : dict) (k : pystr) : option json :=
  match d with
  | [] => None
  | (k', v') :: rest => if decide (k' = k) then Some v' else dict_get rest k
  end.

Fixpoint dict_set (d : dict) (k : pystr) (v : json) : dict :=
  match d with
  | [] => [(k, v)]
  | (k', v') :: rest =>
      if decide (k' = k) then (k', v) :: rest else (k', v') :: dict_set rest k v
  end.

Definition dict_keys (d : dict) : list pystr := map fst d.

(** ** UTF-8 decoding ([open(..., encoding='utf-8')], strict) *)

Definition is_cont (b : N) : bool := (128 <=? b)%N && (b <=? 191)%N.
Definition cont_bits (b : N) : N := (b - 128)%N.

Fixpoint utf8_decode_N (bs : list N) : option pystr :=
  match bs with
  | [] => Some []
  | b0 :: r0 =>
    if (b0 <? 128)%N then cons b0 <$> utf8_decode_N r0
    else if (b0 <? 194)%N then None
    else if (b0 <? 224)%N then
      match r0 with
      | b1 :: r1 =>
        if is_cont b1
        then cons ((b0 - 192) * 64 + cont_bits b1)%N <$> utf8_decode_N r1
        else None
      | _ => None
      end
    else if (b0 <? 240)%N then
      match r0 with
      | b1 :: b2 :: r2 =>
        if is_cont b1 && is_cont b2
           && negb ((b0 =? 224)%N && (b1 <? 160)%N)
           && negb ((b0 =? 237)%N && (160 <=? b1)%N)
        then cons ((b0 - 224) * 4096 + cont_bits b1 * 64 + cont_bits b2)%N
               <$> utf8_decode_N r2
        else None
      | _ => None
      end
    else if (b0 <? 245)%N then
      match r0 with
      | b1 :: b2 :: b3 :: r3 =>
        if is_cont b1 && is_cont b2 && is_cont b3
           && negb ((b0 =? 240)%N && (b1 <? 144)%N)
           && negb ((b0 =? 244)%N && (144 <=? b1)%N)
        then cons ((b0 - 240) * 262144 + cont_bits b1 * 4096
                   + cont_bits b2 * 64 + cont_bits b3)%N
               <$> utf8_decode_N r3
        else None
      | _ => None
      end
    else None
  end.

Definition utf8_decode (bs : list byte) : option pystr :=
  utf8_decode_N (map Byte.to_N bs).

(** Text-mode reading translates ["\r\n"] and a lone ["\r"] to ["\n"]. *)
Fixpoint universal_newlines (s : pystr) : pystr :=
  match s with
  | [] => []
  | c :: r =>
    if (c =? 13)%N then
      match r with
      | c' :: r' => if (c' =? 10)%N then 10%N :: universal_newlines r'
                    else 10%N :: universal_newlines r
      | [] => [10%N]
      end
    else c :: universal_newlines r
  end.

(** ** The decoder ([json.decoder], strict mode) *)

Definition is_ws (c : N) : bool :=
  (c =? 32)%N || (c =? 9)%N || (c =? 10)%N || (c =? 13)%N.

Fixpoint skip_ws (s : pystr) : pystr :=
  match s with
  | c :: r => if is_ws c then skip_ws r else s
  | [] => []
  end.

Definition is_digit (c : N) : bool := (48 <=? c)%N && (c <=? 57)%N.

(** [s[idx:idx+len(lit)] == lit]: the rest of the input after [lit]. *)
Fixpoint strip_prefix (lit s : pystr) : option pystr :=
  match lit, s with
  | [], _ => Some s
  | a :: lit', b :: s' => if (a =? b)%N then strip_prefix lit' s' else None
  | _ :: _, [] => None
  end.

Definition hex_value (c : N) : option N :=
  if is_digit c then Some (c - 48)%N
  else if (97 <=? c)%N && (c <=? 102)%N then Some (c - 87)%N
  else if (65 <=? c)%N && (c <=? 70)%N then Some (c - 55)%N
  else None.

(** The four hex digits of a [\uXXXX] escape. *)
Definition decode_uXXXX (h1 h2 h3 h4 : N) : option N :=
  match hex_value h1, hex_value h2, hex_value h3, hex_value h4 with
  | Some a, Some b, Some c, Some d => Some (a * 4096 + b * 256 + c * 16 + d)%N
  | _, _, _, _ => None
  end.

Definition is_high_surrogate (u : N) : bool := (55296 <=? u)%N && (u <=? 56319)%N.
Definition is_low_surrogate (u : N) : bool := (56320 <=? u)%N && (u <=? 57343)%N.
Definition join_surrogates (hi lo : N) : N :=
  (65536 + ((hi - 55296) * 1024 + (lo - 56320)))%N.

(** The one-character escapes [BACKSLASH] of the decoder. *)
Definition simple_escape (e : N) : option N :=
  if (e =? 34)%N then Some 34%N          (* quote *)
  else if (e =? 92)%N then Some 92%N     (* backslash *)
  else if (e =? 47)%N then Some 47%N     (* slash *)
  else if (e =? 98)%N then Some 8%N      (* backspace *)
  else if (e =? 102)%N then Some 12%N    (* form feed *)
  else if (e =? 110)%N then Some 10%N    (* line feed *)
  else if (e =? 114)%N then Some 13%N    (* carriage return *)
  else if (e =? 116)%N then Some 9%N     (* tab *)
  else None.

Definition cons_char (c : N) (r : option (pystr * pystr)) : option (pystr * pystr) :=
  match r with
  | Some (t, rest) => Some (c :: t, rest)
  | None => None
  end.

(** [scanstring], entered after the opening quote: the decoded string and
    the input after the closing quote. *)
Fixpoint scanstring (s : pystr) : option (pystr * pystr) :=
  match s with
  | [] => None                                     (* unterminated string *)
  | c :: r =>
    if (c =? 34)%N then Some ([], r)
    else if (c =? 92)%N then
      match r with
      | [] => None
      | e :: r1 =>
        if (e =? 117)%N then
          match r1 with
          | h1 :: h2 :: h3 :: h4 :: r2 =>
            match decode_uXXXX h1 h2 h3 h4 with
            | None => None                         (* invalid unicode escape *)
            | Some uni =>
              if is_high_surrogate uni then
                match r2 with
                | b :: u :: g1 :: g2 :: g3 :: g4 :: r3 =>
                  if (b =? 92)%N && (u =? 117)%N then
                    match decode_uXXXX g1 g2 g3 g4 with
                    | None => None
                    | Some uni2 =>
                      if is_low_surrogate uni2
                      then cons_char (join_surrogates uni uni2) (scanstring r3)
                      else cons_char uni (scanstring r2)
                    end
                  else cons_char uni (scanstring r2)
                | _ => cons_char uni (scanstring r2)
                end
              else cons_char uni (scanstring r2)
            end
          | _ => None
          end
        else
          match simple_escape e with
          | Some ch => cons_char ch (scanstring r1)
          | None => None                           (* invalid escape *)
          end
      end
    else if (c <? 32)%N then None                  (* invalid control character *)
    else cons_char c (scanstring r)
  end.

(** The longest prefix of digits, and what follows it. *)
Fixpoint span_digits (s : pystr) : pystr * pystr :=
  match s with
  | c :: r => if is_digit c then let '(ds, rest) := span_digits r in (c :: ds, rest)
              else ([], s)
  | [] => ([], [])
  end.

Definition int_of_digits (ds : pystr) : Z :=
  fold_left (fun acc c => (acc * 10 + Z.of_N (c - 48))%Z) ds 0%Z.

(** [NUMBER_RE] matched at the head of the input, group by group: an
    integer part (an optional minus sign, then either a single zero or a
    nonzero digit followed by digits), an optional fraction (a dot and at
    least one digit) and an optional exponent (e or E, an optional sign, at
    least one digit).  A group that does not match in full is left in the
    rest of the input. *)
Definition match_integer (s : pystr) : option (pystr * pystr) :=
  let '(sign, s1) := match s with
                     | c :: r => if (c =? 45)%N then ([45%N], r) else ([], s)
                     | [] => ([], s)
                     end in
  match s1 with
  | c :: r =>
    if (c =? 48)%N then Some (sign ++ [c], r)
    else if is_digit c then let '(ds, rest) := span_digits r in Some (sign ++ c :: ds, rest)
    else None
  | [] => None
  end.

Definition match_frac (s : pystr) : pystr * pystr :=
  match s with
  | c :: r =>
    if (c =? 46)%N then
      match span_digits r with
      | ([], _) => ([], s)
      | (ds, rest) => (c :: ds, rest)
      end
    else ([], s)
  | [] => ([], s)
  end.

Definition match_exp (s : pystr) : pystr * pystr :=
  match s with
  | c :: r =>
    if (c =? 101)%N || (c =? 69)%N then
      let '(sign, r1) := match r with
                         | c' :: r' => if (c' =? 45)%N || (c' =? 43)%N then ([c'], r') else ([], r)
                         | [] => ([], r)
                         end in
      match span_digits r1 with
      | ([], _) => ([], s)
      | (ds, rest) => (c :: sign ++ ds, rest)
      end
    else ([], s)
  | [] => ([], s)
  end.

Definition match_number (s : pystr) : option (json * pystr) :=
  match match_integer s with
  | None => None
  | Some (integer, s1) =>
    let '(frac, s2) := match_frac s1 in
    let '(exp, s3) := match_exp s2 in
    match frac, exp with
    | [], [] =>
        Some (JInt (match integer with
                    | c :: ds => if (c =? 45)%N then (- int_of_digits ds)%Z
                                 else int_of_digits integer
                    | [] => 0%Z
                    end), s3)
    | _, _ => Some (JFloat (integer ++ frac ++ exp), s3)
    end
  end.

(** [scan_once], [JSONArray] and [JSONObject].  The recursion of the decoder
    is on the nesting of the document; here it is bounded by [fuel], and
    [json_loads] supplies more than any input can use. *)
Fixpoint scan_once (fuel : nat) (s : pystr) : option (json * pystr) :=
  match fuel with
  | O => None
  | S fuel =>
    match s with
    | [] => None                                   (* expecting value *)
    | c :: r =>
      if (c =? 34)%N then
        match scanstring r with
        | Some (str, rest) => Some (JString str, rest)
        | None => None
        end
      else if (c =? 123)%N then
        match skip_ws r with
        | c1 :: r1 =>
          if (c1 =? 125)%N then Some (JObject [], r1)
          else if (c1 =? 34)%N then
            match object_members fuel r1 [] with
            | Some (d, rest) => Some (JObject d, rest)
            | None => None
            end
          else None                                (* expecting property name *)
        | [] => None
        end
      else if (c =? 91)%N then
        match skip_ws r with
        | c1 :: r1 =>
          if (c1 =? 93)%N then Some (JArray [], r1)
          else
            match array_items fuel (c1 :: r1) with
            | Some (l, rest) => Some (JArray l, rest)
            | None => None
            end
        | [] => None
        end
      else
        match strip_prefix (str_lit "null") s with
        | Some rest => Some (JNull, rest)
        | None =>
        match strip_prefix (str_lit "true") s with
        | Some rest => Some (JBool true, rest)
        | None =>
        match strip_prefix (str_lit "false") s with
        | Some rest => Some (JBool false, rest)
        | None =>
        match match_number s with
        | Some res => Some res
        | None =>
        match strip_prefix (str_lit "NaN") s with
        | Some rest => Some (JFloat (str_lit "NaN"), rest)
        | None =>
        match strip_prefix (str_lit "Infinity") s with
        | Some rest => Some (JFloat (str_lit "Infinity"), rest)
        | None =>
        match strip_prefix (str_lit "-Infinity") s with
        | Some rest => Some (JFloat (str_lit "-Infinity"), rest)
        | None => None
        end end end end end end end
    end
  end

(** The loop of [JSONArray], entered at the first character of a value. *)
with array_items (fuel : nat) (s : pystr) : option (list json * pystr) :=
  match fuel with
  | O => None
  | S fuel =>
    match scan_once fuel s with
    | None => None
    | Some (v, s1) =>
      match skip_ws s1 with
      | c :: r =>
        if (c =? 93)%N then Some ([v], r)
        else if (c =? 44)%N then
          match array_items fuel (skip_ws r) with
          | Some (vs, rest) => Some (v :: vs, rest)
          | None => None
          end
        else None                                  (* expecting ',' delimiter *)
      | [] => None
      end
    end
  end

(** The loop of [JSONObject], entered after the opening quote of a key;
    [acc] is the dict built so far ([PyDict_SetItem] per pair, so a repeated
    key keeps its first position and its last value). *)
with object_members (fuel : nat) (s : pystr) (acc : dict) : option (dict * pystr) :=
  match fuel with
  | O => None
  | S fuel =>
    match scanstring s with
    | None => None
    | Some (key, s1) =>
      match skip_ws s1 with
      | c :: r =>
        if (c =? 58)%N then
          match scan_once fuel (skip_ws r) with
          | None => None
          | Some (v, s2) =>
            let acc' := dict_set acc key v in
            match skip_ws s2 with
            | c2 :: r2 =>
              if (c2 =? 125)%N then Some (acc', r2)
              else if (c2 =? 44)%N then
                match skip_ws r2 with
                | c3 :: r3 =>
                  if (c3 =? 34)%N then object_members fuel r3 acc'
                  else None                        (* expecting property name *)
                | [] => None
                end
              else None                            (* expecting ',' delimiter *)
            | [] => None
            end
          end
        else None                                  (* expecting ':' delimiter *)
      | [] => None
      end
    end
  end.

(** [json.loads]: leading whitespace, one value, trailing whitespace only. *)
Definition json_loads (s : pystr) : option json :=
  match scan_once (2 * length s + 2) (skip_ws s) with
  | Some (v, rest) =>
    match skip_ws rest with
    | [] => Some v
    | _ :: _ => None                               (* extra data *)
    end
  | None => None
  end.

(** ** The encoder ([json.dumps(obj, indent=2)], [ensure_ascii=True]) *)

Definition hex4 (n : N) : list ascii :=
  [hexdigit (n / 4096 mod 16); hexdigit (n / 256 mod 16);
   hexdigit (n / 16 mod 16); hexdigit (n mod 16)].

(** The replacement of one character by [py_encode_basestring_ascii]. *)
Definition escape_char (c : N) : list ascii :=
  let bs := "\"%char in
  if (c =? 92)%N then [bs; bs]
  else if (c =? 34)%N then [bs; "034"%char]
  else if (c =? 8)%N then [bs; "b"%char]
  else if (c =? 12)%N then [bs; "f"%char]
  else if (c =? 10)%N then [bs; "n"%char]
  else if (c =? 13)%N then [bs; "r"%char]
  else if (c =? 9)%N then [bs; "t"%char]
  else if (32 <=? c)%N && (c <=? 126)%N then [ascii_of_N c]
  else if (c <? 65536)%N then bs :: "u"%char :: hex4 c
  else
    let n := (c - 65536)%N in
    let s1 := N.lor 55296 (N.land (N.shiftr n 10) 1023) in
    let s2 := N.lor 56320 (N.land n 1023) in
    (bs :: "u"%char :: hex4 s1) ++ (bs :: "u"%char :: hex4 s2).

Definition encode_basestring_ascii (s : pystr) : string :=
  string_of_list_ascii (("034"%char :: flat_map escape_char s) ++ ["034"%char]).

Definition int_repr (z : Z) : string := NilZero.string_of_int (Z.to_int z).

(** A line break followed by [indent * level] spaces, with [indent = 2]. *)
Definition newline_indent (level : nat) : string :=
  String "010"%char (string_of_list_ascii (repeat " "%char (2 * level))).

(** [_iterencode] at nesting depth [level]; [floatstr] is the text the
    encoder prints for [float(lit)]. *)
Fixpoint iterencode (floatstr : pystr -> string) (level : nat) (o : json) : string :=
  match o with
  | JString s => encode_basestring_ascii s
  | JNull => "null"
  | JBool true => "true"
  | JBool false => "false"
  | JInt z => int_repr z
  | JFloat lit => floatstr lit
  | JArray [] => "[]"
  | JArray (x :: xs) =>
      "[" +:+ newline_indent (S level) +:+ iterencode floatstr (S level) x +:+
      (fix items (l : list json) : string :=
         match l with
         | [] => ""
         | y :: l' => "," +:+ newline_indent (S level)
                      +:+ iterencode floatstr (S level) y +:+ items l'
         end) xs +:+
      newline_indent level +:+ "]"
  | JObject [] => "{}"
  | JObject ((k, v) :: kvs) =>
      "{" +:+ newline_indent (S level) +:+ encode_basestring_ascii k +:+ ": "
      +:+ iterencode floatstr (S level) v +:+
      (fix members (l : dict) : string :=
         match l with
         | [] => ""
         | (k', v') :: l' => "," +:+ newline_indent (S level)
                             +:+ encode_basestring_ascii k' +:+ ": "
                             +:+ iterencode floatstr (S level) v' +:+ members l'
         end) kvs +:+
      newline_indent level +:+ "}"
  end.

Definition json_dumps (floatstr : pystr -> string) (o : json) : string :=
  iterencode floatstr 0 o.

(* ===================================================================== *)
(** * The run-time state *)
(* ===================================================================== *)

(** The exceptions of the run.  [OSError msg] is the one the script raises
    itself; the last five are the subclasses of [OSError] that the file
    system raises; the two decode errors are subclasses of [ValueError]. *)
Inductive exn :=
| OSError (msg : string)
| TypeError
| JSONDecodeError
| UnicodeDecodeError
| FileNotFoundError
| FileExistsError
| NotADirectoryError
| IsADirectoryError
| SameFileError.

Inductive result (A : Type) :=
| Ok (a : A)
| Raise (e : exn).
Arguments Ok {A} a.
Arguments Raise {A} e.

(** A path is the list of its components, the last one first: the head is
    the file name and the tail is [Path.parent].  The empty list is the
    anchor the other paths hang from. *)
Abbreviation path := (list string).

(** [p / name] of [pathlib]. *)
Notation "p // name" := (@cons string name p)
  (at level 40, left associativity, only parsing).

Definition parent (p : path) : path := tail p.
Definition basename (p : path) : string := hd "" p.

(** What [copy2] preserves besides the content: the permission bits and
    the modification time (a logical time, advanced by every write). *)
Record stat := mkStat { st_mode : N; st_mtime : N }.

Inductive node :=
| Dir
| File (content : list byte) (st : stat).

(** The file-system calls that create, read or write something, in the
    order they happen. *)
Inductive event :=
| EvMkdir (p : path)
| EvRead (p : path)
| EvWrite (p : path)
| EvCopystat (src dst : path).

Record world := mkWorld {
  fs : gmap path node;
  fs_time : N;
  entropy_pos : nat;          (* bytes already drawn from [os.urandom] *)
  clock_pos : nat;            (* readings already taken from the clock *)
  trace : list event;
  stdout : list pystr         (* the arguments of the [print] calls *)
}.

(** What the run reads from its environment. *)
Record env := mkEnv {
  platform_system : string;           (* [platform.system()] *)
  environ_APPDATA : option path;      (* [os.getenv("APPDATA")], as a path *)
  user_home : path;                   (* [os.path.expanduser("~")], as a path *)
  urandom_source : nat -> byte;       (* the stream behind [os.urandom] *)
  clock : nat -> datetime;            (* successive [datetime.now()] *)
  floatstr : pystr -> string;         (* what the encoder prints for a float *)
  create_mode : N                     (* mode of a file that [open] creates *)
}.

(** Statements run in a state monad over [world] that can raise: the state
    reached when an exception is raised is kept. *)
Definition M (A : Type) : Type := world -> result A * world.

Definition ret {A} (a : A) : M A := fun w => (Ok a, w).
Definition raise {A} (e : exn) : M A := fun w => (Raise e, w).
Definition lift {A} (r : result A) : M A := fun w => (r, w).
Definition bind {A B} (m : M A) (k : A -> M B) : M B :=
  fun w => match m w with
           | (Ok a, w') => k a w'
           | (Raise e, w') => (Raise e, w')
           end.

Notation "x <- c1 ;; c2" := (bind c1 (fun x => c2))
  (at level 100, c1 at next level, right associativity).
Notation "c1 ;;; c2" := (bind c1 (fun _ => c2))
  (at level 100, right associativity).

Definition log (ev : event) (w : world) : world :=
  mkWorld (fs w) (fs_time w) (entropy_pos w) (clock_pos w) (trace w ++ [ev]) (stdout w).

Definition set_fs (f : gmap path node) (w : world) : world :=
  mkWorld f (fs_time w) (entropy_pos w) (clock_pos w) (trace w) (stdout w).

Definition tick (w : world) : world :=
  mkWorld (fs w) (fs_time w + 1) (entropy_pos w) (clock_pos w) (trace w) (stdout w).

(** ** File-system calls *)

Definition node_at (f : gmap path node) (p : path) : option node :=
  match p with
  | [] => Some Dir
  | _ :: _ => f !! p
  end.

Definition exists_at (f : gmap path node) (p : path) : bool :=
  match node_at f p with Some _ => true | None => false end.

Definition isdir_at (f : gmap path node) (p : path) : bool :=
  match node_at f p with Some Dir => true | _ => false end.

(** [os.path.exists] and [Path.exists]. *)
Definition os_path_exists (p : path) : M bool := fun w => (Ok (exists_at (fs w) p), w).

(** [os.path.isdir] and [Path.is_dir]. *)
Definition os_path_isdir (p : path) : M bool := fun w => (Ok (isdir_at (fs w) p), w).

(** The error of creating or opening an entry whose directory is [dir]. *)
Definition check_parent (f : gmap path node) (dir : path) : option exn :=
  match node_at f dir with
  | Some Dir => None
  | Some (File _ _) => Some NotADirectoryError
  | None => Some FileNotFoundError
  end.

(** [os.mkdir]. *)
Definition os_mkdir (p : path) : M unit := fun w =>
  match node_at (fs w) p with
  | Some _ => (Raise FileExistsError, w)
  | None =>
    match check_parent (fs w) (parent p) with
    | Some e => (Raise e, w)
    | None => (Ok tt, log (EvMkdir p) (set_fs (<[p := Dir]> (fs w)) w))
    end
  end.

(** [Path.mkdir(parents=False, exist_ok=...)]: [FileNotFoundError] is
    re-raised; another [OSError] is swallowed when [exist_ok] holds and the
    path is a directory. *)
Definition Path_mkdir_flat (exist_ok : bool) (p : path) : M unit := fun w =>
  match os_mkdir p w with
  | (Ok tt, w1) => (Ok tt, w1)
  | (Raise FileNotFoundError, w1) => (Raise FileNotFoundError, w1)
  | (Raise e, w1) =>
      if negb exist_ok || negb (isdir_at (fs w1) p) then (Raise e, w1) else (Ok tt, w1)
  end.

(** [Path.mkdir(parents=True, exist_ok=...)]: on [FileNotFoundError] the
    parent is made first (with [exist_ok=True]) and the call is repeated
    without [parents]. *)
Fixpoint Path_mkdir_parents (exist_ok : bool) (p : path) : M unit := fun w =>
  match os_mkdir p w with
  | (Ok tt, w1) => (Ok tt, w1)
  | (Raise FileNotFoundError, w1) =>
      match p with
      | [] => (Raise FileNotFoundError, w1)
      | _ :: dir =>
        match Path_mkdir_parents true dir w1 with
        | (Ok tt, w2) => Path_mkdir_flat exist_ok p w2
        | (Raise e, w2) => (Raise e, w2)
        end
      end
  | (Raise e, w1) =>
      if negb exist_ok || negb (isdir_at (fs w1) p) then (Raise e, w1) else (Ok tt, w1)
  end.

(** [open(p, 'r')] / [open(p, 'rb')] followed by reading everything. *)
Definition read_file (p : path) : M (list byte) := fun w =>
  match node_at (fs w) p with
  | Some (File content _) => (Ok content, log (EvRead p) w)
  | Some Dir => (Raise IsADirectoryError, w)
  | None =>
    match check_parent (fs w) (parent p) with
    | Some NotADirectoryError => (Raise NotADirectoryError, w)
    | _ => (Raise FileNotFoundError, w)
    end
  end.

Section Runtime.

Variable E : env.

(** [open(p, 'w')] / [open(p, 'wb')] followed by writing [content]: an
    existing file keeps its mode, a new one gets [create_mode]. *)
Definition write_file (p : path) (content : list byte) : M unit := fun w =>
  match node_at (fs w) p with
  | Some Dir => (Raise IsADirectoryError, w)
  | Some (File _ st) =>
      (Ok tt, log (EvWrite p) (tick (set_fs
         (<[p := File content (mkStat (st_mode st) (fs_time w))]> (fs w)) w)))
  | None =>
    match check_parent (fs w) (parent p) with
    | Some e => (Raise e, w)
    | None =>
      (Ok tt, log (EvWrite p) (tick (set_fs
         (<[p := File content (mkStat (create_mode E) (fs_time w))]> (fs w)) w)))
    end
  end.

(** [shutil.copystat]: the destination takes the metadata of the source. *)
Definition shutil_copystat (src dst : path) : M unit := fun w =>
  match node_at (fs w) src, node_at (fs w) dst with
  | Some (File _ st), Some (File content _) =>
      (Ok tt, log (EvCopystat src dst) (set_fs (<[dst := File content st]> (fs w)) w))
  | Some _, Some _ => (Ok tt, w)
  | _, _ => (Raise FileNotFoundError, w)
  end.

(** [shutil.copyfile]. *)
Definition shutil_copyfile (src dst : path) : M unit :=
  if decide (src = dst) then raise SameFileError
  else
    content <- read_file src ;;
    write_file dst content.

(** [shutil.copy2]: a destination that is a directory receives the copy
    under the name of the source. *)
Definition shutil_copy2 (src dst : path) : M unit :=
  isdir <- os_path_isdir dst ;;
  let dst := if isdir then dst // basename src else dst in
  shutil_copyfile src dst ;;;
  shutil_copystat src dst.

(** ** The other library calls *)

(** [datetime.now()]. *)
Definition datetime_now : M datetime := fun w =>
  (Ok (clock E (clock_pos w)),
   mkWorld (fs w) (fs_time w) (entropy_pos w) (S (clock_pos w)) (trace w) (stdout w)).

(** [os.urandom(n)]. *)
Definition os_urandom (n : nat) : M (list byte) := fun w =>
  (Ok (map (urandom_source E) (seq (entropy_pos w) n)),
   mkWorld (fs w) (fs_time w) (entropy_pos w + n) (clock_pos w) (trace w) (stdout w)).

(** [uuid.uuid4()]: [UUID(bytes=os.urandom(16), version=4)]. *)
Definition uuid_uuid4 : M Z :=
  bs <- os_urandom 16 ;;
  ret (UUID_v4 bs).

Definition print (s : pystr) : M unit := fun w =>
  (Ok tt, mkWorld (fs w) (fs_time w) (entropy_pos w) (clock_pos w) (trace w) (stdout w ++ [s])).

(** What [json.load] makes of the bytes of a file opened in text mode with
    [encoding='utf-8']. *)
Definition decode_document (content : list byte) : result json :=
  match utf8_decode content with
  | None => Raise UnicodeDecodeError
  | Some text =>
    match json_loads (universal_newlines text) with
    | None => Raise JSONDecodeError
    | Some v => Ok v
    end
  end.

(** [with open(p, 'r', encoding='utf-8') as f: json.load(f)]. *)
Definition json_load (p : path) : M json :=
  content <- read_file p ;;
  lift (decode_document content).

(** Text-mode writing translates a line feed to [os.linesep]. *)
Fixpoint translate_newlines (s : string) : string :=
  match s with
  | EmptyString => EmptyString
  | String c s' =>
      if Ascii.eqb c "010"%char
      then String "013"%char (String "010"%char (translate_newlines s'))
      else String c (translate_newlines s')
  end.

Definition text_bytes (s : string) : list byte :=
  str_encode_ascii
    (if String.eqb (platform_system E) "Windows" then translate_newlines s else s).

(** [json.dump(data, f, indent=2)] for [f] opened with ['w'] and
    [encoding='utf-8']. *)
Definition json_dump (data : json) (p : path) : M unit :=
  write_file p (text_bytes (json_dumps (floatstr E) data)).

(** [data[key] = value]: only a [dict] supports it for a [str] key. *)
Definition setitem (data : json) (key : pystr) (value : json) : M json :=
  match data with
  | JObject d => ret (JObject (dict_set d key value))
  | _ => raise TypeError
  end.

(* ===================================================================== *)
(** * The script *)
(* ===================================================================== *)

(** The path spelled [f"{file_path}.backup_{timestamp}"]: the suffix
    extends the last component. *)
Definition backup_path_of (file_path : path) (timestamp : string) : path :=
  match file_path with
  | name :: dir => dir // (name +:+ ".backup_" +:+ timestamp)
  | [] => [] // (".backup_" +:+ timestamp)
  end.

Definition backup_file (file_path : path) : M unit :=
  present <- os_path_exists file_path ;;
  if present then
    now <- datetime_now ;;
    let backup_path := backup_path_of file_path (strftime_Ymd_HMS now) in
    shutil_copy2 file_path backup_path
  else ret tt.

Definition get_storage_file : M path :=
  let system := platform_system E in
  if String.eqb system "Windows" then
    match environ_APPDATA E with
    | Some appdata =>
        ret (appdata // "Cursor" // "User" // "globalStorage" // "storage.json")
    | None => raise TypeError        (* [Path(None)] *)
    end
  else if String.eqb system "Darwin" then
    ret (user_home E // "Library" // "Application Support" // "Cursor" // "User"
           // "globalStorage" // "storage.json")
  else if String.eqb system "Linux" then
    ret (user_home E // ".config" // "Cursor" // "User"
           // "globalStorage" // "storage.json")
  else raise (OSError ("Unsupported operating system: " +:+ system)).

Definition key_machineId : pystr := str_lit "telemetry.machineId".
Definition key_macMachineId : pystr := str_lit "telemetry.macMachineId".
Definition key_devDeviceId : pystr := str_lit "telemetry.devDeviceId".

(** The first line the script prints (it starts with U+1F389 and ends with
    a line feed of its own). *)
Definition success_message : pystr :=
  127881%N ::
  str_lit " Device IDs have been successfully reset. The new device IDs are: "
  ++ [10%N].

Definition reset_cursor_id : M unit :=
  storage_file <- get_storage_file ;;
  Path_mkdir_parents true (parent storage_file) ;;;
  backup_file storage_file ;;;
  present <- os_path_exists storage_file ;;
  data <- (if negb present then ret (JObject []) else json_load storage_file) ;;
  machine_id <- (bs <- os_urandom 32 ;; ret (bytes_hex bs)) ;;
  mac_machine_id <- (bs <- os_urandom 32 ;; ret (bytes_hex bs)) ;;
  dev_device_id <- (u <- uuid_uuid4 ;; ret (UUID_str u)) ;;
  data <- setitem data key_machineId (JString (str_lit machine_id)) ;;
  data <- setitem data key_macMachineId (JString (str_lit mac_machine_id)) ;;
  data <- setitem data key_devDeviceId (JString (str_lit dev_device_id)) ;;
  json_dump data storage_file ;;;
  print success_message ;;;
  print (str_lit (json_dumps (floatstr E)
           (JObject [(str_lit "machineId", JString (str_lit machine_id));
                     (str_lit "macMachineId", JString (str_lit mac_machine_id));
                     (str_lit "devDeviceId", JString (str_lit dev_device_id))]))).

End Runtime.


(* ===================================================================== *)
(** * Textual patterns *)
(* ===================================================================== *)

(** A pattern is a list of character classes; a text matches it when it
    has one character per class, each in its class (the anchored regular
    expressions of the identifier and timestamp formats are of this kind). *)
Fixpoint match_classes (classes : list (ascii -> bool)) (s : list ascii) : bool :=
  match classes, s with
  | [], [] => true
  | cl :: classes', c :: s' => cl c && match_classes classes' s'
  | _, _ => false
  end.

Definition in_range (lo hi : ascii) (c : ascii) : bool :=
  (N_of_ascii lo <=? N_of_ascii c)%N && (N_of_ascii c <=? N_of_ascii hi)%N.

(** [[0-9]], [[0-9a-f]], [[89ab]] and single characters. *)
Definition cl_digit (c : ascii) : bool := in_range "0" "9" c.
Definition cl_hex (c : ascii) : bool := in_range "0" "9" c || in_range "a" "f" c.
Definition cl_variant (c : ascii) : bool :=
  Ascii.eqb c "8" || Ascii.eqb c "9" || Ascii.eqb c "a" || Ascii.eqb c "b".
Definition cl_char (x : ascii) (c : ascii) : bool := Ascii.eqb c x.

(** [^[0-9a-f]{64}$] *)
Definition pattern_hex64 : list (ascii -> bool) := repeat cl_hex 64.

(** [^[0-9a-f]{8}-[0-9a-f]{4}-4[0-9a-f]{3}-[89ab][0-9a-f]{3}-[0-9a-f]{12}$] *)
Definition pattern_uuid4 : list (ascii -> bool) :=
  repeat cl_hex 8 ++ [cl_char "-"] ++
  repeat cl_hex 4 ++ [cl_char "-"] ++
  [cl_char "4"] ++ repeat cl_hex 3 ++ [cl_char "-"] ++
  [cl_variant] ++ repeat cl_hex 3 ++ [cl_char "-"] ++
  repeat cl_hex 12.

(** [^[0-9]{8}_[0-9]{6}$], the shape of [YYYYMMDD_HHMMSS]. *)
Definition pattern_timestamp : list (ascii -> bool) :=
  repeat cl_digit 8 ++ [cl_char "_"] ++ repeat cl_digit 6.

Definition matches (pattern : list (ascii -> bool)) (s : string) : bool :=
  match_classes pattern (list_ascii_of_string s).

Definition count_digits (s : string) : nat :=
  length (List.filter cl_digit (list_ascii_of_string s)).

(** The decimal digit of [n] at position [k] (units at 0), as a character. *)
Definition dec_digit (n k : N) : ascii := ascii_of_N (48 + n / 10 ^ k mod 10).

(* ===================================================================== *)
(** * The values of a run *)
(* ===================================================================== *)

(** The identifiers that lines 80-82 generate when [pos] bytes of the
    random stream have been used: two draws of 32 bytes, then the 16 bytes
    of the UUID. *)
Definition machine_id_at (E : env) (pos : nat) : string :=
  bytes_hex (map (urandom_source E) (seq pos 32)).
Definition mac_machine_id_at (E : env) (pos : nat) : string :=
  bytes_hex (map (urandom_source E) (seq (pos + 32) 32)).
Definition dev_device_id_at (E : env) (pos : nat) : string :=
  UUID_str (UUID_v4 (map (urandom_source E) (seq (pos + 32 + 32) 16))).

(** Lines 85-87 on a mapping [d]. *)
Definition set_ids (E : env) (pos : nat) (d : dict) : dict :=
  dict_set
    (dict_set
       (dict_set d key_machineId (JString (str_lit (machine_id_at E pos))))
       key_macMachineId (JString (str_lit (mac_machine_id_at E pos))))
    key_devDeviceId (JString (str_lit (dev_device_id_at E pos))).

(** The bytes that line 91 writes for the document [d]. *)
Definition saved_bytes (E : env) (d : dict) : list byte :=
  text_bytes E (json_dumps (floatstr E) (JObject d)).

(** The second thing printed: the three identifiers as a JSON object. *)
Definition report (E : env) (pos : nat) : pystr :=
  str_lit (json_dumps (floatstr E)
    (JObject [(str_lit "machineId", JString (str_lit (machine_id_at E pos)));
              (str_lit "macMachineId", JString (str_lit (mac_machine_id_at E pos)));
              (str_lit "devDeviceId", JString (str_lit (dev_device_id_at E pos)))])).

(** The path of the backup taken at the next clock reading of [w]. *)
Definition next_backup_path (E : env) (w : world) (file_path : path) : path :=
  backup_path_of file_path (strftime_Ymd_HMS (clock E (clock_pos w))).

(** [Path.mkdir(parents=True, exist_ok=True)] walks up from [dir] to the
    first entry that exists: it succeeds unless that entry is a file. *)
Fixpoint dirs_clear (f : gmap path node) (dir : path) : bool :=
  match dir with
  | [] => true
  | _ :: up =>
    match f !! dir with
    | Some Dir => true
    | Some (File _ _) => false
    | None => dirs_clear f up
    end
  end.

(** The directories it creates, outermost first, and the file system it
    leaves. *)
Fixpoint made_dirs (f : gmap path node) (dir : path) : list path :=
  match dir with
  | [] => []
  | _ :: up =>
    match f !! dir with
    | Some _ => []
    | None => made_dirs f up ++ [dir]
    end
  end.

Fixpoint makedirs (f : gmap path node) (dir : path) : gmap path node :=
  match dir with
  | [] => f
  | _ :: up =>
    match f !! dir with
    | Some _ => f
    | None => <[dir := Dir]> (makedirs f up)
    end
  end.

Definition after_mkdir (w : world) (dir : path) : world :=
  mkWorld (makedirs (fs w) dir) (fs_time w) (entropy_pos w) (clock_pos w)
          (trace w ++ map EvMkdir (made_dirs (fs w) dir)) (stdout w).

Definition is_object (v : json) : bool :=
  match v with JObject _ => true | _ => false end.

(** The world after the backup step, when [p] held the file [File c st]. *)
Definition after_backup (E : env) (w : world) (p : path) (c : list byte)
           (st : stat) : world :=
  mkWorld (<[next_backup_path E w p := File c st]> (fs w))
          (fs_time w + 1) (entropy_pos w) (S (clock_pos w))
          (trace w ++ [EvRead p; EvWrite (next_backup_path E w p);
                       EvCopystat p (next_backup_path E w p)])
          (stdout w).

(** The world after lines 80-82 have drawn their 80 random bytes. *)
Definition after_draws (w : world) : world :=
  mkWorld (fs w) (fs_time w) (entropy_pos w + 32 + 32 + 16) (clock_pos w)
          (trace w) (stdout w).

(** The world after line 91 has written [content] to [p] and lines 94-102
    have printed; [pos] is where the random bytes of the run were drawn. *)
Definition after_save (E : env) (w : world) (p : path) (content : list byte)
           (mode : N) (pos : nat) : world :=
  mkWorld (<[p := File content (mkStat mode (fs_time w))]> (fs w))
          (fs_time w + 1) (entropy_pos w) (clock_pos w)
          (trace w ++ [EvWrite p])
          (stdout w ++ [success_message; report E pos]).

(** A step is quiet when it neither draws random bytes nor prints. *)
Definition quiet {A} (m : M A) : Prop :=
  forall w r w', m w = (r, w') ->
    entropy_pos w' = entropy_pos w /\ stdout w' = stdout w.

(** A step touches at most [q0] when it leaves every other path alone. *)
Definition touches_only {A} (q0 : path) (m : M A) : Prop :=
  forall w r w', m w = (r, w') -> forall q, q <> q0 -> fs w' !! q = fs w !! q.

(** The value of a hex digit, and of the two digits of a byte. *)
Definition hexdigit_value (c : ascii) : N :=
  match hex_value (N_of_ascii c) with Some v => v | None => 0%N end.

Definition byte_unhex (digits : list ascii) : N :=
  match digits with
  | [hi; lo] => (16 * hexdigit_value hi + hexdigit_value lo)%N
  | _ => 0%N
  end.

(** The mode of the file that [open(p, 'w')] leaves at [p]. *)
Definition write_mode (E : env) (f : gmap path node) (p : path) : N :=
  match node_at f p with
  | Some (File _ st) => st_mode st
  | _ => create_mode E
  end.

(** The three telemetry keys. *)
Definition is_id_key (k : pystr) : bool :=
  bool_decide (k = key_machineId) || bool_decide (k = key_macMachineId)
  || bool_decide (k = key_devDeviceId).

(** Where [shutil.copy2] puts the backup: inside the backup path when that
    is an existing directory, at the backup path otherwise. *)
Definition backup_target (E : env) (w : world) (file_path : path) : path :=
  let backup_path := next_backup_path E w file_path in
  if isdir_at (fs w) backup_path then backup_path // basename file_path
  else backup_path.

(** The error of [Path.mkdir(parents=True, exist_ok=True)] when a file is
    in the way. *)
Definition mkdir_error (f : gmap path node) (dir : path) : exn :=
  if exists_at f dir then FileExistsError else NotADirectoryError.

(** The world after one more reading of the clock. *)
Definition after_clock (w : world) : world :=
  mkWorld (fs w) (fs_time w) (entropy_pos w) (S (clock_pos w)) (trace w) (stdout w).

(** A step that does not read the clock. *)
Definition keeps_clock {A} (m : M A) : Prop :=
  forall w r w', m w = (r, w') -> clock_pos w' = clock_pos w.

(** A Unicode scalar value: a code point up to U+10FFFF that is not a
    surrogate. *)
Definition is_scalar (c : N) : bool :=
  (c <? 1114112)%N && negb ((55296 <=? c)%N && (c <=? 57343)%N).

(** The code points of the characters of a text. *)
Definition codes (l : list ascii) : pystr := map N_of_ascii l.

(** What may follow a number in a text for the number to end there. *)
Definition number_ends (rest : pystr) : bool :=
  match rest with
  | [] => true
  | c :: _ => negb (is_digit c) && negb (c =? 46)%N && negb (c =? 101)%N
              && negb (c =? 69)%N
  end.

(** The documents on which encoder and decoder agree whatever the
    platform prints for a float: no float, strings made of scalar values,
    no repeated key. *)
Fixpoint plain (v : json) : bool :=
  match v with
  | JNull | JBool _ | JInt _ => true
  | JFloat _ => false
  | JString s => forallb is_scalar s
  | JArray items => forallb plain items
  | JObject members =>
      forallb (fun kv => forallb is_scalar (fst kv) && plain (snd kv)) members
      && bool_decide (NoDup (dict_keys members))
  end.

(** The loops of [_iterencode_list] and [_iterencode_dict] after the
    first element. *)
Fixpoint items_text (floatstr : pystr -> string) (level : nat) (l : list json)
  : string :=
  match l with
  | [] => ""
  | y :: l' => "," +:+ newline_indent (S level)
               +:+ iterencode floatstr (S level) y +:+ items_text floatstr level l'
  end.

Fixpoint members_text (floatstr : pystr -> string) (level : nat) (l : dict)
  : string :=
  match l with
  | [] => ""
  | (k, v) :: l' => "," +:+ newline_indent (S level)
                    +:+ encode_basestring_ascii k +:+ ": "
                    +:+ iterencode floatstr (S level) v
                    +:+ members_text floatstr level l'
  end.

(** Fuel that is enough to decode the text of a document. *)
Fixpoint decode_cost (v : json) : nat :=
  match v with
  | JArray items => S (list_sum (map (fun x => S (decode_cost x)) items))
  | JObject members => S (list_sum (map (fun kv => S (decode_cost (snd kv))) members))
  | _ => 1
  end.

(** The decoder reads a document back from its text, whatever follows. *)
Definition decodes_back (floatstr : pystr -> string) (v : json) : Prop :=
  forall (level fuel : nat) (rest : pystr),
    (decode_cost v <= fuel)%nat -> number_ends rest = true ->
    scan_once fuel (str_lit (iterencode floatstr level v) ++ rest) = Some (v, rest).

(** A character that text-mode writing and reading leave alone on every
    platform: ASCII (one byte in UTF-8) and not a carriage return. *)
Definition is_clean (c : N) : bool := (c <? 128)%N && negb (c =? 13)%N.

(** What the encoder guarantees about the text of a document. *)
Definition encodes_well (floatstr : pystr -> string) (v : json) : Prop :=
  forall level : nat,
    (decode_cost v <= length (str_lit (iterencode floatstr level v)))%nat /\
    forallb is_clean (str_lit (iterencode floatstr level v)) = true.

(** A step that removes no entry of the file system and keeps every
    directory a directory. *)
Definition keeps_entries {A} (m : M A) : Prop :=
  forall w r w', m w = (r, w') ->
    forall q n, fs w !! q = Some n ->
      exists n', fs w' !! q = Some n' /\ (n = Dir -> n' = Dir).

(** A code point: any value up to U+10FFFF, surrogates included (a Python
    [str] can hold a lone surrogate). *)
Definition is_code_point (c : N) : bool := (c <? 1114112)%N.

(** No high surrogate is directly followed by a low surrogate. *)
Fixpoint no_split_pair (s : pystr) : bool :=
  match s with
  | c :: r =>
      match r with
      | c' :: _ => negb (is_high_surrogate c && is_low_surrogate c')
      | [] => true
      end && no_split_pair r
  | [] => true
  end.

(** The strings the decoder produces from a text of scalar values. *)
Definition well_formed_str (s : pystr) : bool :=
  forallb is_code_point s && no_split_pair s.

(** The input starts with the escape of a low surrogate. *)
Definition starts_low_escape (r : pystr) : bool :=
  match r with
  | b :: u :: r' =>
      (b =? 92)%N && (u =? 117)%N &&
      match r' with
      | g1 :: g2 :: g3 :: g4 :: _ =>
          match decode_uXXXX g1 g2 g3 g4 with
          | Some lo => is_low_surrogate lo
          | None => true
          end
      | _ => false
      end
  | _ => false
  end.

(** [m * 10 ^ e] as a binary64 float: the nearest one, ties to even, an
    infinity beyond the range (the rounding of C's [strtod], which
    [float()] applies to a literal). *)
Definition round_decimal (negative : bool) (m e : Z) : spec_float :=
  match m with
  | Zpos p =>
      if (0 <=? e)%Z
      then binary_normalize 53 1024 ((if negative then - m else m) * 10 ^ e) 0 false
      else SFdiv 53 1024 (S754_finite negative p 0)
                 (S754_finite false (Z.to_pos (10 ^ (- e))) 0)
  | _ => S754_zero negative
  end.

(** [float(lit)] of the decoder, for the literal of a [JFloat]: one of the
    three constants, or a number literal with the digits [m] of its integer
    part and fraction and the exponent [e], which denotes [m * 10 ^ e]. *)
Definition float_value (lit : pystr) : spec_float :=
  if bool_decide (lit = str_lit "NaN") then S754_nan
  else if bool_decide (lit = str_lit "Infinity") then S754_infinity false
  else if bool_decide (lit = str_lit "-Infinity") then S754_infinity true
  else
    match match_integer lit with
    | None => S754_nan
    | Some (integer, s1) =>
      let '(frac, s2) := match_frac s1 in
      let '(exp, _) := match_exp s2 in
      let negative := match integer with c :: _ => (c =? 45)%N | [] => false end in
      let int_digits := if negative then tail integer else integer in
      let frac_digits := tail frac in
      let exponent :=
        match exp with
        | _ :: c :: ds =>
            if (c =? 45)%N then (- int_of_digits ds)%Z
            else if (c =? 43)%N then int_of_digits ds
            else int_of_digits (c :: ds)
        | _ => 0%Z
        end in
      round_decimal negative (int_of_digits (int_digits ++ frac_digits))
                    (exponent - Z.of_nat (length frac_digits))
    end.

(** A text the encoder may print for a float: one of the three constants,
    or a number literal that the decoder reads in full, as a float. *)
Definition is_float_text (t : pystr) : bool :=
  forallb is_clean t &&
  (bool_decide (t = str_lit "NaN") || bool_decide (t = str_lit "Infinity")
   || bool_decide (t = str_lit "-Infinity")
   || match match_number t with
      | Some (JFloat _, []) => true
      | _ => false
      end).

(** The documents the decoder produces: strings without a split surrogate
    pair, no repeated key in an object. *)
Fixpoint well_formed (v : json) : bool :=
  match v with
  | JString s => well_formed_str s
  | JArray items => forallb well_formed items
  | JObject members =>
      forallb (fun kv => well_formed_str (fst kv) && well_formed (snd kv)) members
      && bool_decide (NoDup (dict_keys members))
  | _ => true
  end.

(** The float literals of a document. *)
Fixpoint floats_of (v : json) : list pystr :=
  match v with
  | JFloat lit => [lit]
  | JArray items => flat_map floats_of items
  | JObject members => flat_map (fun kv => floats_of (snd kv)) members
  | _ => []
  end.

(** The encoder prints the float [float(lit)] as a float text that denotes
    the same float. *)
Definition prints_back (floatstr : pystr -> string) (lit : pystr) : Prop :=
  is_float_text (str_lit (floatstr lit)) = true /\
  float_value (str_lit (floatstr lit)) = float_value lit.

(** Every float of a document prints back. *)
Definition floats_print_back (floatstr : pystr -> string) (v : json) : Prop :=
  Forall (prints_back floatstr) (floats_of v).

(** The documents that [_iterencode] prints as a text the decoder reads:
    well formed, each float printed as a float text. *)
Fixpoint dumpable (floatstr : pystr -> string) (v : json) : bool :=
  match v with
  | JFloat lit => is_float_text (str_lit (floatstr lit))
  | JString s => well_formed_str s
  | JArray items => forallb (dumpable floatstr) items
  | JObject members =>
      forallb (fun kv => well_formed_str (fst kv) && dumpable floatstr (snd kv)) members
      && bool_decide (NoDup (dict_keys members))
  | _ => true
  end.

(** The document that the decoder reads from the text of [v]: [v] with
    each float literal replaced by the text printed for it. *)
Fixpoint reread (floatstr : pystr -> string) (v : json) : json :=
  match v with
  | JFloat lit => JFloat (str_lit (floatstr lit))
  | JArray items => JArray (map (reread floatstr) items)
  | JObject members =>
      JObject (map (fun kv => (fst kv, reread floatstr (snd kv))) members)
  | _ => v
  end.

(** Two documents that differ at most in the way their floats are written:
    the same structure, keys, strings and integers, and at each float the
    same binary64 value. *)
#[warnings="-register-all"]
Inductive same_document : json -> json -> Prop :=
| same_null : same_document JNull JNull
| same_bool b : same_document (JBool b) (JBool b)
| same_int z : same_document (JInt z) (JInt z)
| same_float a b : float_value a = float_value b -> same_document (JFloat a) (JFloat b)
| same_string s : same_document (JString s) (JString s)
| same_array l l' : Forall2 same_document l l' -> same_document (JArray l) (JArray l')
| same_object d d' :
    Forall2 (fun kv kv' => fst kv = fst kv' /\ same_document (snd kv) (snd kv')) d d' ->
    same_document (JObject d) (JObject d').

(** The decoder reads a document back from its text, whatever follows. *)
Definition reads_back (floatstr : pystr -> string) (v : json) : Prop :=
  forall (level fuel : nat) (rest : pystr),
    (decode_cost v <= fuel)%nat -> number_ends rest = true ->
    scan_once fuel (str_lit (iterencode floatstr level v) ++ rest)
    = Some (reread floatstr v, rest).

(** The first character of a string is a low surrogate. *)
Definition head_low (t : pystr) : bool :=
  match t with
  | c :: _ => is_low_surrogate c
  | [] => false
  end.





(** The text of a float literal. *)
Definition literal_text (lit : pystr) : string :=
  string_of_list_ascii (map ascii_of_N lit).

(* ===================================================================== *)
(** * Example environments and worlds *)
(* ===================================================================== *)

(** A deterministic stand-in for the random stream: byte [i] is [7 i mod 256]. *)
Definition example_entropy (i : nat) : byte :=
  match Byte.of_N (N.of_nat i * 7 mod 256) with
  | Some b => b
  | None => Byte.x00
  end.

(** A clock that advances by one second per reading, and one that is read
    twice within the same second. *)
Definition ticking_clock (i : nat) : datetime :=
  mkDatetime 2024 12 10 15 30 (N.of_nat i).
Definition frozen_clock (i : nat) : datetime :=
  mkDatetime 2024 12 10 15 30 0.

Definition example_home : path := [] // "home" // "alice".

Definition linux_env : env :=
  mkEnv "Linux" None example_home example_entropy ticking_clock
        (fun _ => "0.0") 420.
Definition linux_env_frozen : env :=
  mkEnv "Linux" None example_home example_entropy frozen_clock
        (fun _ => "0.0") 420.
Definition windows_env_no_appdata : env :=
  mkEnv "Windows" None example_home example_entropy ticking_clock
        (fun _ => "0.0") 420.
Definition freebsd_env : env :=
  mkEnv "FreeBSD" None example_home example_entropy ticking_clock
        (fun _ => "0.0") 420.

Definition example_dir : path :=
  example_home // ".config" // "Cursor" // "User" // "globalStorage".
Definition example_file : path := example_dir // "storage.json".

(** A world whose only entries are the storage directory and a storage
    file with the given text. *)
Definition world_with (text : string) : world :=
  mkWorld (<[example_file := File (str_encode_ascii text) (mkStat 384 7)]>
             (<[example_dir := Dir]> ∅))
          10 0 0 [] [].

Definition empty_world : world := mkWorld ∅ 0 0 0 [] [].

(** [q s] is [s] between double quotes. *)
Definition q (s : string) : string :=
  String "034"%char (s +:+ String "034"%char "").

(** The document of the specification's example, and some malformed and
    non-object contents. *)
Definition example_document : string :=
  "{" +:+ q "A" +:+ ": 1, " +:+ q "telemetry.machineId" +:+ ": " +:+ q "old" +:+ "}".
Definition example_dict : dict :=
  [(str_lit "A", JInt 1); (key_machineId, JString (str_lit "old"))].
Definition example_stat : stat := mkStat 384 7.

(** The sibling entries of [p] whose name extends that of [p] with
    [.backup_]. *)
Definition is_backup_of (p candidate : path) : bool :=
  bool_decide (parent candidate = parent p)
  && String.prefix (basename p +:+ ".backup_") (basename candidate).

Definition backups_of (f : gmap path node) (p : path) : list path :=
  List.filter (is_backup_of p) (map fst (map_to_list f)).

(** A world where a regular file stands at [~/.config]. *)
Definition blocked_world : world :=
  mkWorld (<[example_home // ".config" := File [] example_stat]> ∅) 3 0 0 [] [].

(** A world where [storage.json] is a directory. *)
Definition directory_world : world :=
  mkWorld (<[example_file := Dir]> (<[example_dir := Dir]> ∅)) 3 0 0 [] [].

(** A world where a directory already has the name of the next backup. *)
Definition backup_dir_world : world :=
  mkWorld (<[example_dir // "storage.json.backup_20241210_153000" := Dir]>
             (fs (world_with "{}")))
          10 0 0 [] [].

(** A valid clock reading. *)
Definition example_datetime : datetime := mkDatetime 2024 12 10 15 30 0.

(** A document with a negative number, an escape, a character beyond the
    basic plane and some nesting. *)
Definition example_value : json :=
  JObject [(str_lit "a", JArray [JInt (-12); JNull; JBool true; JArray []]);
           (str_lit "b", JString [127881%N; 34%N; 10%N; 233%N]);
           (str_lit "c", JObject [(str_lit "d", JObject [])])].

(** An environment whose encoder prints a float with the text it was read
    from, which is what Python prints for a float written in the shortest
    form that denotes it ([1.5], [0.1], [1e+16], [NaN]). *)
Definition linux_env_floats : env :=
  mkEnv "Linux" None example_home example_entropy ticking_clock literal_text 420.

(** A document with a float, and one with a constant. *)
Definition float_document : string :=
  "{" +:+ q "A" +:+ ": 1.5, " +:+ q "telemetry.machineId" +:+ ": " +:+ q "old" +:+ "}".
Definition float_dict : dict :=
  [(str_lit "A", JFloat (str_lit "1.5")); (key_machineId, JString (str_lit "old"))].

(** A document with a lone surrogate, a repeated key and two floats, and
    what the decoder makes of it. *)
Definition surrogate_document : string :=
  "{" +:+ q "k" +:+ ": [" +:+ q "\ud800" +:+ ", 0.1, -Infinity, {" +:+ q "k"
  +:+ ": 1, " +:+ q "k" +:+ ": 2}]}".
Definition surrogate_value : json :=
  JObject [(str_lit "k",
            JArray [JString [55296%N]; JFloat (str_lit "0.1");
                    JFloat (str_lit "-Infinity");
                    JObject [(str_lit "k", JInt 2)]])].

(* ===================================================================== *)
(** * Identifier formats *)
(* ===================================================================== *)

Lemma hexdigit_hex (n : N) : (n < 16)%N -> cl_hex (hexdigit n) = true.
Proof.
  intros H.
  assert (Hn : (N.to_nat n < 16)%nat) by lia.
  unfold hexdigit. generalize dependent (N.to_nat n). intros k Hk.
  do 16 (destruct k as [|k]; [reflexivity|]). lia.
Qed.

Lemma byte_hex_hex (b : byte) : forallb cl_hex (byte_hex b) = true.
Proof.
  unfold byte_hex. cbn [forallb].
  rewrite !hexdigit_hex; [reflexivity| |].
  - apply N.mod_lt. discriminate.
  - apply N.Div0.div_lt_upper_bound. pose proof (Byte.to_N_bounded b). lia.
Qed.

Lemma match_classes_repeat (cl : ascii -> bool) (s : list ascii) :
  match_classes (repeat cl (length s)) s = forallb cl s.
Proof.
  induction s as [|c s IH]; cbn; [reflexivity|]. now rewrite IH.
Qed.

Lemma flat_map_byte_hex_length (bs : list byte) :
  length (flat_map byte_hex bs) = (2 * length bs)%nat.
Proof. induction bs as [|b bs IH]; cbn [flat_map length app]; [reflexivity|]. cbn. lia. Qed.

Lemma flat_map_byte_hex_hex (bs : list byte) :
  forallb cl_hex (flat_map byte_hex bs) = true.
Proof.
  induction bs as [|b bs IH]; [reflexivity|].
  cbn [flat_map]. rewrite forallb_app, byte_hex_hex, IH. reflexivity.
Qed.

(** The hex encoding of 32 bytes matches [^[0-9a-f]{64}$]. *)
Lemma bytes_hex_matches (bs : list byte) :
  length bs = 32%nat -> matches pattern_hex64 (bytes_hex bs) = true.
Proof.
  intros Hlen. unfold matches, bytes_hex, pattern_hex64.
  rewrite list_ascii_of_string_of_list_ascii.
  replace 64%nat with (length (flat_map byte_hex bs))
    by (rewrite flat_map_byte_hex_length; lia).
  rewrite match_classes_repeat. apply flat_map_byte_hex_hex.
Qed.

Lemma nibble_range (x : Z) : (0 <= Z.land x 15 < 16)%Z.
Proof.
  change 15%Z with (Z.ones 4). rewrite Z.land_ones by lia.
  apply Z.mod_pos_bound. reflexivity.
Qed.

Lemma hex32_digit_hex (n : Z) (i : nat) : cl_hex (hex32_digit n i) = true.
Proof.
  unfold hex32_digit. apply hexdigit_hex.
  pose proof (nibble_range (Z.shiftr n (4 * Z.of_nat (31 - i)))). lia.
Qed.

(** The version nibble (bits 76..79) of a version-4 UUID is 4. *)
Lemma UUID_v4_version (bs : list byte) :
  Z.land (Z.shiftr (UUID_v4 bs) 76) 15 = 4%Z.
Proof.
  unfold UUID_v4. cbv zeta.
  rewrite Z.shiftr_lor, Z.shiftr_land, Z.land_lor_distr_l, <- Z.land_assoc.
  replace (Z.land (Z.shiftr (Z.lnot (Z.shiftl 61440 64)) 76) 15) with 0%Z
    by reflexivity.
  rewrite Z.land_0_r. reflexivity.
Qed.

(** The variant nibble (bits 60..63) is binary [10xx]. *)
Lemma UUID_v4_variant (bs : list byte) :
  exists x : Z, (0 <= x < 4)%Z /\ Z.land (Z.shiftr (UUID_v4 bs) 60) 15 = (8 + x)%Z.
Proof.
  unfold UUID_v4. cbv zeta.
  set (W := int_from_bytes bs).
  rewrite Z.shiftr_lor, Z.shiftr_land, Z.land_lor_distr_l, <- Z.land_assoc.
  replace (Z.land (Z.shiftr (Z.lnot (Z.shiftl 61440 64)) 60) 15) with 15%Z
    by reflexivity.
  replace (Z.land (Z.shiftr (Z.shiftl 4 76) 60) 15) with 0%Z by reflexivity.
  rewrite Z.lor_0_r.
  rewrite Z.shiftr_lor, Z.shiftr_land, Z.land_lor_distr_l, <- Z.land_assoc.
  replace (Z.land (Z.shiftr (Z.lnot (Z.shiftl 49152 48)) 60) 15) with 3%Z
    by reflexivity.
  replace (Z.land (Z.shiftr (Z.shiftl 32768 48) 60) 15) with 8%Z by reflexivity.
  exists (Z.land (Z.shiftr W 60) 3). 
  assert (Hr : (0 <= Z.land (Z.shiftr W 60) 3 < 4)%Z).
  { change 3%Z with (Z.ones 2). rewrite Z.land_ones by lia.
    apply Z.mod_pos_bound. reflexivity. }
  split; [exact Hr|].
  set (x := Z.land (Z.shiftr W 60) 3) in *.
  assert (Hx : x = 0%Z \/ x = 1%Z \/ x = 2%Z \/ x = 3%Z) by lia.
  destruct Hx as [-> | [-> | [-> | ->]]]; reflexivity.
Qed.

Lemma UUID_str_version_digit (bs : list byte) :
  cl_char "4" (hex32_digit (UUID_v4 bs) 12) = true.
Proof.
  unfold hex32_digit. change (4 * Z.of_nat (31 - 12))%Z with 76%Z.
  rewrite UUID_v4_version. reflexivity.
Qed.

Lemma UUID_str_variant_digit (bs : list byte) :
  cl_variant (hex32_digit (UUID_v4 bs) 16) = true.
Proof.
  unfold hex32_digit. change (4 * Z.of_nat (31 - 16))%Z with 60%Z.
  destruct (UUID_v4_variant bs) as (x & Hx & ->).
  assert (H : x = 0%Z \/ x = 1%Z \/ x = 2%Z \/ x = 3%Z) by lia.
  destruct H as [-> | [-> | [-> | ->]]]; reflexivity.
Qed.

(** The text of a version-4 UUID matches the canonical pattern. *)
Lemma UUID_str_matches (bs : list byte) :
  matches pattern_uuid4 (UUID_str (UUID_v4 bs)) = true.
Proof.
  unfold matches, UUID_str. cbv zeta.
  rewrite list_ascii_of_string_of_list_ascii.
  unfold hex32.
  cbn [seq map firstn skipn app pattern_uuid4 repeat match_classes].
  rewrite UUID_str_version_digit, UUID_str_variant_digit, !hex32_digit_hex.
  reflexivity.
Qed.

(* ===================================================================== *)
(** * Timestamps *)
(* ===================================================================== *)

Lemma dec_digit_digit (n k : N) : cl_digit (dec_digit n k) = true.
Proof.
  unfold dec_digit.
  assert (H : (n / 10 ^ k mod 10 < 10)%N) by (apply N.mod_lt; discriminate).
  generalize dependent (n / 10 ^ k mod 10)%N. intros d Hd.
  assert (Hn : (N.to_nat d < 10)%nat) by lia.
  rewrite <- (N2Nat.id d). generalize dependent (N.to_nat d). intros m Hm.
  do 10 (destruct m as [|m]; [reflexivity|]). lia.
Qed.

Lemma forallb_below (P : N -> bool) (bound n : N) :
  forallb P (map N.of_nat (seq 0 (N.to_nat bound))) = true ->
  (n < bound)%N -> P n = true.
Proof.
  intros Hall Hn. rewrite forallb_forall in Hall. apply Hall.
  rewrite <- (N2Nat.id n). apply in_map, in_seq. lia.
Qed.

Lemma zero_pad_2 (n : N) :
  (n < 100)%N ->
  zero_pad 2 n = String (dec_digit n 1) (String (dec_digit n 0) "").
Proof.
  intros Hn. apply String.eqb_eq.
  apply (forallb_below
           (fun n => String.eqb (zero_pad 2 n)
                       (String (dec_digit n 1) (String (dec_digit n 0) "")))
           100%N); [vm_compute; reflexivity | exact Hn].
Qed.

Lemma zero_pad_4 (n : N) :
  (n < 10000)%N ->
  zero_pad 4 n = String (dec_digit n 3) (String (dec_digit n 2)
                   (String (dec_digit n 1) (String (dec_digit n 0) ""))).
Proof.
  intros Hn. apply String.eqb_eq.
  apply (forallb_below
           (fun n => String.eqb (zero_pad 4 n)
                       (String (dec_digit n 3) (String (dec_digit n 2)
                          (String (dec_digit n 1) (String (dec_digit n 0) "")))))
           10000%N); [vm_compute; reflexivity | exact Hn].
Qed.

Lemma datetime_valid_bounds (d : datetime) :
  datetime_valid d = true ->
  (dt_year d < 10000 /\ dt_month d < 100 /\ dt_day d < 100 /\
   dt_hour d < 100 /\ dt_minute d < 100 /\ dt_second d < 100)%N.
Proof.
  unfold datetime_valid. rewrite !andb_true_iff, !N.leb_le. lia.
Qed.

(** The timestamp of a valid [datetime], character by character. *)
Lemma strftime_explicit (d : datetime) :
  datetime_valid d = true ->
  list_ascii_of_string (strftime_Ymd_HMS d) =
  [dec_digit (dt_year d) 3; dec_digit (dt_year d) 2; dec_digit (dt_year d) 1;
   dec_digit (dt_year d) 0; dec_digit (dt_month d) 1; dec_digit (dt_month d) 0;
   dec_digit (dt_day d) 1; dec_digit (dt_day d) 0; "_"%char;
   dec_digit (dt_hour d) 1; dec_digit (dt_hour d) 0;
   dec_digit (dt_minute d) 1; dec_digit (dt_minute d) 0;
   dec_digit (dt_second d) 1; dec_digit (dt_second d) 0].
Proof.
  intros Hv. destruct (datetime_valid_bounds d Hv) as (Hy & Hm & Hd & Hh & Hmi & Hs).
  unfold strftime_Ymd_HMS.
  rewrite (zero_pad_4 _ Hy), (zero_pad_2 _ Hm), (zero_pad_2 _ Hd),
    (zero_pad_2 _ Hh), (zero_pad_2 _ Hmi), (zero_pad_2 _ Hs).
  reflexivity.
Qed.

(** [YYYYMMDD_HHMMSS]: eight digits, an underscore, six digits. *)
Lemma strftime_matches (d : datetime) :
  datetime_valid d = true ->
  matches pattern_timestamp (strftime_Ymd_HMS d) = true.
Proof.
  intros Hv. unfold matches. rewrite (strftime_explicit d Hv).
  cbn [pattern_timestamp repeat app match_classes].
  rewrite !dec_digit_digit. reflexivity.
Qed.

Lemma strftime_count_digits (d : datetime) :
  datetime_valid d = true -> count_digits (strftime_Ymd_HMS d) = 14%nat.
Proof.
  intros Hv. unfold count_digits. rewrite (strftime_explicit d Hv).
  cbn [List.filter]. rewrite !dec_digit_digit. reflexivity.
Qed.

(* ===================================================================== *)
(** * Mappings *)
(* ===================================================================== *)

Lemma dict_get_set_eq (d : dict) (k : pystr) (v : json) :
  dict_get (dict_set d k v) k = Some v.
Proof.
  induction d as [|[k' v'] d IH]; cbn.
  - destruct (decide (k = k)); congruence.
  - destruct (decide (k' = k)) as [->|Hne]; cbn.
    + destruct (decide (k = k)); congruence.
    + destruct (decide (k' = k)); [congruence | exact IH].
Qed.

Lemma dict_get_set_ne (d : dict) (k k' : pystr) (v : json) :
  k <> k' -> dict_get (dict_set d k v) k' = dict_get d k'.
Proof.
  intros Hne. induction d as [|[k0 v0] d IH]; cbn.
  - destruct (decide (k = k')); congruence.
  - destruct (decide (k0 = k)) as [->|Hk]; cbn.
    + destruct (decide (k = k')); congruence.
    + destruct (decide (k0 = k')); [reflexivity | exact IH].
Qed.

(** The entries under the other keys stay as they are, in their order. *)
Lemma dict_set_others (d : dict) (k : pystr) (v : json) (keep : pystr -> bool) :
  keep k = false ->
  List.filter (fun kv => keep (fst kv)) (dict_set d k v)
  = List.filter (fun kv => keep (fst kv)) d.
Proof.
  intros Hk. induction d as [|[k0 v0] d IH]; cbn.
  - now rewrite Hk.
  - destruct (decide (k0 = k)) as [->|Hne]; cbn.
    + now rewrite Hk.
    + now rewrite IH.
Qed.

(** A key that is present keeps its place; a new key is appended. *)
Lemma dict_keys_set (d : dict) (k : pystr) (v : json) :
  dict_keys (dict_set d k v)
  = if bool_decide (k ∈ dict_keys d) then dict_keys d else dict_keys d ++ [k].
Proof.
  unfold dict_keys. induction d as [|[k0 v0] d IH]; cbn.
  - rewrite bool_decide_eq_false_2; [reflexivity | apply not_elem_of_nil].
  - destruct (decide (k0 = k)) as [->|Hne]; cbn.
    + rewrite bool_decide_eq_true_2; [reflexivity | apply list_elem_of_here].
    + rewrite IH. destruct (bool_decide (k ∈ map fst d)) eqn:Hin.
      * apply bool_decide_eq_true_1 in Hin.
        rewrite bool_decide_eq_true_2; [reflexivity | now apply list_elem_of_further].
      * apply bool_decide_eq_false_1 in Hin.
        rewrite bool_decide_eq_false_2; [reflexivity|].
        intros Hc. apply elem_of_cons in Hc. destruct Hc; congruence.
Qed.

Lemma id_keys_distinct :
  key_machineId <> key_macMachineId /\ key_machineId <> key_devDeviceId
  /\ key_macMachineId <> key_devDeviceId.
Proof. repeat split; intros H; vm_compute in H; discriminate H. Qed.

Lemma set_ids_get_machineId (E : env) (pos : nat) (d : dict) :
  dict_get (set_ids E pos d) key_machineId
  = Some (JString (str_lit (machine_id_at E pos))).
Proof.
  destruct id_keys_distinct as (H12 & H13 & H23). unfold set_ids.
  rewrite dict_get_set_ne by congruence.
  rewrite dict_get_set_ne by congruence.
  apply dict_get_set_eq.
Qed.

Lemma set_ids_get_macMachineId (E : env) (pos : nat) (d : dict) :
  dict_get (set_ids E pos d) key_macMachineId
  = Some (JString (str_lit (mac_machine_id_at E pos))).
Proof.
  destruct id_keys_distinct as (H12 & H13 & H23). unfold set_ids.
  rewrite dict_get_set_ne by congruence.
  apply dict_get_set_eq.
Qed.

Lemma set_ids_get_devDeviceId (E : env) (pos : nat) (d : dict) :
  dict_get (set_ids E pos d) key_devDeviceId
  = Some (JString (str_lit (dev_device_id_at E pos))).
Proof. unfold set_ids. apply dict_get_set_eq. Qed.

Lemma is_id_key_false (k : pystr) :
  is_id_key k = false ->
  k <> key_machineId /\ k <> key_macMachineId /\ k <> key_devDeviceId.
Proof.
  unfold is_id_key. rewrite !orb_false_iff.
  intros [[H1 H2] H3].
  apply bool_decide_eq_false_1 in H1, H2, H3. tauto.
Qed.

Lemma set_ids_get_other (E : env) (pos : nat) (d : dict) (k : pystr) :
  is_id_key k = false -> dict_get (set_ids E pos d) k = dict_get d k.
Proof.
  intros Hk. apply is_id_key_false in Hk. destruct Hk as (H1 & H2 & H3).
  unfold set_ids. rewrite !dict_get_set_ne by congruence. reflexivity.
Qed.

Lemma set_ids_others (E : env) (pos : nat) (d : dict) :
  List.filter (fun kv => negb (is_id_key (fst kv))) (set_ids E pos d)
  = List.filter (fun kv => negb (is_id_key (fst kv))) d.
Proof.
  unfold set_ids.
  rewrite !(dict_set_others _ _ _ (fun k => negb (is_id_key k))); reflexivity.
Qed.

Lemma set_ids_empty (E : env) (pos : nat) :
  set_ids E pos []
  = [(key_machineId, JString (str_lit (machine_id_at E pos)));
     (key_macMachineId, JString (str_lit (mac_machine_id_at E pos)));
     (key_devDeviceId, JString (str_lit (dev_device_id_at E pos)))].
Proof. reflexivity. Qed.

(* ===================================================================== *)
(** * File-system steps *)
(* ===================================================================== *)

Lemma string_length_append (a b : string) :
  String.length (a +:+ b) = (String.length a + String.length b)%nat.
Proof. induction a as [|c a IH]; simpl; [reflexivity | now f_equal]. Qed.

Lemma backup_name_fresh (name ts : string) : name <> name +:+ ".backup_" +:+ ts.
Proof.
  intros H. apply (f_equal String.length) in H.
  rewrite !string_length_append in H. cbn in H. lia.
Qed.

Lemma backup_path_fresh (dir : path) (name ts : string) :
  dir // name <> backup_path_of (dir // name) ts.
Proof.
  unfold backup_path_of. intros H. injection H as H.
  now apply backup_name_fresh in H.
Qed.

Lemma Path_mkdir_parents_isdir (p : path) (w : world) :
  isdir_at (fs w) p = true -> Path_mkdir_parents true p w = (Ok tt, w).
Proof.
  intros Hd. unfold isdir_at in Hd.
  destruct p as [|name dir]; cbn [Path_mkdir_parents]; unfold os_mkdir.
  - cbn. reflexivity.
  - destruct (node_at (fs w) (name :: dir)) as [[|c st]|] eqn:Hn; try discriminate.
    cbn. unfold isdir_at. rewrite Hn. reflexivity.
Qed.

Lemma backup_file_absent (E : env) (p : path) (w : world) :
  exists_at (fs w) p = false -> backup_file E p w = (Ok tt, w).
Proof.
  intros H. unfold backup_file, bind, os_path_exists. rewrite H. reflexivity.
Qed.

Ltac simpl_world :=
  cbn [fs fs_time entropy_pos clock_pos trace stdout log tick set_fs].

Lemma read_file_ok (p : path) (w : world) (c : list byte) (st : stat) :
  node_at (fs w) p = Some (File c st) ->
  read_file p w = (Ok c, log (EvRead p) w).
Proof. intros H. unfold read_file. now rewrite H. Qed.

Lemma write_file_ok (E : env) (p : path) (content : list byte) (w : world) :
  isdir_at (fs w) p = false ->
  exists_at (fs w) p = true \/ isdir_at (fs w) (parent p) = true ->
  write_file E p content w
  = (Ok tt,
     mkWorld (<[p := File content (mkStat (write_mode E (fs w) p) (fs_time w))]> (fs w))
             (fs_time w + 1) (entropy_pos w) (clock_pos w)
             (trace w ++ [EvWrite p]) (stdout w)).
Proof.
  unfold isdir_at, exists_at, write_file, write_mode, check_parent.
  intros Hnd Hok.
  destruct (node_at (fs w) p) as [[|c0 st0]|]; [discriminate | reflexivity |].
  destruct Hok as [Hex|Hpar]; [discriminate|].
  destruct (node_at (fs w) (parent p)) as [[|c1 st1]|]; try discriminate.
  reflexivity.
Qed.

Lemma shutil_copystat_ok (src dst : path) (w : world)
      (c c' : list byte) (st st' : stat) :
  node_at (fs w) src = Some (File c st) ->
  node_at (fs w) dst = Some (File c' st') ->
  shutil_copystat src dst w
  = (Ok tt, mkWorld (<[dst := File c' st]> (fs w)) (fs_time w) (entropy_pos w)
                    (clock_pos w) (trace w ++ [EvCopystat src dst]) (stdout w)).
Proof. intros Hs Hd. unfold shutil_copystat. now rewrite Hs, Hd. Qed.

Lemma backup_file_present (E : env) (w : world) (dir : path) (name : string)
      (c : list byte) (st : stat) :
  fs w !! (dir // name) = Some (File c st) ->
  isdir_at (fs w) dir = true ->
  isdir_at (fs w) (next_backup_path E w (dir // name)) = false ->
  backup_file E (dir // name) w
  = (Ok tt,
     mkWorld (<[next_backup_path E w (dir // name) := File c st]> (fs w))
             (fs_time w + 1) (entropy_pos w) (S (clock_pos w))
             (trace w ++ [EvRead (dir // name);
                          EvWrite (next_backup_path E w (dir // name));
                          EvCopystat (dir // name) (next_backup_path E w (dir // name))])
             (stdout w)).
Proof.
  intros Hf Hdir Hbp.
  unfold next_backup_path in *.
  set (ts := strftime_Ymd_HMS (clock E (clock_pos w))) in *.
  pose proof (backup_path_fresh dir name ts) as Hne.
  unfold backup_path_of in *.
  set (bp := (name +:+ ".backup_" +:+ ts) :: dir) in *.
  unfold backup_file, bind, os_path_exists, exists_at.
  cbn [node_at]. rewrite Hf.
  unfold datetime_now. simpl_world.
  fold ts. unfold backup_path_of. fold bp.
  unfold shutil_copy2, bind, os_path_isdir. simpl_world.
  rewrite Hbp.
  unfold shutil_copyfile. destruct (decide (name :: dir = bp)) as [Heq|_]; [contradiction|].
  unfold bind.
  rewrite (read_file_ok _ _ c st) by exact Hf. simpl_world.
  rewrite write_file_ok; simpl_world; [| exact Hbp | right; exact Hdir].
  erewrite shutil_copystat_ok; simpl_world.
  - rewrite insert_insert_eq, <- !app_assoc. reflexivity.
  - cbn [node_at]. rewrite lookup_insert_ne by congruence. exact Hf.
  - unfold bp at 1. cbn [node_at]. fold bp. apply lookup_insert_eq.
Qed.

(* ===================================================================== *)
(** * The run, step by step *)
(* ===================================================================== *)

Lemma get_storage_file_state (E : env) (w w' : world) (r : result path) :
  get_storage_file E w = (r, w') ->
  w' = w /\ forall w2, get_storage_file E w2 = (r, w2).
Proof.
  unfold get_storage_file, ret, raise.
  destruct (String.eqb (platform_system E) "Windows").
  { destruct (environ_APPDATA E); intros [= <- <-]; auto. }
  destruct (String.eqb (platform_system E) "Darwin"); [intros [= <- <-]; auto|].
  destruct (String.eqb (platform_system E) "Linux"); intros [= <- <-]; auto.
Qed.

Lemma get_storage_file_name (E : env) (w w' : world) (p : path) :
  get_storage_file E w = (Ok p, w') -> exists dir, p = dir // "storage.json".
Proof.
  unfold get_storage_file, ret, raise.
  destruct (String.eqb (platform_system E) "Windows").
  { destruct (environ_APPDATA E); intros [= <- <-]; eauto. }
  destruct (String.eqb (platform_system E) "Darwin"); [intros [= <- <-]; eauto|].
  destruct (String.eqb (platform_system E) "Linux"); intros [= <- <-]; eauto.
Qed.

Lemma json_load_ok (p : path) (w : world) (c : list byte) (st : stat) :
  node_at (fs w) p = Some (File c st) ->
  json_load p w = (decode_document c, log (EvRead p) w).
Proof.
  intros H. unfold json_load, bind. rewrite (read_file_ok _ _ _ _ H). reflexivity.
Qed.

(** Lines 80-91 and the printing, from a loaded mapping. *)
Lemma reset_existing_object (E : env) (w : world) (dir : path)
      (c : list byte) (st : stat) (d : dict) :
  get_storage_file E w = (Ok (dir // "storage.json"), w) ->
  fs w !! (dir // "storage.json") = Some (File c st) ->
  isdir_at (fs w) dir = true ->
  isdir_at (fs w) (next_backup_path E w (dir // "storage.json")) = false ->
  decode_document c = Ok (JObject d) ->
  reset_cursor_id E w
  = (Ok tt,
     after_save E
       (after_draws (log (EvRead (dir // "storage.json"))
                         (after_backup E w (dir // "storage.json") c st)))
       (dir // "storage.json")
       (saved_bytes E (set_ids E (entropy_pos w) d))
       (st_mode st) (entropy_pos w)).
Proof.
  intros Hget Hf Hdir Hbp Hdoc.
  set (p := dir // "storage.json") in *.
  unfold reset_cursor_id. unfold bind at 1. rewrite Hget.
  unfold bind at 1. cbn [parent tail]. 
  rewrite Path_mkdir_parents_isdir by exact Hdir.
  unfold bind at 1. unfold p at 1.
  rewrite (backup_file_present E w dir _ c st Hf Hdir Hbp).
  fold p. fold (after_backup E w p c st).
  assert (Hne : p <> next_backup_path E w p) by apply backup_path_fresh.
  assert (Hf1 : node_at (fs (after_backup E w p c st)) p = Some (File c st)).
  { unfold after_backup. cbn [fs]. unfold p at 2. cbn [node_at]. fold p.
    rewrite lookup_insert_ne by congruence. exact Hf. }
  unfold bind at 1. unfold os_path_exists, exists_at. rewrite Hf1.
  cbn [negb]. unfold bind at 1. rewrite (json_load_ok _ _ _ _ Hf1), Hdoc.
  set (w1 := log (EvRead p) (after_backup E w p c st)).
  assert (Hf2 : node_at (fs w1) p = Some (File c st)) by exact Hf1.
  cbv [bind os_urandom uuid_uuid4 ret raise setitem json_dump print].
  cbn [fs fs_time entropy_pos clock_pos trace stdout].
  rewrite write_file_ok; cbn [fs fs_time entropy_pos clock_pos trace stdout].
  - unfold after_save, after_draws, saved_bytes, set_ids, report,
      machine_id_at, mac_machine_id_at, dev_device_id_at, write_mode.
    cbn [fs fs_time entropy_pos clock_pos trace stdout].
    rewrite Hf2. cbn [st_mode]. rewrite <- !app_assoc. reflexivity.
  - unfold isdir_at. now rewrite Hf2.
  - left. unfold exists_at. now rewrite Hf2.
Qed.

Lemma makedirs_lookup_longer (f : gmap path node) (dir q : path) :
  (length dir < length q)%nat -> makedirs f dir !! q = f !! q.
Proof.
  revert q. induction dir as [|name up IH]; intros q Hlen; cbn [makedirs].
  - reflexivity.
  - destruct (f !! (name :: up)); [reflexivity|].
    rewrite lookup_insert_ne.
    + apply IH. cbn [length] in Hlen. lia.
    + intros Heq. subst q. cbn [length] in Hlen. lia.
Qed.

Lemma makedirs_isdir (f : gmap path node) (dir : path) :
  dirs_clear f dir = true -> isdir_at (makedirs f dir) dir = true.
Proof.
  unfold isdir_at. destruct dir as [|name up]; [reflexivity|].
  cbn [dirs_clear makedirs node_at].
  destruct (f !! (name :: up)) as [[|c st]|] eqn:Hn; intros H.
  - now rewrite Hn.
  - discriminate.
  - now rewrite lookup_insert_eq.
Qed.

Lemma makedirs_present (f : gmap path node) (dir : path) (n : node) :
  node_at f dir = Some n -> makedirs f dir = f /\ made_dirs f dir = [].
Proof.
  destruct dir as [|name up]; [auto|]. cbn [node_at makedirs made_dirs].
  intros ->. auto.
Qed.

Lemma Path_mkdir_parents_clear (dir : path) (w : world) :
  dirs_clear (fs w) dir = true ->
  Path_mkdir_parents true dir w = (Ok tt, after_mkdir w dir).
Proof.
  revert w. induction dir as [|name up IH]; intros w Hc.
  - cbn. unfold after_mkdir. cbn. rewrite app_nil_r. now destruct w.
  - cbn [Path_mkdir_parents dirs_clear] in *. unfold os_mkdir, after_mkdir.
    cbn [node_at makedirs made_dirs parent tail].
    destruct (fs w !! (name :: up)) as [[|c st]|] eqn:Hn.
    + cbn. unfold isdir_at. cbn [node_at]. rewrite Hn. cbn.
      rewrite app_nil_r. now destruct w.
    + discriminate.
    + unfold check_parent.
      destruct (node_at (fs w) up) as [[|c st]|] eqn:Hup.
      * destruct (makedirs_present _ _ _ Hup) as [-> ->]. reflexivity.
      * exfalso. destruct up as [|name' up']; [discriminate|].
        cbn [node_at] in Hup. cbn [dirs_clear] in Hc. rewrite Hup in Hc.
        discriminate.
      * rewrite (IH w Hc). unfold Path_mkdir_flat, os_mkdir, after_mkdir.
        cbn [fs fs_time entropy_pos clock_pos trace stdout node_at parent tail].
        rewrite makedirs_lookup_longer by (cbn [length]; lia). rewrite Hn.
        unfold check_parent.
        pose proof (makedirs_isdir (fs w) up Hc) as Hd. unfold isdir_at in Hd.
        destruct (node_at (makedirs (fs w) up) up) as [[|c st]|]; try discriminate.
        unfold log, set_fs.
        cbn [fs fs_time entropy_pos clock_pos trace stdout].
        rewrite map_app, app_assoc. reflexivity.
Qed.

Lemma reset_absent (E : env) (w : world) (dir : path) :
  get_storage_file E w = (Ok (dir // "storage.json"), w) ->
  fs w !! (dir // "storage.json") = None ->
  dirs_clear (fs w) dir = true ->
  reset_cursor_id E w
  = (Ok tt,
     after_save E (after_draws (after_mkdir w dir)) (dir // "storage.json")
       (saved_bytes E (set_ids E (entropy_pos w) []))
       (create_mode E) (entropy_pos w)).
Proof.
  intros Hget Hf Hc.
  set (p := dir // "storage.json") in *.
  unfold reset_cursor_id. unfold bind at 1. rewrite Hget.
  unfold bind at 1. change (parent p) with dir.
  rewrite Path_mkdir_parents_clear by exact Hc.
  set (w1 := after_mkdir w dir).
  assert (Hf1 : node_at (fs w1) p = None).
  { unfold w1, after_mkdir. cbn [fs]. unfold p at 1. cbn [node_at]. fold p.
    rewrite makedirs_lookup_longer by (unfold p; cbn [length]; lia). exact Hf. }
  assert (Hd1 : isdir_at (fs w1) dir = true) by (apply makedirs_isdir, Hc).
  assert (Hex : exists_at (fs w1) p = false)
    by (unfold exists_at; now rewrite Hf1).
  unfold bind at 1. rewrite (backup_file_absent E p w1 Hex).
  unfold bind at 1. unfold os_path_exists. rewrite Hex. cbn [negb].
  cbv [bind os_urandom uuid_uuid4 ret raise setitem json_dump print].
  cbn [fs fs_time entropy_pos clock_pos trace stdout].
  rewrite write_file_ok; cbn [fs fs_time entropy_pos clock_pos trace stdout].
  - unfold after_save, after_draws, saved_bytes, set_ids, report,
      machine_id_at, mac_machine_id_at, dev_device_id_at, write_mode.
    cbn [fs fs_time entropy_pos clock_pos trace stdout].
    rewrite Hf1. rewrite <- !app_assoc. reflexivity.
  - unfold isdir_at. now rewrite Hf1.
  - right. exact Hd1.
Qed.

(** The part of the run that every existing file goes through: directory,
    backup, existence test, reading. *)
Ltac run_to_load E w dir c st Hget Hf Hdir Hbp :=
  unfold reset_cursor_id; unfold bind at 1; rewrite Hget;
  unfold bind at 1; change (parent (dir // "storage.json")) with dir;
  rewrite Path_mkdir_parents_isdir by exact Hdir;
  unfold bind at 1;
  rewrite (backup_file_present E w dir _ c st Hf Hdir Hbp);
  fold (after_backup E w (dir // "storage.json") c st);
  unfold bind at 1; unfold os_path_exists, exists_at.

Lemma after_backup_keeps_file (E : env) (w : world) (dir : path) (name : string)
      (c : list byte) (st : stat) :
  fs w !! (dir // name) = Some (File c st) ->
  node_at (fs (after_backup E w (dir // name) c st)) (dir // name)
  = Some (File c st).
Proof.
  intros Hf. unfold after_backup. cbn [fs node_at].
  rewrite lookup_insert_ne by (symmetry; apply backup_path_fresh). exact Hf.
Qed.

Lemma reset_existing_malformed (E : env) (w : world) (dir : path)
      (c : list byte) (st : stat) (e : exn) :
  get_storage_file E w = (Ok (dir // "storage.json"), w) ->
  fs w !! (dir // "storage.json") = Some (File c st) ->
  isdir_at (fs w) dir = true ->
  isdir_at (fs w) (next_backup_path E w (dir // "storage.json")) = false ->
  decode_document c = Raise e ->
  reset_cursor_id E w
  = (Raise e, log (EvRead (dir // "storage.json"))
                  (after_backup E w (dir // "storage.json") c st)).
Proof.
  intros Hget Hf Hdir Hbp Hdoc.
  pose proof (after_backup_keeps_file E w dir _ c st Hf) as Hf1.
  run_to_load E w dir c st Hget Hf Hdir Hbp.
  rewrite Hf1. cbn [negb]. unfold bind at 1.
  rewrite (json_load_ok _ _ _ _ Hf1), Hdoc. reflexivity.
Qed.

Lemma reset_existing_not_object (E : env) (w : world) (dir : path)
      (c : list byte) (st : stat) (v : json) :
  get_storage_file E w = (Ok (dir // "storage.json"), w) ->
  fs w !! (dir // "storage.json") = Some (File c st) ->
  isdir_at (fs w) dir = true ->
  isdir_at (fs w) (next_backup_path E w (dir // "storage.json")) = false ->
  decode_document c = Ok v ->
  is_object v = false ->
  reset_cursor_id E w
  = (Raise TypeError,
     after_draws (log (EvRead (dir // "storage.json"))
                      (after_backup E w (dir // "storage.json") c st))).
Proof.
  intros Hget Hf Hdir Hbp Hdoc Hv.
  pose proof (after_backup_keeps_file E w dir _ c st Hf) as Hf1.
  run_to_load E w dir c st Hget Hf Hdir Hbp.
  rewrite Hf1. cbn [negb]. unfold bind at 1.
  rewrite (json_load_ok _ _ _ _ Hf1), Hdoc.
  cbv [bind os_urandom uuid_uuid4 ret raise setitem json_dump print].
  cbn [fs fs_time entropy_pos clock_pos trace stdout].
  destruct v; try discriminate Hv; reflexivity.
Qed.

(* ===================================================================== *)
(** * What a step leaves alone *)
(* ===================================================================== *)

Lemma quiet_bind {A B} (m : M A) (k : A -> M B) :
  quiet m -> (forall a, quiet (k a)) -> quiet (bind m k).
Proof.
  intros Hm Hk w r w'. unfold bind.
  destruct (m w) as [[a|e] w1] eqn:Hmw; intros H.
  - destruct (Hm _ _ _ Hmw) as [He Hs]. destruct (Hk a _ _ _ H) as [He2 Hs2].
    split; congruence.
  - injection H as <- <-. exact (Hm _ _ _ Hmw).
Qed.

Lemma quiet_ret {A} (a : A) : quiet (ret a).
Proof. intros w r w' [= <- <-]. auto. Qed.

Lemma quiet_raise {A} (e : exn) : quiet (@raise A e).
Proof. intros w r w' [= <- <-]. auto. Qed.

Lemma quiet_lift {A} (x : result A) : quiet (lift x).
Proof. intros w r w' [= <- <-]. auto. Qed.

Lemma quiet_os_mkdir (p : path) : quiet (os_mkdir p).
Proof.
  intros w r w'. unfold os_mkdir.
  destruct (node_at (fs w) p); [intros [= <- <-]; auto|].
  destruct (check_parent (fs w) (parent p)); intros [= <- <-]; auto.
Qed.

Lemma quiet_Path_mkdir_flat (b : bool) (p : path) : quiet (Path_mkdir_flat b p).
Proof.
  intros w r w'. unfold Path_mkdir_flat.
  destruct (os_mkdir p w) as [[[]|e] w1] eqn:Hm;
    pose proof (quiet_os_mkdir p _ _ _ Hm) as [He Hs].
  - intros [= <- <-]. auto.
  - destruct e; try (destruct (negb b || negb (isdir_at (fs w1) p)));
      intros [= <- <-]; auto.
Qed.

Lemma quiet_Path_mkdir_parents (b : bool) (p : path) :
  quiet (Path_mkdir_parents b p).
Proof.
  revert b. induction p as [|name up IH]; intros b w r w';
    cbn [Path_mkdir_parents];
    destruct (os_mkdir _ w) as [[[]|e] w1] eqn:Hm;
    pose proof (quiet_os_mkdir _ _ _ _ Hm) as [He Hs].
  - intros [= <- <-]. auto.
  - destruct e; try (destruct (negb b || negb (isdir_at (fs w1) [])));
      intros [= <- <-]; auto.
  - intros [= <- <-]. auto.
  - destruct e; try (destruct (negb b || negb (isdir_at (fs w1) (name :: up)));
      intros [= <- <-]; auto; fail).
    destruct (Path_mkdir_parents true up w1) as [[[]|e'] w2] eqn:Hrec;
      destruct (IH true _ _ _ Hrec) as [He2 Hs2].
    + intros H. destruct (quiet_Path_mkdir_flat _ _ _ _ _ H) as [He3 Hs3].
      split; congruence.
    + intros [= <- <-]. split; congruence.
Qed.

Lemma quiet_read_file (p : path) : quiet (read_file p).
Proof.
  intros w r w'. unfold read_file.
  destruct (node_at (fs w) p) as [[|c st]|]; try (intros [= <- <-]; auto; fail).
  destruct (check_parent (fs w) (parent p)) as [[]|]; intros [= <- <-]; auto.
Qed.

Lemma quiet_write_file (E : env) (p : path) (c : list byte) : quiet (write_file E p c).
Proof.
  intros w r w'. unfold write_file.
  destruct (node_at (fs w) p) as [[|c0 st]|]; try (intros [= <- <-]; auto; fail).
  destruct (check_parent (fs w) (parent p)); intros [= <- <-]; auto.
Qed.

Lemma quiet_shutil_copystat (src dst : path) : quiet (shutil_copystat src dst).
Proof.
  intros w r w'. unfold shutil_copystat.
  destruct (node_at (fs w) src) as [[|c st]|];
    destruct (node_at (fs w) dst) as [[|c' st']|]; intros [= <- <-]; auto.
Qed.

Lemma quiet_backup_file (E : env) (p : path) : quiet (backup_file E p).
Proof.
  unfold backup_file. apply quiet_bind.
  { intros w r w' [= <- <-]. auto. }
  intros [|]; [|apply quiet_ret].
  apply quiet_bind.
  { intros w r w' [= <- <-]. auto. }
  intros now. unfold shutil_copy2. apply quiet_bind.
  { intros w r w' [= <- <-]. auto. }
  intros isd. apply quiet_bind; [|intros; apply quiet_shutil_copystat].
  unfold shutil_copyfile. destruct (decide _); [apply quiet_raise|].
  apply quiet_bind; [apply quiet_read_file | intros; apply quiet_write_file].
Qed.

Lemma quiet_json_load (p : path) : quiet (json_load p).
Proof.
  unfold json_load. apply quiet_bind; [apply quiet_read_file | intros; apply quiet_lift].
Qed.

Lemma write_file_success (E : env) (p : path) (c : list byte) (w w' : world) :
  write_file E p c w = (Ok tt, w') ->
  exists st', fs w' !! p = Some (File c st').
Proof.
  unfold write_file.
  destruct (node_at (fs w) p) as [[|c0 st]|]; [discriminate| |].
  - intros [= <-]. cbn [fs log tick set_fs]. eexists. apply lookup_insert_eq.
  - destruct (check_parent (fs w) (parent p)); [discriminate|].
    intros [= <-]. cbn [fs log tick set_fs]. eexists. apply lookup_insert_eq.
Qed.

(** Every run that succeeds has saved a document carrying the three
    identifiers drawn at its entry position, and has printed them. *)
Lemma reset_success (E : env) (w w' : world) :
  reset_cursor_id E w = (Ok tt, w') ->
  exists (p : path) (d : dict) (st' : stat),
    get_storage_file E w = (Ok p, w) /\
    fs w' !! p = Some (File (saved_bytes E (set_ids E (entropy_pos w) d)) st') /\
    stdout w' = stdout w ++ [success_message; report E (entropy_pos w)].
Proof.
  unfold reset_cursor_id. unfold bind at 1.
  destruct (get_storage_file E w) as [[p|e] w0] eqn:Hget; [|discriminate].
  destruct (get_storage_file_state _ _ _ _ Hget) as [-> _].
  unfold bind at 1.
  destruct (Path_mkdir_parents true (parent p) w) as [[[]|e] w1] eqn:Hmk;
    [|discriminate].
  destruct (quiet_Path_mkdir_parents _ _ _ _ _ Hmk) as [He1 Hs1].
  unfold bind at 1.
  destruct (backup_file E p w1) as [[[]|e] w2] eqn:Hbk; [|discriminate].
  destruct (quiet_backup_file _ _ _ _ _ Hbk) as [He2 Hs2].
  unfold bind at 1. unfold os_path_exists at 1.
  unfold bind at 1.
  assert (Hdata : forall v w3,
    (if negb (exists_at (fs w2) p) then ret (JObject []) else json_load p) w2
      = (Ok v, w3) ->
    entropy_pos w3 = entropy_pos w /\ stdout w3 = stdout w).
  { intros v w3. destruct (negb (exists_at (fs w2) p)).
    - intros [= <- <-]. split; congruence.
    - intros H. destruct (quiet_json_load _ _ _ _ H). split; congruence. }
  destruct ((if negb (exists_at (fs w2) p) then ret (JObject []) else json_load p) w2)
    as [[v|e] w3] eqn:Hld; [|discriminate].
  destruct (Hdata _ _ eq_refl) as [He3 Hs3]. clear Hdata.
  cbv [bind os_urandom uuid_uuid4 ret raise setitem json_dump print].
  cbn [fs fs_time entropy_pos clock_pos trace stdout].
  destruct v as [| | | | | |d]; try discriminate.
  match goal with |- context [write_file E p ?c ?w4] =>
    destruct (write_file E p c w4) as [[[]|e] w5] eqn:Hwr end; [|discriminate].
  intros [= <-]. cbn [fs stdout].
  destruct (write_file_success _ _ _ _ _ Hwr) as [st' Hst'].
  destruct (quiet_write_file _ _ _ _ _ _ Hwr) as [_ Hs5].
  cbn [stdout] in Hs5.
  exists p, d, st'. split; [reflexivity|]. split.
  - rewrite Hst'. unfold saved_bytes, set_ids, machine_id_at,
      mac_machine_id_at, dev_device_id_at. rewrite He3. reflexivity.
  - rewrite Hs5, Hs3, <- app_assoc. unfold report, machine_id_at,
      mac_machine_id_at, dev_device_id_at. rewrite He3. reflexivity.
Qed.

Lemma touches_only_bind {A B} (q0 : path) (m : M A) (k : A -> M B) :
  touches_only q0 m -> (forall a, touches_only q0 (k a)) ->
  touches_only q0 (bind m k).
Proof.
  intros Hm Hk w r w'. unfold bind.
  destruct (m w) as [[a|e] w1] eqn:Hmw; intros H q Hq.
  - rewrite (Hk a _ _ _ H q Hq). exact (Hm _ _ _ Hmw q Hq).
  - injection H as <- <-. exact (Hm _ _ _ Hmw q Hq).
Qed.

Lemma touches_only_read_file (q0 p : path) : touches_only q0 (read_file p).
Proof.
  intros w r w'. unfold read_file.
  destruct (node_at (fs w) p) as [[|c st]|]; try (intros [= <- <-]; auto; fail).
  destruct (check_parent (fs w) (parent p)) as [[]|]; intros [= <- <-]; auto.
Qed.

Lemma touches_only_write_file (E : env) (p : path) (c : list byte) :
  touches_only p (write_file E p c).
Proof.
  intros w r w'. unfold write_file.
  destruct (node_at (fs w) p) as [[|c0 st]|]; try (intros [= <- <-]; auto; fail).
  - intros [= <- <-] q Hq. cbn [fs log tick set_fs].
    rewrite lookup_insert_ne by congruence. reflexivity.
  - destruct (check_parent (fs w) (parent p)); intros [= <- <-] q Hq; auto.
    cbn [fs log tick set_fs]. rewrite lookup_insert_ne by congruence. reflexivity.
Qed.

Lemma touches_only_shutil_copystat (src dst : path) :
  touches_only dst (shutil_copystat src dst).
Proof.
  intros w r w'. unfold shutil_copystat.
  destruct (node_at (fs w) src) as [[|c st]|];
    destruct (node_at (fs w) dst) as [[|c' st']|]; intros [= <- <-] q Hq;
    cbn [fs log tick set_fs]; try rewrite lookup_insert_ne by congruence; auto.
Qed.

(** When no directory sits at the backup path, the backup step touches
    nothing but that path. *)
Lemma backup_file_frame (E : env) (p : path) (w : world) (r : result unit)
      (w' : world) :
  isdir_at (fs w) (next_backup_path E w p) = false ->
  backup_file E p w = (r, w') ->
  forall q, q <> next_backup_path E w p -> fs w' !! q = fs w !! q.
Proof.
  intros Hbp. unfold backup_file, bind at 1, os_path_exists.
  destruct (exists_at (fs w) p); [|intros [= <- <-]; auto].
  unfold bind at 1, datetime_now. fold (next_backup_path E w p).
  set (bp := next_backup_path E w p) in *.
  unfold shutil_copy2, bind at 1, os_path_isdir.
  cbn [fs]. rewrite Hbp.
  intros H q Hq.
  assert (Hto : touches_only bp
            (shutil_copyfile E p bp;;; shutil_copystat p bp)).
  { apply touches_only_bind; [|intros; apply touches_only_shutil_copystat].
    unfold shutil_copyfile. destruct (decide _).
    - intros w0 r0 w0' [= <- <-]. auto.
    - apply touches_only_bind; [apply touches_only_read_file|].
      intros; apply touches_only_write_file. }
  rewrite (Hto _ _ _ H q Hq). reflexivity.
Qed.

Lemma byte_unhex_hex (b : byte) : byte_unhex (byte_hex b) = Byte.to_N b.
Proof. destruct b; reflexivity. Qed.

Lemma byte_hex_inj (b b' : byte) : byte_hex b = byte_hex b' -> b = b'.
Proof.
  intros H. apply (f_equal byte_unhex) in H. rewrite !byte_unhex_hex in H.
  pose proof (Byte.of_to_N b) as Hb. rewrite H, Byte.of_to_N in Hb. congruence.
Qed.

(** Hex encoding loses nothing: distinct byte strings have distinct texts. *)
Lemma bytes_hex_inj (bs bs' : list byte) : bytes_hex bs = bytes_hex bs' -> bs = bs'.
Proof.
  unfold bytes_hex. intros H.
  apply (f_equal list_ascii_of_string) in H.
  rewrite !list_ascii_of_string_of_list_ascii in H.
  revert bs' H. induction bs as [|b bs IH]; intros [|b' bs'] H;
    try reflexivity; try discriminate H.
  cbn [flat_map] in H. unfold byte_hex at 1 3 in H. cbn [app] in H.
  injection H as H1 H2 H3.
  f_equal; [apply byte_hex_inj; unfold byte_hex; congruence | now apply IH].
Qed.

Lemma string_append_inj (a b b' : string) : a +:+ b = a +:+ b' -> b = b'.
Proof. induction a as [|ch a IH]; simpl; intros H; [exact H | injection H; auto]. Qed.

Lemma backup_path_of_inj (dir : path) (name ts ts' : string) :
  backup_path_of (dir // name) ts = backup_path_of (dir // name) ts' -> ts = ts'.
Proof.
  unfold backup_path_of. intros [= H].
  apply string_append_inj in H. now apply string_append_inj in H.
Qed.

Lemma backup_path_not_dir (dir : path) (name ts : string) :
  backup_path_of (dir // name) ts <> dir.
Proof.
  unfold backup_path_of. intros H. apply (f_equal (@length string)) in H.
  cbn [length] in H. lia.
Qed.


(* ===================================================================== *)
(** * More on the steps of the run *)
(* ===================================================================== *)

(** ** Making the directories *)

Lemma Path_mkdir_parents_blocked (dir : path) (w : world) :
  dirs_clear (fs w) dir = false ->
  Path_mkdir_parents true dir w = (Raise (mkdir_error (fs w) dir), w).
Proof.
  unfold mkdir_error.
  revert w. induction dir as [|name up IH]; intros w Hc; [discriminate|].
  cbn [dirs_clear] in Hc. cbn [Path_mkdir_parents].
  unfold os_mkdir, exists_at. cbn [node_at parent tail].
  destruct (fs w !! (name :: up)) as [[|c st]|] eqn:Hn.
  - discriminate.
  - cbn. unfold isdir_at. cbn [node_at]. rewrite Hn. reflexivity.
  - unfold check_parent.
    destruct (node_at (fs w) up) as [[|c st]|] eqn:Hup.
    + exfalso. destruct up as [|n' up']; [discriminate|].
      cbn [node_at] in Hup. cbn [dirs_clear] in Hc. rewrite Hup in Hc. discriminate.
    + cbn. unfold isdir_at. cbn [node_at]. rewrite Hn. reflexivity.
    + rewrite (IH w Hc). unfold exists_at. rewrite Hup. reflexivity.
Qed.

Lemma Path_mkdir_parents_spec (dir : path) (w : world) :
  Path_mkdir_parents true dir w
  = if dirs_clear (fs w) dir then (Ok tt, after_mkdir w dir)
    else (Raise (mkdir_error (fs w) dir), w).
Proof.
  destruct (dirs_clear (fs w) dir) eqn:Hc.
  - now apply Path_mkdir_parents_clear.
  - now apply Path_mkdir_parents_blocked.
Qed.

Lemma made_dirs_suffix (f : gmap path node) (dir q : path) :
  q ∈ made_dirs f dir -> q `suffix_of` dir /\ q <> [] /\ f !! q = None.
Proof.
  induction dir as [|name up IH]; cbn [made_dirs].
  - intros H. now apply elem_of_nil in H.
  - destruct (f !! (name :: up)) eqn:Hn.
    + intros H. now apply elem_of_nil in H.
    + rewrite elem_of_app, list_elem_of_singleton. intros [H| ->].
      * destruct (IH H) as (Hs & Hne & Hq). split; [|auto].
        now apply suffix_cons_r.
      * split; [reflexivity|]. split; [discriminate | exact Hn].
Qed.

Lemma makedirs_lookup (f : gmap path node) (dir q : path) :
  makedirs f dir !! q
  = match f !! q with
    | Some n => Some n
    | None => if bool_decide (q ∈ made_dirs f dir) then Some Dir else None
    end.
Proof.
  induction dir as [|name up IH]; cbn [makedirs made_dirs].
  - destruct (f !! q); [reflexivity|].
    rewrite bool_decide_eq_false_2; [reflexivity | apply not_elem_of_nil].
  - destruct (f !! (name :: up)) eqn:Hn.
    + destruct (f !! q); [reflexivity|].
      rewrite bool_decide_eq_false_2; [reflexivity | apply not_elem_of_nil].
    + destruct (decide (q = name :: up)) as [->|Hne].
      * rewrite lookup_insert_eq, Hn.
        rewrite bool_decide_eq_true_2; [reflexivity|].
        apply elem_of_app. right. now apply list_elem_of_singleton.
      * rewrite lookup_insert_ne by congruence. rewrite IH.
        destruct (f !! q); [reflexivity|].
        destruct (bool_decide (q ∈ made_dirs f up)) eqn:Hin.
        -- apply bool_decide_eq_true_1 in Hin.
           rewrite bool_decide_eq_true_2; [reflexivity|].
           apply elem_of_app. now left.
        -- apply bool_decide_eq_false_1 in Hin.
           rewrite bool_decide_eq_false_2; [reflexivity|].
           rewrite elem_of_app, list_elem_of_singleton. tauto.
Qed.

Lemma backup_target_length (E : env) (w : world) (name : string) (dir : path) :
  (length dir < length (backup_target E w (dir // name)))%nat.
Proof.
  unfold backup_target, next_backup_path, backup_path_of.
  destruct (isdir_at _ _); cbn [length]; lia.
Qed.

Lemma backup_target_not_source (E : env) (w : world) (p : path) :
  backup_target E w p <> p.
Proof.
  unfold backup_target.
  destruct p as [|name dir].
  - destruct (isdir_at _ _); discriminate.
  - destruct (isdir_at _ _).
    + intros H. apply (f_equal (@length string)) in H.
      unfold next_backup_path, backup_path_of in H. cbn [length] in H. lia.
    + intros H. symmetry in H. revert H. apply backup_path_fresh.
Qed.

Lemma touches_only_shutil_copyfile (E : env) (src dst : path) :
  touches_only dst (shutil_copyfile E src dst).
Proof.
  unfold shutil_copyfile. destruct (decide _).
  - intros w0 r0 w0' [= <- <-]. auto.
  - apply touches_only_bind; [apply touches_only_read_file|].
    intros; apply touches_only_write_file.
Qed.

(** The backup step leaves every path but its target alone. *)
Lemma backup_file_touches (E : env) (p : path) (w : world) (r : result unit)
      (w' : world) :
  backup_file E p w = (r, w') ->
  forall q, q <> backup_target E w p -> fs w' !! q = fs w !! q.
Proof.
  unfold backup_file, bind at 1, os_path_exists.
  destruct (exists_at (fs w) p); [|intros [= <- <-]; auto].
  unfold bind at 1, datetime_now. fold (next_backup_path E w p).
  unfold backup_target.
  set (bp := next_backup_path E w p) in *.
  unfold shutil_copy2, bind at 1, os_path_isdir.
  cbn [fs].
  set (dst := if isdir_at (fs w) bp then bp // basename p else bp).
  intros H q Hq.
  assert (Hto : touches_only dst
            (shutil_copyfile E p dst;;; shutil_copystat p dst)).
  { apply touches_only_bind; [|intros; apply touches_only_shutil_copystat].
    apply touches_only_shutil_copyfile. }
  rewrite (Hto _ _ _ H q Hq). reflexivity.
Qed.

Lemma keeps_clock_bind {A B} (m : M A) (k : A -> M B) :
  keeps_clock m -> (forall a, keeps_clock (k a)) -> keeps_clock (bind m k).
Proof.
  intros Hm Hk w r w'. unfold bind.
  destruct (m w) as [[a|e] w1] eqn:Hmw; intros H.
  - rewrite (Hk a _ _ _ H). exact (Hm _ _ _ Hmw).
  - injection H as <- <-. exact (Hm _ _ _ Hmw).
Qed.

Lemma keeps_clock_read_file (p : path) : keeps_clock (read_file p).
Proof.
  intros w r w'. unfold read_file.
  destruct (node_at (fs w) p) as [[|c st]|]; try (intros [= <- <-]; auto; fail).
  destruct (check_parent (fs w) (parent p)) as [[]|]; intros [= <- <-]; auto.
Qed.

Lemma keeps_clock_write_file (E : env) (p : path) (c : list byte) :
  keeps_clock (write_file E p c).
Proof.
  intros w r w'. unfold write_file.
  destruct (node_at (fs w) p) as [[|c0 st]|]; try (intros [= <- <-]; auto; fail).
  destruct (check_parent (fs w) (parent p)); intros [= <- <-]; auto.
Qed.

Lemma keeps_clock_shutil_copystat (src dst : path) :
  keeps_clock (shutil_copystat src dst).
Proof.
  intros w r w'. unfold shutil_copystat.
  destruct (node_at (fs w) src) as [[|c st]|];
    destruct (node_at (fs w) dst) as [[|c' st']|]; intros [= <- <-]; auto.
Qed.

Lemma keeps_clock_shutil_copy2 (E : env) (src dst : path) :
  keeps_clock (shutil_copy2 E src dst).
Proof.
  unfold shutil_copy2. apply keeps_clock_bind.
  { intros w r w' [= <- <-]. auto. }
  intros isd. apply keeps_clock_bind; [|intros; apply keeps_clock_shutil_copystat].
  unfold shutil_copyfile. destruct (decide _).
  - intros w r w' [= <- <-]. auto.
  - apply keeps_clock_bind; [apply keeps_clock_read_file|].
    intros; apply keeps_clock_write_file.
Qed.

Lemma backup_file_clock (E : env) (p : path) (w : world) (r : result unit)
      (w' : world) :
  backup_file E p w = (r, w') ->
  clock_pos w' = if exists_at (fs w) p then S (clock_pos w) else clock_pos w.
Proof.
  unfold backup_file, bind at 1, os_path_exists.
  destruct (exists_at (fs w) p); [|intros [= <- <-]; auto].
  unfold bind at 1, datetime_now.
  intros H. apply keeps_clock_shutil_copy2 in H. exact H.
Qed.

Lemma read_file_raise (p : path) (w w' : world) (e : exn) :
  read_file p w = (Raise e, w') ->
  w' = w /\
  (e = IsADirectoryError \/ e = NotADirectoryError \/ e = FileNotFoundError).
Proof.
  unfold read_file, check_parent.
  destruct (node_at (fs w) p) as [[|c0 st]|]; try discriminate.
  - intros [= <- <-]. auto.
  - destruct (node_at (fs w) (parent p)) as [[|c1 st1]|];
      intros [= <- <-]; auto.
Qed.

Lemma read_file_Ok (p : path) (w w' : world) (c : list byte) :
  read_file p w = (Ok c, w') ->
  w' = log (EvRead p) w /\ exists st, node_at (fs w) p = Some (File c st).
Proof.
  unfold read_file.
  destruct (node_at (fs w) p) as [[|c0 st]|]; try discriminate.
  - intros [= <- <-]. eauto.
  - destruct (check_parent (fs w) (parent p)) as [[]|]; discriminate.
Qed.

Lemma write_file_Ok (E : env) (p : path) (c : list byte) (w w' : world) :
  write_file E p c w = (Ok tt, w') ->
  w' = mkWorld (<[p := File c (mkStat (write_mode E (fs w) p) (fs_time w))]> (fs w))
               (fs_time w + 1) (entropy_pos w) (clock_pos w)
               (trace w ++ [EvWrite p]) (stdout w).
Proof.
  unfold write_file, write_mode.
  destruct (node_at (fs w) p) as [[|c0 st]|]; try discriminate.
  - intros [= <-]. reflexivity.
  - destruct (check_parent (fs w) (parent p)); [discriminate|].
    intros [= <-]. reflexivity.
Qed.

Lemma backup_file_directory (E : env) (p : path) (w : world) :
  node_at (fs w) p = Some Dir ->
  backup_file E p w = (Raise IsADirectoryError, after_clock w).
Proof.
  intros Hd.
  unfold backup_file, bind at 1, os_path_exists, exists_at. rewrite Hd.
  unfold bind at 1, datetime_now. fold (next_backup_path E w p).
  fold (after_clock w).
  pose proof (backup_target_not_source E w p) as Hne. unfold backup_target in Hne.
  cbv zeta in Hne.
  set (bp := next_backup_path E w p) in *.
  unfold shutil_copy2, bind at 1, os_path_isdir.
  change (fs (after_clock w)) with (fs w).
  set (dst := if isdir_at (fs w) bp then bp // basename p else bp) in *.
  unfold shutil_copyfile. destruct (decide (p = dst)) as [Heq|_]; [congruence|].
  unfold bind, read_file. change (fs (after_clock w)) with (fs w).
  rewrite Hd. reflexivity.
Qed.

(** ** The run, whatever its outcome *)

(** The run as a chain of its steps, once the storage path is known. *)
Lemma reset_steps (E : env) (w : world) (p : path) :
  get_storage_file E w = (Ok p, w) ->
  reset_cursor_id E w =
  match Path_mkdir_parents true (parent p) w with
  | (Raise e, w1) => (Raise e, w1)
  | (Ok _, w1) =>
    match backup_file E p w1 with
    | (Raise e, w2) => (Raise e, w2)
    | (Ok _, w2) =>
      match (if exists_at (fs w2) p then json_load p w2
             else (Ok (JObject []), w2)) with
      | (Raise e, w3) => (Raise e, w3)
      | (Ok (JObject d), w3) =>
        match write_file E p (saved_bytes E (set_ids E (entropy_pos w3) d))
                (after_draws w3) with
        | (Raise e, w4) => (Raise e, w4)
        | (Ok _, w4) =>
            (Ok tt,
             mkWorld (fs w4) (fs_time w4) (entropy_pos w4) (clock_pos w4) (trace w4)
                     (stdout w4 ++ [success_message; report E (entropy_pos w3)]))
        end
      | (Ok _, w3) => (Raise TypeError, after_draws w3)
      end
    end
  end.
Proof.
  intros Hget.
  unfold reset_cursor_id. unfold bind at 1. rewrite Hget.
  unfold bind at 1.
  destruct (Path_mkdir_parents true (parent p) w) as [[[]|e] w1]; [|reflexivity].
  unfold bind at 1.
  destruct (backup_file E p w1) as [[[]|e] w2]; [|reflexivity].
  unfold bind at 1. unfold os_path_exists at 1.
  unfold bind at 1.
  destruct (exists_at (fs w2) p); cbn [negb].
  - destruct (json_load p w2) as [[v|e] w3]; [|reflexivity].
    cbv [bind os_urandom uuid_uuid4 ret raise setitem json_dump print].
    cbn [fs fs_time entropy_pos clock_pos trace stdout].
    destruct v as [| | | | | |d]; try reflexivity.
    unfold saved_bytes, set_ids, machine_id_at, mac_machine_id_at, dev_device_id_at,
      after_draws, report.
    destruct (write_file E p _ _) as [[[]|e] w4]; [|reflexivity].
    cbn [fs fs_time entropy_pos clock_pos trace stdout].
    rewrite <- app_assoc. reflexivity.
  - unfold ret at 1.
    cbv [bind os_urandom uuid_uuid4 ret raise setitem json_dump print].
    cbn [fs fs_time entropy_pos clock_pos trace stdout].
    unfold saved_bytes, set_ids, machine_id_at, mac_machine_id_at, dev_device_id_at,
      after_draws, report.
    destruct (write_file E p _ _) as [[[]|e] w4]; [|reflexivity].
    cbn [fs fs_time entropy_pos clock_pos trace stdout].
    rewrite <- app_assoc. reflexivity.
Qed.

Lemma json_load_world (p : path) (w : world) (r : result json) (w' : world) :
  json_load p w = (r, w') -> w' = w \/ w' = log (EvRead p) w.
Proof.
  unfold json_load, bind, lift.
  destruct (read_file p w) as [[c|e] w1] eqn:Hrd.
  - apply read_file_Ok in Hrd. destruct Hrd as [-> _]. intros [= <- <-]. auto.
  - apply read_file_raise in Hrd. destruct Hrd as [-> _]. intros [= <- <-]. auto.
Qed.

(** Lines 73-77 change nothing but the trace. *)
Lemma load_step_facts (p : path) (w : world) (r : result json) (w' : world) :
  (if exists_at (fs w) p then json_load p w else (Ok (JObject []), w)) = (r, w') ->
  fs w' = fs w /\ fs_time w' = fs_time w /\ entropy_pos w' = entropy_pos w /\
  clock_pos w' = clock_pos w /\ stdout w' = stdout w.
Proof.
  destruct (exists_at (fs w) p).
  - intros H. apply json_load_world in H. destruct H as [-> | ->]; auto 10.
  - intros [= <- <-]. auto 10.
Qed.

Lemma backup_target_after_mkdir (E : env) (w : world) (dir : path) (name : string) :
  backup_target E (after_mkdir w dir) (dir // name) = backup_target E w (dir // name).
Proof.
  unfold backup_target, next_backup_path, after_mkdir, isdir_at, backup_path_of.
  cbn [fs clock_pos node_at].
  rewrite makedirs_lookup_longer by (cbn [length]; lia). reflexivity.
Qed.

(** What a run has done to the file system away from the storage file and
    the backup: it has made the missing directories, nothing else. *)
Lemma reset_fs_elsewhere (E : env) (w : world) (dir : path) (r : result unit)
      (w' : world) (q : path) :
  get_storage_file E w = (Ok (dir // "storage.json"), w) ->
  reset_cursor_id E w = (r, w') ->
  q <> dir // "storage.json" ->
  q <> backup_target E w (dir // "storage.json") ->
  fs w' !! q = (if dirs_clear (fs w) dir then makedirs (fs w) dir else fs w) !! q.
Proof.
  intros Hget Hrun Hq Hqb.
  rewrite (reset_steps E w _ Hget) in Hrun. cbn [parent tail] in Hrun.
  rewrite Path_mkdir_parents_spec in Hrun.
  destruct (dirs_clear (fs w) dir) eqn:Hc; [|now injection Hrun as <- <-].
  rewrite <- (backup_target_after_mkdir E w dir) in Hqb.
  change (makedirs (fs w) dir) with (fs (after_mkdir w dir)).
  set (w1 := after_mkdir w dir) in *. clearbody w1.
  set (p := dir // "storage.json") in *.
  destruct (backup_file E p w1) as [rb w2] eqn:Hbk.
  pose proof (backup_file_touches E p w1 rb w2 Hbk q Hqb) as H2.
  destruct rb as [[]|eb]; [|now injection Hrun as <- <-].
  destruct (if exists_at (fs w2) p then json_load p w2 else (Ok (JObject []), w2))
    as [rl w3] eqn:Hld.
  destruct (load_step_facts _ _ _ _ Hld) as (H3 & _).
  destruct rl as [v|el]; [|injection Hrun as <- <-; congruence].
  destruct v as [| | | | | |d];
    try (injection Hrun as <- <-; cbn [fs after_draws]; congruence).
  destruct (write_file E p _ (after_draws w3)) as [rw w4] eqn:Hwr.
  pose proof (touches_only_write_file E p _ _ _ _ Hwr q Hq) as H4.
  cbn [fs after_draws] in H4.
  destruct rw as [[]|ew]; injection Hrun as <- <-; cbn [fs]; congruence.
Qed.

(** The random bytes and clock readings of a run that succeeds. *)
Lemma reset_ok_facts (E : env) (w : world) (dir : path) (w' : world) :
  get_storage_file E w = (Ok (dir // "storage.json"), w) ->
  reset_cursor_id E w = (Ok tt, w') ->
  entropy_pos w' = (entropy_pos w + 80)%nat /\
  clock_pos w'
  = (if exists_at (fs w) (dir // "storage.json") then S (clock_pos w) else clock_pos w) /\
  dirs_clear (fs w) dir = true /\
  isdir_at (fs w') dir = true.
Proof.
  intros Hget Hrun.
  rewrite (reset_steps E w _ Hget) in Hrun. cbn [parent tail] in Hrun.
  rewrite Path_mkdir_parents_spec in Hrun.
  destruct (dirs_clear (fs w) dir) eqn:Hc; [|discriminate].
  set (p := dir // "storage.json") in *.
  assert (H1 : exists_at (fs (after_mkdir w dir)) p = exists_at (fs w) p).
  { unfold after_mkdir, exists_at, p. cbn [fs node_at].
    rewrite makedirs_lookup_longer by (cbn [length]; lia). reflexivity. }
  assert (D1 : isdir_at (fs (after_mkdir w dir)) dir = true)
    by (apply makedirs_isdir, Hc).
  assert (C1 : clock_pos (after_mkdir w dir) = clock_pos w) by reflexivity.
  assert (E1 : entropy_pos (after_mkdir w dir) = entropy_pos w) by reflexivity.
  set (w1 := after_mkdir w dir) in *. clearbody w1.
  destruct (backup_file E p w1) as [rb w2] eqn:Hbk.
  pose proof (backup_file_clock E p w1 rb w2 Hbk) as C2.
  destruct (quiet_backup_file E p _ _ _ Hbk) as [E2 _].
  assert (D2 : isdir_at (fs w2) dir = true).
  { destruct dir as [|n up]; [reflexivity|].
    unfold isdir_at in *. cbn [node_at] in *.
    rewrite (backup_file_touches E p w1 rb w2 Hbk); [exact D1|].
    intros H. pose proof (backup_target_length E w1 "storage.json" (n :: up)) as Hl.
    fold p in Hl. rewrite <- H in Hl. lia. }
  destruct rb as [[]|eb]; [|discriminate].
  destruct (if exists_at (fs w2) p then json_load p w2 else (Ok (JObject []), w2))
    as [rl w3] eqn:Hld.
  destruct (load_step_facts _ _ _ _ Hld) as (H3 & _ & E3 & C3 & _).
  destruct rl as [v|el]; [|discriminate].
  destruct v as [| | | | | |d]; try discriminate.
  destruct (write_file E p _ (after_draws w3)) as [rw w4] eqn:Hwr.
  destruct rw as [[]|ew]; [|discriminate].
  apply write_file_Ok in Hwr. subst w4.
  injection Hrun as <-. cbn [fs entropy_pos clock_pos after_draws].
  split; [lia|]. split; [rewrite C3, C2, H1, C1; reflexivity|].
  split; [reflexivity|].
  destruct dir as [|n up]; [reflexivity|].
  unfold isdir_at in *. cbn [node_at] in *.
  rewrite lookup_insert_ne.
  - rewrite H3. exact D2.
  - unfold p. intros H. apply (f_equal (@length string)) in H. cbn [length] in H. lia.
Qed.

(** ** The bits of a version-4 UUID *)

Lemma testbit_const (K : Z) (f : Z -> bool) (i : Z) :
  (0 <= K < 2 ^ 128)%Z ->
  forallb (fun n => Bool.eqb (Z.testbit K (Z.of_nat n)) (f (Z.of_nat n))) (seq 0 128)
  = true ->
  (forall j, (128 <= j)%Z -> f j = false) ->
  (0 <= i)%Z -> Z.testbit K i = f i.
Proof.
  intros [HK0 HK] Hall Hhigh Hi.
  destruct (Z_lt_le_dec i 128) as [Hlt|Hge].
  - rewrite forallb_forall in Hall.
    specialize (Hall (Z.to_nat i)). rewrite Z2Nat.id in Hall by lia.
    apply Bool.eqb_prop, Hall, in_seq. lia.
  - rewrite (Hhigh i Hge).
    destruct (Z.eq_dec K 0%Z) as [->|Hne]; [apply Z.testbit_0_l|].
    apply Z.bits_above_log2; [lia|].
    assert (Z.log2 K < 128)%Z by (apply Z.log2_lt_pow2; lia). lia.
Qed.

Lemma int_from_bytes_range (bs : list byte) :
  (0 <= int_from_bytes bs < 256 ^ Z.of_nat (length bs))%Z.
Proof.
  unfold int_from_bytes.
  assert (H : forall acc n, (0 <= acc < 256 ^ Z.of_nat n)%Z ->
            (0 <= fold_left (fun acc b => acc * 256 + Z.of_N (Byte.to_N b)) bs acc
             < 256 ^ Z.of_nat (n + length bs))%Z).
  { induction bs as [|b bs IH]; intros acc n Hacc; cbn [fold_left length].
    - now rewrite Nat.add_0_r.
    - replace (n + S (length bs))%nat with (S n + length bs)%nat by lia.
      apply IH. pose proof (Byte.to_N_bounded b).
      rewrite Nat2Z.inj_succ, Z.pow_succ_r by lia. lia. }
  apply (H 0%Z 0%nat). cbn. lia.
Qed.

(** ** Timestamps are injective *)

Lemma two_digits_value (n : N) :
  (n < 100)%N ->
  ((N_of_ascii (dec_digit n 1) - 48) * 10 + (N_of_ascii (dec_digit n 0) - 48))%N = n.
Proof.
  intros Hn. apply N.eqb_eq.
  apply (forallb_below
           (fun n => ((N_of_ascii (dec_digit n 1) - 48) * 10
                      + (N_of_ascii (dec_digit n 0) - 48) =? n)%N)
           100%N); [vm_compute; reflexivity | exact Hn].
Qed.

Lemma four_digits_value (n : N) :
  (n < 10000)%N ->
  ((N_of_ascii (dec_digit n 3) - 48) * 1000 + (N_of_ascii (dec_digit n 2) - 48) * 100
   + (N_of_ascii (dec_digit n 1) - 48) * 10 + (N_of_ascii (dec_digit n 0) - 48))%N = n.
Proof.
  intros Hn. apply N.eqb_eq.
  apply (forallb_below
           (fun n => ((N_of_ascii (dec_digit n 3) - 48) * 1000
                      + (N_of_ascii (dec_digit n 2) - 48) * 100
                      + (N_of_ascii (dec_digit n 1) - 48) * 10
                      + (N_of_ascii (dec_digit n 0) - 48) =? n)%N)
           10000%N); [vm_compute; reflexivity | exact Hn].
Qed.

Lemma strftime_inj (d d' : datetime) :
  datetime_valid d = true -> datetime_valid d' = true ->
  strftime_Ymd_HMS d = strftime_Ymd_HMS d' -> d = d'.
Proof.
  intros Hv Hv' Heq.
  apply (f_equal list_ascii_of_string) in Heq.
  rewrite (strftime_explicit d Hv), (strftime_explicit d' Hv') in Heq.
  destruct (datetime_valid_bounds d Hv) as (Hy & Hm & Hd & Hh & Hmi & Hs).
  destruct (datetime_valid_bounds d' Hv') as (Hy' & Hm' & Hd' & Hh' & Hmi' & Hs').
  injection Heq as Y3 Y2 Y1 Y0 M1 M0 D1 D0 h1 h0 m1 m0 s1 s0.
  destruct d as [y m dd h mi s], d' as [y' m' dd' h' mi' s']. cbn [dt_year dt_month
    dt_day dt_hour dt_minute dt_second] in *.
  f_equal.
  - rewrite <- (four_digits_value y Hy), <- (four_digits_value y' Hy'). congruence.
  - rewrite <- (two_digits_value m Hm), <- (two_digits_value m' Hm'). congruence.
  - rewrite <- (two_digits_value dd Hd), <- (two_digits_value dd' Hd'). congruence.
  - rewrite <- (two_digits_value h Hh), <- (two_digits_value h' Hh'). congruence.
  - rewrite <- (two_digits_value mi Hmi), <- (two_digits_value mi' Hmi'). congruence.
  - rewrite <- (two_digits_value s Hs), <- (two_digits_value s' Hs'). congruence.
Qed.

(** ** Repeated updates of a mapping *)

Lemma dict_set_twice (d : dict) (k : pystr) (v v' : json) :
  dict_set (dict_set d k v) k v' = dict_set d k v'.
Proof.
  induction d as [|[k0 v0] d IH]; cbn.
  - destruct (decide (k = k)); congruence.
  - destruct (decide (k0 = k)) as [->|Hne]; cbn.
    + destruct (decide (k = k)); congruence.
    + destruct (decide (k0 = k)); [congruence | now rewrite IH].
Qed.

Lemma dict_set_comm_present (d : dict) (k k' : pystr) (v v' : json) :
  k <> k' -> k ∈ dict_keys d ->
  dict_set (dict_set d k' v') k v = dict_set (dict_set d k v) k' v'.
Proof.
  intros Hne. unfold dict_keys.
  induction d as [|[k0 v0] d IH]; cbn; intros Hin.
  - now apply elem_of_nil in Hin.
  - destruct (decide (k0 = k')) as [->|H0'];
      destruct (decide (k' = k)) as [|_]; try congruence; cbn.
    + destruct (decide (k' = k')); [|congruence].
      destruct (decide (k' = k)); [congruence|]. reflexivity.
    + destruct (decide (k0 = k)) as [->|H0]; cbn.
      * destruct (decide (k = k')); [congruence|]. reflexivity.
      * destruct (decide (k0 = k')); [congruence|].
        f_equal. apply IH. apply elem_of_cons in Hin. destruct Hin; congruence.
Qed.

Lemma dict_keys_set_elem (d : dict) (k k' : pystr) (v : json) :
  k' ∈ dict_keys (dict_set d k v) <-> k' = k \/ k' ∈ dict_keys d.
Proof.
  rewrite dict_keys_set.
  destruct (bool_decide (k ∈ dict_keys d)) eqn:Hin.
  - apply bool_decide_eq_true_1 in Hin. split; [auto | intros [->|]; auto].
  - rewrite elem_of_app, list_elem_of_singleton. tauto.
Qed.

Lemma bool_decide_keys_set_ne (d : dict) (k k' : pystr) (v : json) :
  k' <> k ->
  bool_decide (k' ∈ dict_keys (dict_set d k v)) = bool_decide (k' ∈ dict_keys d).
Proof.
  intros Hne. apply bool_decide_ext. rewrite dict_keys_set_elem. tauto.
Qed.

Lemma dict_set_NoDup (d : dict) (k : pystr) (v : json) :
  NoDup (dict_keys d) -> NoDup (dict_keys (dict_set d k v)).
Proof.
  intros Hnd. rewrite dict_keys_set.
  destruct (bool_decide (k ∈ dict_keys d)) eqn:Hin; [exact Hnd|].
  apply bool_decide_eq_false_1 in Hin.
  apply NoDup_app. split; [exact Hnd|]. split.
  - intros x Hx Hx'. apply list_elem_of_singleton in Hx'. congruence.
  - apply NoDup_singleton.
Qed.

(** ** Unfolding the decoder *)

Lemma scan_once_S (fuel : nat) (c : N) (r : pystr) :
  scan_once (S fuel) (c :: r) =
      if (c =? 34)%N then
        match scanstring r with
        | Some (str, rest) => Some (JString str, rest)
        | None => None
        end
      else if (c =? 123)%N then
        match skip_ws r with
        | c1 :: r1 =>
          if (c1 =? 125)%N then Some (JObject [], r1)
          else if (c1 =? 34)%N then
            match object_members fuel r1 [] with
            | Some (d, rest) => Some (JObject d, rest)
            | None => None
            end
          else None
        | [] => None
        end
      else if (c =? 91)%N then
        match skip_ws r with
        | c1 :: r1 =>
          if (c1 =? 93)%N then Some (JArray [], r1)
          else
            match array_items fuel (c1 :: r1) with
            | Some (l, rest) => Some (JArray l, rest)
            | None => None
            end
        | [] => None
        end
      else
        match strip_prefix (str_lit "null") (c :: r) with
        | Some rest => Some (JNull, rest)
        | None =>
        match strip_prefix (str_lit "true") (c :: r) with
        | Some rest => Some (JBool true, rest)
        | None =>
        match strip_prefix (str_lit "false") (c :: r) with
        | Some rest => Some (JBool false, rest)
        | None =>
        match match_number (c :: r) with
        | Some res => Some res
        | None =>
        match strip_prefix (str_lit "NaN") (c :: r) with
        | Some rest => Some (JFloat (str_lit "NaN"), rest)
        | None =>
        match strip_prefix (str_lit "Infinity") (c :: r) with
        | Some rest => Some (JFloat (str_lit "Infinity"), rest)
        | None =>
        match strip_prefix (str_lit "-Infinity") (c :: r) with
        | Some rest => Some (JFloat (str_lit "-Infinity"), rest)
        | None => None
        end end end end end end end.
Proof. reflexivity. Qed.

Lemma scan_once_nil (fuel : nat) : scan_once fuel [] = None.
Proof. destruct fuel; reflexivity. Qed.

Lemma object_members_S (fuel : nat) (s : pystr) (acc : dict) :
  object_members (S fuel) s acc =
    match scanstring s with
    | None => None
    | Some (key, s1) =>
      match skip_ws s1 with
      | c :: r =>
        if (c =? 58)%N then
          match scan_once fuel (skip_ws r) with
          | None => None
          | Some (v, s2) =>
            let acc' := dict_set acc key v in
            match skip_ws s2 with
            | c2 :: r2 =>
              if (c2 =? 125)%N then Some (acc', r2)
              else if (c2 =? 44)%N then
                match skip_ws r2 with
                | c3 :: r3 =>
                  if (c3 =? 34)%N then object_members fuel r3 acc'
                  else None
                | [] => None
                end
              else None
            | [] => None
            end
          end
        else None
      | [] => None
      end
    end.
Proof. reflexivity. Qed.

Lemma object_members_NoDup (fuel : nat) (s : pystr) (acc d : dict) (rest : pystr) :
  NoDup (dict_keys acc) ->
  object_members fuel s acc = Some (d, rest) -> NoDup (dict_keys d).
Proof.
  revert s acc. induction fuel as [|fuel IH]; intros s acc Hnd; [discriminate|].
  rewrite object_members_S.
  destruct (scanstring s) as [[key s1]|]; [|discriminate].
  destruct (skip_ws s1) as [|c r]; [discriminate|].
  destruct (c =? 58)%N; [|discriminate].
  destruct (scan_once fuel (skip_ws r)) as [[v s2]|]; [|discriminate].
  cbv zeta.
  destruct (skip_ws s2) as [|c2 r2]; [discriminate|].
  pose proof (dict_set_NoDup acc key v Hnd) as Hnd'.
  destruct (c2 =? 125)%N; [intros [= <- <-]; exact Hnd'|].
  destruct (c2 =? 44)%N; [|discriminate].
  destruct (skip_ws r2) as [|c3 r3]; [discriminate|].
  destruct (c3 =? 34)%N; [|discriminate].
  apply IH. exact Hnd'.
Qed.

Lemma match_number_not_object (s : pystr) (d : dict) (rest : pystr) :
  match_number s <> Some (JObject d, rest).
Proof.
  unfold match_number.
  destruct (match_integer s) as [[i s1]|]; [|discriminate].
  destruct (match_frac s1) as [fr s2]. destruct (match_exp s2) as [ex s3].
  destruct fr; destruct ex; discriminate.
Qed.

Lemma scan_once_object_NoDup (fuel : nat) (s : pystr) (d : dict) (rest : pystr) :
  scan_once fuel s = Some (JObject d, rest) -> NoDup (dict_keys d).
Proof.
  destruct fuel as [|fuel]; [discriminate|].
  destruct s as [|c r]; [discriminate|].
  rewrite scan_once_S.
  destruct (c =? 34)%N.
  { destruct (scanstring r) as [[str rest']|]; discriminate. }
  destruct (c =? 123)%N.
  { destruct (skip_ws r) as [|c1 r1]; [discriminate|].
    destruct (c1 =? 125)%N; [intros [= <- <-]; apply NoDup_nil_2|].
    destruct (c1 =? 34)%N; [|discriminate].
    destruct (object_members fuel r1 []) as [[d' rest']|] eqn:Hom; [|discriminate].
    intros [= <- <-]. apply (object_members_NoDup fuel r1 [] d' rest'); [apply NoDup_nil_2 | exact Hom]. }
  destruct (c =? 91)%N.
  { destruct (skip_ws r) as [|c1 r1]; [discriminate|].
    destruct (c1 =? 93)%N; [discriminate|].
    destruct (array_items fuel (c1 :: r1)) as [[l rest']|]; discriminate. }
  destruct (strip_prefix _ _); [discriminate|].
  destruct (strip_prefix _ _); [discriminate|].
  destruct (strip_prefix _ _); [discriminate|].
  destruct (match_number (c :: r)) as [[v rest']|] eqn:Hn.
  { intros [= -> ->]. now apply match_number_not_object in Hn. }
  destruct (strip_prefix _ _); [discriminate|].
  destruct (strip_prefix _ _); [discriminate|].
  destruct (strip_prefix _ _); discriminate.
Qed.

Lemma utf8_decode_ascii (bs : list N) :
  forallb (fun b => (b <? 128)%N) bs = true -> utf8_decode_N bs = Some bs.
Proof.
  induction bs as [|b bs IH]; [reflexivity|].
  cbn [forallb utf8_decode_N]. intros H. apply andb_true_iff in H. destruct H as [Hb Hbs].
  rewrite Hb, (IH Hbs). reflexivity.
Qed.

Lemma is_ws_ascii (bs : list N) :
  forallb is_ws bs = true -> forallb (fun b => (b <? 128)%N) bs = true.
Proof.
  rewrite !forallb_forall. intros H b Hb. specialize (H b Hb).
  unfold is_ws in H. rewrite !orb_true_iff, !N.eqb_eq in H. apply N.ltb_lt. lia.
Qed.

Lemma universal_newlines_ws (s : pystr) :
  forallb is_ws s = true -> skip_ws (universal_newlines s) = [].
Proof.
  assert (H : forall n s, (length s <= n)%nat -> forallb is_ws s = true ->
                          skip_ws (universal_newlines s) = []).
  { clear s. induction n as [|n IH]; intros s Hlen Hws.
    - destruct s; [reflexivity | cbn in Hlen; lia].
    - destruct s as [|c r]; [reflexivity|].
      cbn [forallb] in Hws. apply andb_true_iff in Hws. destruct Hws as [Hc Hr].
      cbn [length] in Hlen. cbn [universal_newlines].
      destruct (c =? 13)%N.
      + destruct r as [|c' r']; [reflexivity|].
        cbn [forallb] in Hr. apply andb_true_iff in Hr. destruct Hr as [Hc' Hr'].
        destruct (c' =? 10)%N.
        * change (skip_ws (10%N :: universal_newlines r'))
            with (skip_ws (universal_newlines r')).
          apply IH; [cbn [length] in Hlen; lia | exact Hr'].
        * change (skip_ws (10%N :: universal_newlines (c' :: r')))
            with (skip_ws (universal_newlines (c' :: r'))).
          apply IH; [lia|]. cbn [forallb]. now rewrite Hc', Hr'.
      + cbn [skip_ws]. rewrite Hc. apply IH; [lia | exact Hr]. }
  apply (H (length s)). lia.
Qed.

Lemma blank_document (c : list byte) :
  forallb is_ws (map Byte.to_N c) = true ->
  decode_document c = Raise JSONDecodeError.
Proof.
  intros Hws. unfold decode_document, utf8_decode.
  rewrite utf8_decode_ascii by now apply is_ws_ascii.
  unfold json_loads. rewrite universal_newlines_ws by exact Hws.
  rewrite scan_once_nil. reflexivity.
Qed.

(* ===================================================================== *)
(** * Dumping and loading *)
(* ===================================================================== *)

(** ** Strings: the decoder reads back what the encoder writes *)

Lemma str_lit_app (a b : string) : str_lit (a +:+ b) = str_lit a ++ str_lit b.
Proof.
  unfold str_lit. induction a as [|c a IH]; simpl; [reflexivity|].
  f_equal. exact IH.
Qed.

Lemma str_lit_string_of_list (l : list ascii) :
  str_lit (string_of_list_ascii l) = codes l.
Proof. unfold str_lit, codes. now rewrite list_ascii_of_string_of_list_ascii. Qed.

Lemma codes_app (a b : list ascii) : codes (a ++ b) = codes a ++ codes b.
Proof. apply map_app. Qed.

Lemma hex_value_hexdigit (k : N) :
  (k < 16)%N -> hex_value (N_of_ascii (hexdigit k)) = Some k.
Proof.
  intros Hk.
  assert (H : match hex_value (N_of_ascii (hexdigit k)) with
              | Some v => (v =? k)%N
              | None => false
              end = true).
  { apply (forallb_below
             (fun k => match hex_value (N_of_ascii (hexdigit k)) with
                       | Some v => (v =? k)%N
                       | None => false
                       end) 16%N); [vm_compute; reflexivity | exact Hk]. }
  destruct (hex_value _) as [v|]; [|discriminate].
  apply N.eqb_eq in H. now subst.
Qed.

Lemma decode_hex4 (c : N) :
  (c < 65536)%N ->
  match codes (hex4 c) with
  | [h1; h2; h3; h4] => decode_uXXXX h1 h2 h3 h4
  | _ => None
  end = Some c.
Proof.
  intros Hc. unfold hex4, codes. cbn [map]. unfold decode_uXXXX.
  rewrite !hex_value_hexdigit by (apply N.mod_lt; discriminate).
  f_equal. zify. Z.to_euclidean_division_equations. lia.
Qed.

(** The surrogate pair the encoder writes for a character beyond U+FFFF. *)
Lemma surrogate_pair (c : N) :
  (65536 <= c < 1114112)%N ->
  let n := (c - 65536)%N in
  let s1 := N.lor 55296 (N.land (N.shiftr n 10) 1023) in
  let s2 := N.lor 56320 (N.land n 1023) in
  (s1 < 65536)%N /\ (s2 < 65536)%N /\
  is_high_surrogate s1 = true /\ is_low_surrogate s2 = true /\
  join_surrogates s1 s2 = c.
Proof.
  intros Hc n s1 s2.
  assert (Hlor : forall base x, (base = 55296 \/ base = 56320)%N -> (x < 1024)%N ->
                                N.lor base x = (base + x)%N).
  { intros base x Hb Hx.
    assert (H : (N.lor 55296 x =? 55296 + x)%N && (N.lor 56320 x =? 56320 + x)%N = true).
    { apply (forallb_below
               (fun x => (N.lor 55296 x =? 55296 + x)%N && (N.lor 56320 x =? 56320 + x)%N)
               1024%N); [vm_compute; reflexivity | exact Hx]. }
    apply andb_true_iff in H. destruct H as [Ha Hb']. apply N.eqb_eq in Ha, Hb'.
    destruct Hb as [-> | ->]; assumption. }
  assert (Hn : (n < 1048576)%N) by (unfold n; lia).
  assert (Hhi : N.land (N.shiftr n 10) 1023 = (n / 1024)%N).
  { change 1023%N with (N.ones 10). rewrite N.land_ones, N.shiftr_div_pow2.
    change (2 ^ 10)%N with 1024%N. apply N.mod_small.
    apply N.Div0.div_lt_upper_bound. lia. }
  assert (Hlo : N.land n 1023 = (n mod 1024)%N).
  { change 1023%N with (N.ones 10). now rewrite N.land_ones. }
  assert (Hq : (n / 1024 < 1024)%N) by (apply N.Div0.div_lt_upper_bound; lia).
  assert (Hr : (n mod 1024 < 1024)%N) by (apply N.mod_lt; discriminate).
  unfold s1, s2. rewrite Hhi, Hlo.
  rewrite !Hlor by auto.
  unfold is_high_surrogate, is_low_surrogate, join_surrogates.
  pose proof (N.div_mod n 1024 ltac:(discriminate)) as Hdm.
  repeat split; try lia.
  - apply andb_true_iff. split; apply N.leb_le; lia.
  - apply andb_true_iff. split; apply N.leb_le; lia.
Qed.

Lemma scanstring_cons (c : N) (r : pystr) :
  c <> 34%N -> c <> 92%N -> (32 <= c)%N ->
  scanstring (c :: r) = cons_char c (scanstring r).
Proof.
  intros H34 H92 H32. cbn [scanstring].
  destruct (N.eqb_spec c 34); [contradiction|].
  destruct (N.eqb_spec c 92); [contradiction|].
  destruct (N.ltb_spec c 32); [lia | reflexivity].
Qed.

Lemma scanstring_simple (e ch : N) (r : pystr) :
  e <> 117%N -> simple_escape e = Some ch ->
  scanstring (92%N :: e :: r) = cons_char ch (scanstring r).
Proof.
  intros He Hs. cbn [scanstring]. change (92 =? 34)%N with false.
  change (92 =? 92)%N with true. cbv iota.
  destruct (N.eqb_spec e 117); [contradiction|]. now rewrite Hs.
Qed.

Lemma scanstring_u (h1 h2 h3 h4 uni : N) (r : pystr) :
  decode_uXXXX h1 h2 h3 h4 = Some uni ->
  is_high_surrogate uni = false ->
  scanstring (92%N :: 117%N :: h1 :: h2 :: h3 :: h4 :: r)
  = cons_char uni (scanstring r).
Proof.
  intros Hd Hh. cbn [scanstring]. change (92 =? 34)%N with false.
  change (92 =? 92)%N with true. change (117 =? 117)%N with true. cbv iota.
  now rewrite Hd, Hh.
Qed.

Lemma scanstring_pair (h1 h2 h3 h4 g1 g2 g3 g4 hi lo : N) (r : pystr) :
  decode_uXXXX h1 h2 h3 h4 = Some hi ->
  is_high_surrogate hi = true ->
  decode_uXXXX g1 g2 g3 g4 = Some lo ->
  is_low_surrogate lo = true ->
  scanstring (92%N :: 117%N :: h1 :: h2 :: h3 :: h4
              :: 92%N :: 117%N :: g1 :: g2 :: g3 :: g4 :: r)
  = cons_char (join_surrogates hi lo) (scanstring r).
Proof.
  intros Hd Hh Hd' Hl.
  change (scanstring (92%N :: 117%N :: h1 :: h2 :: h3 :: h4
                      :: 92%N :: 117%N :: g1 :: g2 :: g3 :: g4 :: r))
    with (match decode_uXXXX h1 h2 h3 h4 with
          | None => None
          | Some uni =>
            if is_high_surrogate uni then
              match decode_uXXXX g1 g2 g3 g4 with
              | None => None
              | Some uni2 =>
                if is_low_surrogate uni2
                then cons_char (join_surrogates uni uni2) (scanstring r)
                else cons_char uni
                       (scanstring (92%N :: 117%N :: g1 :: g2 :: g3 :: g4 :: r))
              end
            else cons_char uni
                   (scanstring (92%N :: 117%N :: g1 :: g2 :: g3 :: g4 :: r))
          end).
  now rewrite Hd, Hh, Hd', Hl.
Qed.

(** What the decoder reads back from an escaped character. *)
Lemma scanstring_escape_char (c : N) (r : pystr) :
  is_scalar c = true ->
  scanstring (codes (escape_char c) ++ r) = cons_char c (scanstring r).
Proof.
  intros Hsc. unfold is_scalar in Hsc. apply andb_true_iff in Hsc.
  destruct Hsc as [Hmax Hns]. apply N.ltb_lt in Hmax.
  unfold escape_char.
  destruct (N.eqb_spec c 92) as [->|H92]; [now apply scanstring_simple|].
  destruct (N.eqb_spec c 34) as [->|H34]; [now apply scanstring_simple|].
  destruct (N.eqb_spec c 8) as [->|H8]; [now apply scanstring_simple|].
  destruct (N.eqb_spec c 12) as [->|H12]; [now apply scanstring_simple|].
  destruct (N.eqb_spec c 10) as [->|H10]; [now apply scanstring_simple|].
  destruct (N.eqb_spec c 13) as [->|H13]; [now apply scanstring_simple|].
  destruct (N.eqb_spec c 9) as [->|H9]; [now apply scanstring_simple|].
  destruct ((32 <=? c)%N && (c <=? 126)%N) eqn:Hpr.
  { apply andb_true_iff in Hpr. destruct Hpr as [Hlo Hhi].
    apply N.leb_le in Hlo, Hhi.
    cbn [codes map app]. rewrite N_ascii_embedding by lia.
    now apply scanstring_cons. }
  destruct (N.ltb_spec c 65536) as [Hbmp|Hsup].
  - pose proof (decode_hex4 c Hbmp) as Hd.
    unfold hex4 in *. cbn [codes map app] in *.
    apply scanstring_u; [exact Hd|].
    unfold is_high_surrogate.
    destruct (N.leb_spec 55296 c); [|reflexivity].
    destruct (N.leb_spec c 56319); [|reflexivity].
    exfalso. destruct (N.leb_spec 55296 c); [|lia].
    destruct (N.leb_spec c 57343); [discriminate | lia].
  - destruct (surrogate_pair c ltac:(lia)) as (Hs1 & Hs2 & Hh & Hl & Hj).
    cbv zeta in *.
    set (s1 := N.lor 55296 _) in *. set (s2 := N.lor 56320 _) in *.
    clearbody s1 s2.
    pose proof (decode_hex4 _ Hs1) as Hd1. pose proof (decode_hex4 _ Hs2) as Hd2.
    rewrite <- Hj. clear Hj.
    unfold hex4 in *. cbn [codes map app] in Hd1, Hd2 |- *.
    now apply scanstring_pair.
Qed.

(** The decoder reads back what the encoder writes for a string. *)
Lemma scanstring_encode (s : pystr) (r : pystr) :
  forallb is_scalar s = true ->
  scanstring (codes (flat_map escape_char s) ++ 34%N :: r) = Some (s, r).
Proof.
  induction s as [|c s IH]; cbn [forallb flat_map]; intros Hs.
  - reflexivity.
  - apply andb_true_iff in Hs. destruct Hs as [Hc Hs].
    rewrite codes_app, <- app_assoc, scanstring_escape_char by exact Hc.
    now rewrite IH.
Qed.

(** ** Integers *)

Lemma uint_digits (u : Decimal.uint) :
  forallb is_digit (str_lit (NilEmpty.string_of_uint u)) = true.
Proof. induction u; cbn; auto. Qed.

Lemma span_digits_app (ds rest : pystr) :
  forallb is_digit ds = true -> number_ends rest = true ->
  span_digits (ds ++ rest) = (ds, rest).
Proof.
  intros Hds Hrest. induction ds as [|c ds IH]; cbn [app span_digits].
  - destruct rest as [|c r]; [reflexivity|]. cbn [number_ends] in Hrest.
    cbn [span_digits]. destruct (is_digit c); [discriminate | reflexivity].
  - cbn [forallb] in Hds. apply andb_true_iff in Hds. destruct Hds as [Hc Hds].
    rewrite Hc, (IH Hds). reflexivity.
Qed.

Lemma int_of_digits_acc (u : Decimal.uint) (acc : positive) :
  fold_left (fun acc c => (acc * 10 + Z.of_N (c - 48))%Z)
            (str_lit (NilEmpty.string_of_uint u)) (Z.pos acc)
  = Z.pos (Pos.of_uint_acc u acc).
Proof.
  revert acc. induction u; intros acc; cbn [NilEmpty.string_of_uint Pos.of_uint_acc];
    [reflexivity | ..];
    (unfold str_lit; cbn [list_ascii_of_string map fold_left]; fold (str_lit (NilEmpty.string_of_uint u));
     match goal with |- fold_left _ _ ?a = _ =>
       match goal with |- _ = Z.pos (Pos.of_uint_acc _ ?b) =>
         replace a with (Z.pos b) by (cbn; lia) end end;
     apply IHu).
Qed.

Lemma int_of_digits_uint (u : Decimal.uint) :
  int_of_digits (str_lit (NilEmpty.string_of_uint u)) = Z.of_N (Pos.of_uint u).
Proof.
  unfold int_of_digits.
  induction u; cbn [NilEmpty.string_of_uint Pos.of_uint];
    [reflexivity | exact IHu | ..];
    (unfold str_lit; cbn [list_ascii_of_string map fold_left]; fold (str_lit (NilEmpty.string_of_uint u));
     match goal with |- fold_left _ _ ?a = Z.of_N (N.pos (Pos.of_uint_acc _ ?b)) =>
       replace a with (Z.pos b) by (cbn; lia) end;
     apply int_of_digits_acc).
Qed.

(** The decimal text of a positive number starts with a nonzero digit. *)
Lemma to_uint_head (p : positive) :
  exists c ds,
    str_lit (NilEmpty.string_of_uint (Pos.to_uint p)) = c :: ds /\
    is_digit c = true /\ c <> 48%N /\ forallb is_digit ds = true.
Proof.
  pose proof (uint_digits (Pos.to_uint p)) as Hall.
  pose proof (DecimalPos.Unsigned.to_uint_nonnil p) as Hnil.
  pose proof (DecimalPos.Unsigned.to_uint_nonzero p) as Hnz.
  assert (Hnorm : Decimal.unorm (Pos.to_uint p) = Pos.to_uint p).
  { rewrite <- (DecimalPos.Unsigned.to_of (Pos.to_uint p)).
    now rewrite DecimalPos.Unsigned.of_to. }
  destruct (Pos.to_uint p) as [|u|u|u|u|u|u|u|u|u|u] eqn:Hu;
    [contradiction | | | | | | | | | | ];
    try (eexists _, _; split; [reflexivity|];
         cbn in Hall |- *; repeat split; [discriminate | exact Hall]).
  exfalso.
  change (Decimal.unorm (Decimal.D0 u)) with (Decimal.unorm u) in Hnorm.
  assert (Hne : u <> Decimal.Nil) by (intros ->; now apply Hnz).
  pose proof (DecimalFacts.nb_digits_unorm u Hne) as Hlen.
  rewrite Hnorm in Hlen. cbn [Decimal.nb_digits] in Hlen. lia.
Qed.

Lemma match_frac_none (rest : pystr) :
  number_ends rest = true -> match_frac rest = ([], rest).
Proof.
  destruct rest as [|c r]; [reflexivity|]. cbn [number_ends match_frac].
  destruct (c =? 46)%N; [|reflexivity].
  rewrite andb_false_r. cbn. discriminate.
Qed.

Lemma match_exp_none (rest : pystr) :
  number_ends rest = true -> match_exp rest = ([], rest).
Proof.
  destruct rest as [|c r]; [reflexivity|]. cbn [number_ends match_exp].
  destruct (c =? 101)%N; [rewrite andb_false_r; cbn; discriminate|].
  destruct (c =? 69)%N; [rewrite andb_false_r; discriminate | reflexivity].
Qed.

(** The decoder reads back what the encoder writes for an integer. *)
Lemma match_number_int_repr (z : Z) (rest : pystr) :
  number_ends rest = true ->
  match_number (str_lit (int_repr z) ++ rest) = Some (JInt z, rest).
Proof.
  intros Hrest. unfold match_number, int_repr.
  destruct z as [|p|p]; cbn [Z.to_int NilZero.string_of_int].
  - cbn [NilZero.string_of_uint NilEmpty.string_of_uint].
    change (str_lit "0" ++ rest) with (48%N :: rest).
    change (match_integer (48%N :: rest)) with (Some ([48%N], rest)).
    cbv beta iota.
    rewrite (match_frac_none _ Hrest), (match_exp_none _ Hrest). reflexivity.
  - destruct (to_uint_head p) as (c & ds & Heq & Hc & Hc0 & Hds).
    assert (Hs : str_lit (NilZero.string_of_uint (Pos.to_uint p)) = c :: ds).
    { rewrite <- Heq. unfold NilZero.string_of_uint.
      destruct (Pos.to_uint p); [discriminate Heq | reflexivity ..]. }
    rewrite Hs. cbn [app]. unfold match_integer.
    assert (H45 : (c =? 45)%N = false).
    { apply N.eqb_neq. intros ->. discriminate Hc. }
    rewrite H45. destruct (N.eqb_spec c 48); [contradiction|]. rewrite Hc.
    rewrite (span_digits_app ds rest Hds Hrest). cbn [app].
    rewrite (match_frac_none _ Hrest), (match_exp_none _ Hrest).
    rewrite H45. rewrite <- Heq, int_of_digits_uint, DecimalPos.Unsigned.of_to.
    reflexivity.
  - destruct (to_uint_head p) as (c & ds & Heq & Hc & Hc0 & Hds).
    assert (Hs : str_lit (String "-" (NilZero.string_of_uint (Pos.to_uint p)))
                 = 45%N :: c :: ds).
    { rewrite <- Heq. unfold NilZero.string_of_uint.
      destruct (Pos.to_uint p); [discriminate Heq | reflexivity ..]. }
    rewrite Hs. cbn [app]. unfold match_integer.
    change (45 =? 45)%N with true. cbv iota beta.
    destruct (N.eqb_spec c 48); [contradiction|]. rewrite Hc.
    rewrite (span_digits_app ds rest Hds Hrest). cbn [app].
    rewrite (match_frac_none _ Hrest), (match_exp_none _ Hrest).
    change (45 =? 45)%N with true. cbv iota.
    rewrite <- Heq, int_of_digits_uint, DecimalPos.Unsigned.of_to.
    reflexivity.
Qed.

(** The first character of the text of an integer. *)
Lemma int_repr_head (z : Z) :
  exists c ds, str_lit (int_repr z) = c :: ds /\ (is_digit c = true \/ c = 45%N).
Proof.
  unfold int_repr. destruct z as [|p|p]; cbn [Z.to_int NilZero.string_of_int].
  - exists 48%N, []. split; [reflexivity | now left].
  - destruct (to_uint_head p) as (c & ds & Heq & Hc & _).
    exists c, ds. split; [|now left].
    rewrite <- Heq. unfold NilZero.string_of_uint.
    destruct (Pos.to_uint p); [discriminate Heq | reflexivity ..].
  - eexists 45%N, _. split; [reflexivity | now right].
Qed.

(** ** Documents *)

Lemma json_induction (P : json -> Prop) :
  P JNull -> (forall b, P (JBool b)) -> (forall z, P (JInt z)) ->
  (forall lit, P (JFloat lit)) -> (forall s, P (JString s)) ->
  (forall items, Forall P items -> P (JArray items)) ->
  (forall members, Forall (fun kv => P (snd kv)) members -> P (JObject members)) ->
  forall v, P v.
Proof.
  intros Hn Hb Hi Hf Hs Ha Ho.
  fix IH 1. intros [| b | z | lit | s | items | members].
  - exact Hn.
  - apply Hb.
  - apply Hi.
  - apply Hf.
  - apply Hs.
  - apply Ha. induction items as [|x xs IHxs]; constructor; [apply IH | exact IHxs].
  - apply Ho. induction members as [|[k x] xs IHxs]; constructor;
      [apply IH | exact IHxs].
Qed.

Lemma iterencode_array (fs : pystr -> string) (level : nat) (x : json)
      (xs : list json) :
  iterencode fs level (JArray (x :: xs))
  = "[" +:+ newline_indent (S level) +:+ iterencode fs (S level) x
    +:+ items_text fs level xs +:+ newline_indent level +:+ "]".
Proof.
  cbn [iterencode]. do 4 f_equal.
  induction xs as [|y ys IH]; [reflexivity|].
  cbn [items_text]. rewrite <- IH. reflexivity.
Qed.

Lemma iterencode_object (fs : pystr -> string) (level : nat) (k : pystr) (v : json)
      (kvs : dict) :
  iterencode fs level (JObject ((k, v) :: kvs))
  = "{" +:+ newline_indent (S level) +:+ encode_basestring_ascii k +:+ ": "
    +:+ iterencode fs (S level) v
    +:+ members_text fs level kvs +:+ newline_indent level +:+ "}".
Proof.
  cbn [iterencode]. do 6 f_equal.
  induction kvs as [|[k' v'] kvs IH]; [reflexivity|].
  cbn [members_text]. rewrite <- IH. reflexivity.
Qed.

Lemma skip_ws_head (c : N) (r : pystr) : is_ws c = false -> skip_ws (c :: r) = c :: r.
Proof. intros H. cbn [skip_ws]. now rewrite H. Qed.

Lemma skip_ws_indent (level : nat) (s : pystr) :
  skip_ws (str_lit (newline_indent level) ++ s) = skip_ws s.
Proof.
  unfold newline_indent. unfold str_lit. cbn [list_ascii_of_string map app].
  rewrite list_ascii_of_string_of_list_ascii.
  change (skip_ws (N_of_ascii "010" :: ?x)) with (skip_ws x).
  induction (2 * level)%nat as [|n IH]; [reflexivity|].
  cbn [repeat map app]. exact IH.
Qed.

Lemma number_ends_indent (level : nat) (s : pystr) :
  number_ends (str_lit (newline_indent level) ++ s) = true.
Proof. reflexivity. Qed.

Lemma dict_set_fresh (acc : dict) (k : pystr) (v : json) :
  k ∉ dict_keys acc -> dict_set acc k v = acc ++ [(k, v)].
Proof.
  unfold dict_keys. induction acc as [|[k0 v0] acc IH]; cbn; intros Hk.
  - reflexivity.
  - destruct (decide (k0 = k)) as [->|Hne].
    + exfalso. apply Hk. apply list_elem_of_here.
    + rewrite IH; [reflexivity|]. intros Hin. apply Hk. now apply list_elem_of_further.
Qed.

Lemma str_lit_encode_basestring (s : pystr) :
  str_lit (encode_basestring_ascii s)
  = 34%N :: codes (flat_map escape_char s) ++ [34%N].
Proof.
  unfold encode_basestring_ascii. rewrite str_lit_string_of_list.
  unfold codes. cbn [map app]. rewrite map_app. reflexivity.
Qed.

(** The first character of the text of a document: not white space, not a
    closing bracket. *)
Lemma iterencode_head (fs : pystr -> string) (level : nat) (v : json) :
  plain v = true ->
  exists c r, str_lit (iterencode fs level v) = c :: r /\
              is_ws c = false /\ c <> 93%N /\ c <> 125%N.
Proof.
  destruct v as [| [|] | z | lit | s | [|x xs] | [|[k x] kvs]]; cbn [plain]; intros Hp;
    try discriminate Hp;
    try (eexists _, _; split; [reflexivity|]; repeat split; discriminate).
  destruct (int_repr_head z) as (c & ds & Heq & Hc).
  exists c, ds. split; [exact Heq|].
  destruct Hc as [Hc | ->]; [|repeat split; discriminate].
  unfold is_digit in Hc. apply andb_true_iff in Hc. destruct Hc as [H1 H2].
  apply N.leb_le in H1, H2. unfold is_ws.
  repeat split; try lia.
  destruct (N.eqb_spec c 32); [lia|]. destruct (N.eqb_spec c 9); [lia|].
  destruct (N.eqb_spec c 10); [lia|]. destruct (N.eqb_spec c 13); [lia|].
  reflexivity.
Qed.


Lemma array_items_S (fuel : nat) (s : pystr) :
  array_items (S fuel) s =
    match scan_once fuel s with
    | None => None
    | Some (v, s1) =>
      match skip_ws s1 with
      | c :: r =>
        if (c =? 93)%N then Some ([v], r)
        else if (c =? 44)%N then
          match array_items fuel (skip_ws r) with
          | Some (vs, rest) => Some (v :: vs, rest)
          | None => None
          end
        else None
      | [] => None
      end
    end.
Proof. reflexivity. Qed.

Lemma array_items_encode (fs : pystr -> string) (level : nat) (xs : list json) :
  forall (x : json) (fuel : nat) (rest : pystr),
    decodes_back fs x -> Forall (decodes_back fs) xs ->
    plain x = true -> forallb plain xs = true ->
    (list_sum (map (fun x => S (decode_cost x)) (x :: xs)) <= fuel)%nat ->
    array_items fuel
      (str_lit (iterencode fs (S level) x) ++ str_lit (items_text fs level xs)
       ++ str_lit (newline_indent level) ++ 93%N :: rest)
    = Some (x :: xs, rest).
Proof.
  induction xs as [|y ys IH]; intros x fuel rest Hx Hxs Px Pxs Hfuel;
    cbn [map list_sum fold_right] in Hfuel;
    (destruct fuel as [|fuel]; [lia|]); rewrite array_items_S.
  - cbn [items_text]. change (str_lit "") with (@nil N). cbn [app].
    rewrite (Hx (S level) fuel _ ltac:(lia) (number_ends_indent _ _)).
    rewrite skip_ws_indent. reflexivity.
  - cbn [items_text]. rewrite !str_lit_app, <- !app_assoc.
    change (str_lit ",") with [44%N]. cbn [app].
    rewrite (Hx (S level) fuel (44%N :: _) ltac:(lia) eq_refl).
    rewrite skip_ws_head by reflexivity.
    change (44 =? 93)%N with false. change (44 =? 44)%N with true. cbv iota.
    rewrite skip_ws_indent.
    apply Forall_cons in Hxs. destruct Hxs as [Hy Hys].
    cbn [forallb] in Pxs. apply andb_true_iff in Pxs. destruct Pxs as [Py Pys].
    destruct (iterencode_head fs (S level) y Py) as (c & r & Heq & Hws & _).
    rewrite Heq. cbn [app]. rewrite skip_ws_head by exact Hws.
    change (c :: r ++ ?t) with ((c :: r) ++ t). rewrite <- Heq.
    rewrite (IH y fuel rest Hy Hys Py Pys); [reflexivity|].
    cbn [map list_sum fold_right]. lia.
Qed.

Lemma object_members_encode (fs : pystr -> string) (level : nat) (kvs : dict) :
  forall (k : pystr) (v : json) (acc : dict) (fuel : nat) (rest : pystr),
    decodes_back fs v -> Forall (fun kv => decodes_back fs (snd kv)) kvs ->
    forallb is_scalar k = true -> plain v = true ->
    forallb (fun kv => forallb is_scalar (fst kv) && plain (snd kv)) kvs = true ->
    NoDup (dict_keys (acc ++ (k, v) :: kvs)) ->
    (list_sum (map (fun kv => S (decode_cost (snd kv))) ((k, v) :: kvs)) <= fuel)%nat ->
    object_members fuel
      (codes (flat_map escape_char k) ++ 34%N :: 58%N :: 32%N
       :: str_lit (iterencode fs (S level) v) ++ str_lit (members_text fs level kvs)
       ++ str_lit (newline_indent level) ++ 125%N :: rest) acc
    = Some (acc ++ (k, v) :: kvs, rest).
Proof.
  induction kvs as [|[k' v'] kvs IH]; intros k v acc fuel rest Hv Hkvs Pk Pv Pkvs Hnd Hfuel;
    cbn [map list_sum fold_right snd] in Hfuel;
    (destruct fuel as [|fuel]; [lia|]); rewrite object_members_S;
    rewrite (scanstring_encode k _ Pk);
    rewrite skip_ws_head by reflexivity;
    change (58 =? 58)%N with true; cbv iota;
    change (skip_ws (32%N :: ?t)) with (skip_ws t);
    destruct (iterencode_head fs (S level) v Pv) as (c & r & Heq & Hws & _);
    rewrite Heq; cbn [app]; rewrite skip_ws_head by exact Hws;
    change (c :: r ++ ?t) with ((c :: r) ++ t); rewrite <- Heq;
    (assert (Hfresh : k ∉ dict_keys acc);
     [ unfold dict_keys in Hnd |- *; rewrite map_app in Hnd;
       apply NoDup_app in Hnd; destruct Hnd as (_ & Hdis & _);
       intros Hin; apply (Hdis k Hin); cbn [map fst]; apply list_elem_of_here |]).
  - cbn [members_text]. change (str_lit "") with (@nil N). cbn [app].
    rewrite (Hv (S level) fuel _ ltac:(lia) (number_ends_indent _ _)).
    cbv zeta. rewrite (dict_set_fresh acc k v Hfresh).
    rewrite skip_ws_indent. reflexivity.
  - cbn [members_text]. rewrite !str_lit_app, <- !app_assoc.
    change (str_lit ",") with [44%N]. change (str_lit ": ") with [58%N; 32%N].
    rewrite str_lit_encode_basestring. cbn [app]. rewrite <- !app_assoc. cbn [app].
    rewrite (Hv (S level) fuel (44%N :: _) ltac:(lia) eq_refl).
    cbv zeta. rewrite (dict_set_fresh acc k v Hfresh).
    rewrite skip_ws_head by reflexivity.
    change (44 =? 125)%N with false. change (44 =? 44)%N with true. cbv iota.
    rewrite skip_ws_indent. rewrite skip_ws_head by reflexivity.
    change (34 =? 34)%N with true. cbv iota.
    apply Forall_cons in Hkvs. destruct Hkvs as [Hv' Hkvs]. cbn [snd] in Hv'.
    cbn [forallb fst snd] in Pkvs. apply andb_true_iff in Pkvs.
    destruct Pkvs as [Pkv' Pkvs]. apply andb_true_iff in Pkv'.
    destruct Pkv' as [Pk' Pv'].
    rewrite (IH k' v' (acc ++ [(k, v)]) fuel rest Hv' Hkvs Pk' Pv' Pkvs).
    + now rewrite <- app_assoc.
    + now rewrite <- app_assoc.
    + cbn [map list_sum fold_right snd]. lia.
Qed.

(** The decoder reads back every plain document from its text. *)
Lemma scan_once_iterencode (fs : pystr -> string) (v : json) :
  plain v = true -> decodes_back fs v.
Proof.
  induction v as [| b | z | lit | s | items IH | members IH] using json_induction;
    intros Hp level fuel rest Hfuel Hrest;
    (destruct fuel as [|fuel]; [cbn in Hfuel; lia|]).
  - reflexivity.
  - destruct b; reflexivity.
  - destruct (int_repr_head z) as (c & ds & Heq & Hc).
    cbn [iterencode].
    pose proof (match_number_int_repr z rest Hrest) as Hnum.
    rewrite Heq in Hnum |- *. cbn [app] in Hnum |- *.
    rewrite scan_once_S.
    assert (Hc' : (c =? 34)%N = false /\ (c =? 123)%N = false /\ (c =? 91)%N = false
                  /\ (110 =? c)%N = false /\ (116 =? c)%N = false
                  /\ (102 =? c)%N = false).
    { destruct Hc as [Hc | ->]; [|repeat split; reflexivity].
      unfold is_digit in Hc. apply andb_true_iff in Hc. destruct Hc as [H1 H2].
      apply N.leb_le in H1, H2. repeat split; apply N.eqb_neq; lia. }
    destruct Hc' as (H34 & H123 & H91 & Hn & Ht & Hf).
    rewrite H34, H123, H91. cbn [strip_prefix str_lit list_ascii_of_string map].
    change (N_of_ascii "n") with 110%N. change (N_of_ascii "t") with 116%N.
    change (N_of_ascii "f") with 102%N.
    rewrite Hn, Ht, Hf, Hnum. reflexivity.
  - discriminate Hp.
  - cbn [iterencode plain] in *. rewrite str_lit_encode_basestring.
    cbn [app]. rewrite <- app_assoc. cbn [app]. rewrite scan_once_S.
    change (34 =? 34)%N with true. cbv iota.
    now rewrite (scanstring_encode s rest Hp).
  - destruct items as [|x xs]; [reflexivity|].
    cbn [plain forallb] in Hp. apply andb_true_iff in Hp. destruct Hp as [Px Pxs].
    apply Forall_cons in IH. destruct IH as [IHx IHxs].
    assert (Hall : Forall (decodes_back fs) xs).
    { clear - IHxs Pxs. induction xs as [|y ys IHys]; [constructor|].
      cbn [forallb] in Pxs. apply andb_true_iff in Pxs. destruct Pxs as [Py Pys].
      apply Forall_cons in IHxs. destruct IHxs as [Hy Hys].
      constructor; [now apply Hy | now apply IHys]. }
    rewrite iterencode_array, !str_lit_app, <- !app_assoc.
    change (str_lit "[") with [91%N]. change (str_lit "]") with [93%N]. cbn [app].
    rewrite scan_once_S.
    change (91 =? 34)%N with false. change (91 =? 123)%N with false.
    change (91 =? 91)%N with true. cbv iota.
    rewrite skip_ws_indent.
    destruct (iterencode_head fs (S level) x Px) as (c & r & Heq & Hws & H93 & _).
    rewrite Heq. cbn [app]. rewrite skip_ws_head by exact Hws.
    destruct (N.eqb_spec c 93); [contradiction|].
    change (c :: r ++ ?t) with ((c :: r) ++ t). rewrite <- Heq.
    rewrite (array_items_encode fs level xs x fuel rest (IHx Px) Hall Px Pxs);
      [reflexivity|].
    cbn [decode_cost] in Hfuel. lia.
  - destruct members as [|[k x] kvs]; [reflexivity|].
    cbn [plain forallb fst snd] in Hp. apply andb_true_iff in Hp.
    destruct Hp as [Hp Hnd]. apply andb_true_iff in Hp. destruct Hp as [Pkx Pkvs].
    apply andb_true_iff in Pkx. destruct Pkx as [Pk Px].
    apply bool_decide_eq_true_1 in Hnd.
    apply Forall_cons in IH. destruct IH as [IHx IHkvs]. cbn [snd] in IHx.
    assert (Hall : Forall (fun kv => decodes_back fs (snd kv)) kvs).
    { clear - IHkvs Pkvs. induction kvs as [|[k' y] ys IHys]; [constructor|].
      cbn [forallb fst snd] in Pkvs. apply andb_true_iff in Pkvs.
      destruct Pkvs as [Py Pys]. apply andb_true_iff in Py. destruct Py as [_ Py].
      apply Forall_cons in IHkvs. destruct IHkvs as [Hy Hys].
      constructor; [now apply Hy | now apply IHys]. }
    rewrite iterencode_object, !str_lit_app, <- !app_assoc.
    change (str_lit "{") with [123%N]. change (str_lit "}") with [125%N].
    change (str_lit ": ") with [58%N; 32%N].
    rewrite str_lit_encode_basestring. cbn [app]. rewrite <- !app_assoc. cbn [app].
    rewrite scan_once_S.
    change (123 =? 34)%N with false. change (123 =? 123)%N with true. cbv iota.
    rewrite skip_ws_indent. rewrite skip_ws_head by reflexivity.
    change (34 =? 125)%N with false. change (34 =? 34)%N with true. cbv iota.
    rewrite (object_members_encode fs level kvs k x [] fuel rest (IHx Px) Hall Pk Px
               Pkvs Hnd); [reflexivity|].
    cbn [decode_cost] in Hfuel. lia.
Qed.

(** ** The text of a document *)

Lemma is_clean_indent (level : nat) :
  forallb is_clean (str_lit (newline_indent level)) = true.
Proof.
  unfold newline_indent, str_lit. cbn [list_ascii_of_string map forallb].
  rewrite list_ascii_of_string_of_list_ascii.
  induction (2 * level)%nat as [|n IH]; [reflexivity|]. exact IH.
Qed.

Lemma length_indent (level : nat) :
  (1 <= length (str_lit (newline_indent level)))%nat.
Proof. unfold newline_indent, str_lit. cbn [list_ascii_of_string map length]. lia. Qed.

Lemma is_clean_hexdigit (k : N) :
  (k < 16)%N -> is_clean (N_of_ascii (hexdigit k)) = true.
Proof.
  intros Hk.
  apply (forallb_below (fun k => is_clean (N_of_ascii (hexdigit k))) 16%N);
    [vm_compute; reflexivity | exact Hk].
Qed.

Lemma is_clean_hex4 (n : N) : forallb is_clean (codes (hex4 n)) = true.
Proof.
  unfold hex4, codes. cbn [map forallb].
  rewrite !is_clean_hexdigit by (apply N.mod_lt; discriminate). reflexivity.
Qed.

Lemma is_clean_escape_char (c : N) : forallb is_clean (codes (escape_char c)) = true.
Proof.
  unfold escape_char.
  destruct (c =? 92)%N; [reflexivity|]. destruct (c =? 34)%N; [reflexivity|].
  destruct (c =? 8)%N; [reflexivity|]. destruct (c =? 12)%N; [reflexivity|].
  destruct (c =? 10)%N; [reflexivity|]. destruct (c =? 13)%N; [reflexivity|].
  destruct (c =? 9)%N; [reflexivity|].
  destruct ((32 <=? c)%N && (c <=? 126)%N) eqn:Hpr.
  { apply andb_true_iff in Hpr. destruct Hpr as [Hlo Hhi].
    apply N.leb_le in Hlo, Hhi. cbn [codes map forallb].
    rewrite N_ascii_embedding by lia. unfold is_clean.
    destruct (N.ltb_spec c 128); [|lia]. destruct (N.eqb_spec c 13); [lia|]. reflexivity. }
  destruct (c <? 65536)%N.
  - change (codes ("\"%char :: "u"%char :: hex4 c))
      with (92%N :: 117%N :: codes (hex4 c)).
    cbn [forallb]. now rewrite is_clean_hex4.
  - rewrite codes_app, forallb_app.
    change (codes ("\"%char :: "u"%char :: hex4 ?n))
      with (92%N :: 117%N :: codes (hex4 n)).
    cbn [forallb]. now rewrite !is_clean_hex4.
Qed.

Lemma is_clean_encode_basestring (s : pystr) :
  forallb is_clean (str_lit (encode_basestring_ascii s)) = true.
Proof.
  rewrite str_lit_encode_basestring. cbn [forallb]. rewrite forallb_app.
  cbn [forallb]. rewrite andb_true_r. change (is_clean 34) with true. cbn [andb].
  induction s as [|c s IH]; [reflexivity|].
  cbn [flat_map]. now rewrite codes_app, forallb_app, is_clean_escape_char, IH.
Qed.

Lemma is_clean_digits (ds : pystr) :
  forallb is_digit ds = true -> forallb is_clean ds = true.
Proof.
  rewrite !forallb_forall. intros H c Hc. specialize (H c Hc).
  unfold is_digit in H. apply andb_true_iff in H. destruct H as [H1 H2].
  apply N.leb_le in H1, H2. unfold is_clean.
  destruct (N.ltb_spec c 128); [|lia]. destruct (N.eqb_spec c 13); [lia|]. reflexivity.
Qed.

Lemma is_clean_int_repr (z : Z) : forallb is_clean (str_lit (int_repr z)) = true.
Proof.
  unfold int_repr.
  assert (H : forall u, forallb is_clean (str_lit (NilZero.string_of_uint u)) = true).
  { intros u. destruct u; [reflexivity | ..];
      apply is_clean_digits; apply (uint_digits (_ u)). }
  destruct z as [|p|p]; cbn [Z.to_int NilZero.string_of_int]; [reflexivity | apply H |].
  change (str_lit (String "-" ?s)) with (45%N :: str_lit s).
  cbn [forallb]. now rewrite H.
Qed.

Lemma length_str_lit_app (a b : string) :
  length (str_lit (a +:+ b)) = (length (str_lit a) + length (str_lit b))%nat.
Proof. now rewrite str_lit_app, length_app. Qed.

Lemma is_clean_app (a b : string) :
  forallb is_clean (str_lit (a +:+ b))
  = forallb is_clean (str_lit a) && forallb is_clean (str_lit b).
Proof. now rewrite str_lit_app, forallb_app. Qed.

Lemma items_text_well (fs : pystr -> string) (level : nat) (xs : list json) :
  Forall (encodes_well fs) xs ->
  (list_sum (map (fun x => S (decode_cost x)) xs)
   <= length (str_lit (items_text fs level xs)))%nat /\
  forallb is_clean (str_lit (items_text fs level xs)) = true.
Proof.
  induction 1 as [|x xs Hx Hxs IH]; [split; [cbn; lia | reflexivity]|].
  destruct IH as [IHc IHt]. destruct (Hx (S level)) as [Hxc Hxt].
  cbn [items_text map list_sum fold_right].
  rewrite !length_str_lit_app, !is_clean_app.
  pose proof (length_indent (S level)).
  rewrite is_clean_indent, Hxt, IHt. change (str_lit ",") with [44%N].
  cbn [length forallb]. split; [|reflexivity].
  unfold list_sum in IHc. lia.
Qed.

Lemma members_text_well (fs : pystr -> string) (level : nat) (kvs : dict) :
  Forall (fun kv => encodes_well fs (snd kv)) kvs ->
  (list_sum (map (fun kv => S (decode_cost (snd kv))) kvs)
   <= length (str_lit (members_text fs level kvs)))%nat /\
  forallb is_clean (str_lit (members_text fs level kvs)) = true.
Proof.
  induction 1 as [|[k x] kvs Hx Hxs IH]; [split; [cbn; lia | reflexivity]|].
  destruct IH as [IHc IHt]. cbn [snd] in Hx. destruct (Hx (S level)) as [Hxc Hxt].
  cbn [members_text map list_sum fold_right snd].
  rewrite !length_str_lit_app, !is_clean_app.
  pose proof (length_indent (S level)).
  rewrite is_clean_indent, is_clean_encode_basestring, Hxt, IHt.
  change (str_lit ",") with [44%N]. change (str_lit ": ") with [58%N; 32%N].
  cbn [length forallb]. split; [|reflexivity].
  unfold list_sum in IHc. lia.
Qed.

(** The text of a plain document is long enough to pay for its decoding,
    and is made of clean characters. *)
Lemma iterencode_well (fs : pystr -> string) (v : json) :
  plain v = true -> encodes_well fs v.
Proof.
  induction v as [| b | z | lit | s | items IH | members IH] using json_induction;
    intros Hp level.
  - split; [cbn; lia | reflexivity].
  - destruct b; (split; [cbn; lia | reflexivity]).
  - cbn [iterencode decode_cost]. split; [|apply is_clean_int_repr].
    destruct (int_repr_head z) as (c & ds & -> & _). cbn [length]. lia.
  - discriminate Hp.
  - cbn [iterencode decode_cost]. split; [|apply is_clean_encode_basestring].
    rewrite str_lit_encode_basestring. cbn [length]. lia.
  - destruct items as [|x xs]; [split; [cbn; lia | reflexivity]|].
    cbn [plain forallb] in Hp. apply andb_true_iff in Hp. destruct Hp as [Px Pxs].
    apply Forall_cons in IH. destruct IH as [IHx IHxs].
    assert (Hall : Forall (encodes_well fs) xs).
    { clear - IHxs Pxs. induction xs as [|y ys IHys]; [constructor|].
      cbn [forallb] in Pxs. apply andb_true_iff in Pxs. destruct Pxs as [Py Pys].
      apply Forall_cons in IHxs. destruct IHxs as [Hy Hys].
      constructor; [now apply Hy | now apply IHys]. }
    destruct (items_text_well fs level xs Hall) as [Hc Ht].
    destruct (IHx Px (S level)) as [Hxc Hxt].
    rewrite iterencode_array, !length_str_lit_app, !is_clean_app.
    pose proof (length_indent (S level)). pose proof (length_indent level).
    rewrite !is_clean_indent, Hxt, Ht.
    change (str_lit "[") with [91%N]. change (str_lit "]") with [93%N].
    cbn [length forallb decode_cost map list_sum fold_right]. split; [|reflexivity].
    unfold list_sum in Hc. lia.
  - destruct members as [|[k x] kvs]; [split; [cbn; lia | reflexivity]|].
    cbn [plain forallb fst snd] in Hp. apply andb_true_iff in Hp.
    destruct Hp as [Hp _]. apply andb_true_iff in Hp. destruct Hp as [Pkx Pkvs].
    apply andb_true_iff in Pkx. destruct Pkx as [_ Px].
    apply Forall_cons in IH. destruct IH as [IHx IHkvs]. cbn [snd] in IHx.
    assert (Hall : Forall (fun kv => encodes_well fs (snd kv)) kvs).
    { clear - IHkvs Pkvs. induction kvs as [|[k' y] ys IHys]; [constructor|].
      cbn [forallb fst snd] in Pkvs. apply andb_true_iff in Pkvs.
      destruct Pkvs as [Py Pys]. apply andb_true_iff in Py. destruct Py as [_ Py].
      apply Forall_cons in IHkvs. destruct IHkvs as [Hy Hys].
      constructor; [now apply Hy | now apply IHys]. }
    destruct (members_text_well fs level kvs Hall) as [Hc Ht].
    destruct (IHx Px (S level)) as [Hxc Hxt].
    rewrite iterencode_object, !length_str_lit_app, !is_clean_app.
    pose proof (length_indent (S level)). pose proof (length_indent level).
    rewrite !is_clean_indent, is_clean_encode_basestring, Hxt, Ht.
    change (str_lit "{") with [123%N]. change (str_lit "}") with [125%N].
    change (str_lit ": ") with [58%N; 32%N].
    cbn [length forallb decode_cost map list_sum fold_right snd]. split; [|reflexivity].
    unfold list_sum in Hc. lia.
Qed.

(** ** Files: writing and reading in text mode *)

Lemma byte_to_N_of_ascii (a : ascii) : Byte.to_N (byte_of_ascii a) = N_of_ascii a.
Proof. destruct a as [[] [] [] [] [] [] [] []]; reflexivity. Qed.

Lemma str_encode_ascii_codes (s : string) :
  map Byte.to_N (str_encode_ascii s) = str_lit s.
Proof.
  unfold str_encode_ascii, str_lit, list_byte_of_string.
  rewrite map_map. apply map_ext. apply byte_to_N_of_ascii.
Qed.

Lemma is_clean_ascii (s : pystr) :
  forallb is_clean s = true -> forallb (fun b => (b <? 128)%N) s = true.
Proof.
  rewrite !forallb_forall. intros H c Hc. specialize (H c Hc).
  unfold is_clean in H. now apply andb_true_iff in H.
Qed.

Lemma universal_newlines_clean (s : pystr) :
  forallb is_clean s = true -> universal_newlines s = s.
Proof.
  induction s as [|c s IH]; [reflexivity|].
  cbn [forallb universal_newlines]. intros H. apply andb_true_iff in H.
  destruct H as [Hc Hs]. unfold is_clean in Hc. apply andb_true_iff in Hc.
  destruct Hc as [_ Hc]. destruct (c =? 13)%N; [discriminate|]. now rewrite IH.
Qed.

(** Reading in text mode undoes the newline translation of writing. *)
Lemma universal_newlines_translate (s : string) :
  forallb is_clean (str_lit s) = true ->
  universal_newlines (str_lit (translate_newlines s)) = str_lit s.
Proof.
  unfold str_lit. induction s as [|c s IH]; [reflexivity|].
  cbn [list_ascii_of_string map forallb translate_newlines]. intros H.
  apply andb_true_iff in H. destruct H as [Hc Hs].
  destruct (Ascii.eqb_spec c "010"%char) as [->|Hne].
  - cbn [list_ascii_of_string map].
    change (universal_newlines (N_of_ascii "013" :: N_of_ascii "010" :: ?t))
      with (10%N :: universal_newlines t).
    now rewrite IH.
  - cbn [list_ascii_of_string map universal_newlines].
    unfold is_clean in Hc. apply andb_true_iff in Hc. destruct Hc as [_ Hc].
    destruct (N_of_ascii c =? 13)%N; [discriminate|]. now rewrite IH.
Qed.

Lemma is_clean_translate (s : string) :
  forallb is_clean (str_lit s) = true ->
  forallb (fun b => (b <? 128)%N) (str_lit (translate_newlines s)) = true.
Proof.
  unfold str_lit. induction s as [|c s IH]; [reflexivity|].
  cbn [list_ascii_of_string map forallb translate_newlines]. intros H.
  apply andb_true_iff in H. destruct H as [Hc Hs].
  destruct (Ascii.eqb c "010"%char); cbn [list_ascii_of_string map forallb].
  - now rewrite IH.
  - unfold is_clean in Hc. apply andb_true_iff in Hc. destruct Hc as [Hc _].
    now rewrite Hc, IH.
Qed.

(** What is written in text mode is read back in text mode, on every
    platform. *)
Lemma text_bytes_read_back (E : env) (s : string) :
  forallb is_clean (str_lit s) = true ->
  (utf8_decode (text_bytes E s)) ≫= (fun t => Some (universal_newlines t))
  = Some (str_lit s).
Proof.
  intros Hs. unfold utf8_decode, text_bytes. rewrite str_encode_ascii_codes.
  destruct (String.eqb (platform_system E) "Windows").
  - rewrite utf8_decode_ascii by now apply is_clean_translate.
    cbn. now rewrite universal_newlines_translate.
  - rewrite utf8_decode_ascii by now apply is_clean_ascii.
    cbn. now rewrite universal_newlines_clean.
Qed.

Lemma json_loads_dumps (fs : pystr -> string) (v : json) :
  plain v = true -> json_loads (str_lit (json_dumps fs v)) = Some v.
Proof.
  intros Hp. unfold json_loads, json_dumps.
  destruct (iterencode_well fs v Hp 0%nat) as [Hcost _].
  destruct (iterencode_head fs 0 v Hp) as (c & r & Heq & Hws & _).
  rewrite Heq at 2. rewrite skip_ws_head by exact Hws. rewrite <- Heq.
  rewrite <- (app_nil_r (str_lit (iterencode fs 0 v))) at 2.
  rewrite (scan_once_iterencode fs v Hp 0%nat
             (2 * length (str_lit (iterencode fs 0 v)) + 2) [] ltac:(lia) eq_refl).
  reflexivity.
Qed.

Lemma decode_document_text_bytes (E : env) (v : json) :
  plain v = true ->
  decode_document (text_bytes E (json_dumps (floatstr E) v)) = Ok v.
Proof.
  intros Hp. unfold decode_document.
  destruct (iterencode_well (floatstr E) v Hp 0%nat) as [_ Hclean].
  pose proof (text_bytes_read_back E (json_dumps (floatstr E) v) Hclean) as H.
  destruct (utf8_decode _) as [t|]; [|discriminate H].
  cbn in H. injection H as ->. now rewrite json_loads_dumps.
Qed.

(** Texts written as literals of the script are made of scalar values. *)
Lemma str_lit_scalar (s : string) : forallb is_scalar (str_lit s) = true.
Proof.
  unfold str_lit. induction s as [|c s IH]; [reflexivity|].
  cbn [list_ascii_of_string map forallb]. rewrite IH, andb_true_r.
  pose proof (N_ascii_bounded c) as Hb. unfold is_scalar.
  destruct (N.ltb_spec (N_of_ascii c) 1114112); [|lia].
  destruct (N.leb_spec 55296 (N_of_ascii c)); [lia | reflexivity].
Qed.

Lemma dict_set_forallb (P : pystr * json -> bool) (d : dict) (k : pystr) (v : json) :
  forallb P d = true -> P (k, v) = true -> forallb P (dict_set d k v) = true.
Proof.
  intros Hd Hkv. induction d as [|[k0 v0] d IH]; cbn [dict_set forallb].
  - now rewrite Hkv.
  - cbn [forallb] in Hd. apply andb_true_iff in Hd. destruct Hd as [H0 Hd].
    destruct (decide (k0 = k)) as [->|Hne]; cbn [forallb].
    + now rewrite Hkv, Hd.
    + now rewrite H0, IH.
Qed.

Lemma dict_set_plain (d : dict) (k : string) (s : string) :
  plain (JObject d) = true ->
  plain (JObject (dict_set d (str_lit k) (JString (str_lit s)))) = true.
Proof.
  cbn [plain]. intros H. apply andb_true_iff in H. destruct H as [Hall Hnd].
  apply bool_decide_eq_true_1 in Hnd. apply andb_true_iff. split.
  - apply dict_set_forallb; [exact Hall|].
    cbn [fst snd plain]. now rewrite !str_lit_scalar.
  - apply bool_decide_eq_true_2. now apply dict_set_NoDup.
Qed.

Lemma set_ids_plain (E : env) (pos : nat) (d : dict) :
  plain (JObject d) = true -> plain (JObject (set_ids E pos d)) = true.
Proof.
  intros H. unfold set_ids, key_machineId, key_macMachineId, key_devDeviceId.
  now do 3 apply dict_set_plain.
Qed.

(** ** Strings with a lone surrogate *)

Lemma scanstring_lone_high (h1 h2 h3 h4 uni : N) (r : pystr) :
  decode_uXXXX h1 h2 h3 h4 = Some uni ->
  is_high_surrogate uni = true ->
  starts_low_escape r = false ->
  scanstring (92%N :: 117%N :: h1 :: h2 :: h3 :: h4 :: r)
  = cons_char uni (scanstring r).
Proof.
  intros Hd Hh Hr.
  change (scanstring (92%N :: 117%N :: h1 :: h2 :: h3 :: h4 :: r))
    with (match decode_uXXXX h1 h2 h3 h4 with
          | None => None
          | Some uni =>
            if is_high_surrogate uni then
              match r with
              | b :: u :: g1 :: g2 :: g3 :: g4 :: r3 =>
                if (b =? 92)%N && (u =? 117)%N then
                  match decode_uXXXX g1 g2 g3 g4 with
                  | None => None
                  | Some uni2 =>
                    if is_low_surrogate uni2
                    then cons_char (join_surrogates uni uni2) (scanstring r3)
                    else cons_char uni (scanstring r)
                  end
                else cons_char uni (scanstring r)
              | _ => cons_char uni (scanstring r)
              end
            else cons_char uni (scanstring r)
          end).
  rewrite Hd, Hh.
  destruct r as [|b [|u [|g1 [|g2 [|g3 [|g4 r3]]]]]]; try reflexivity.
  cbn [starts_low_escape] in Hr.
  destruct ((b =? 92)%N && (u =? 117)%N); [|reflexivity].
  cbn [andb] in Hr.
  destruct (decode_uXXXX g1 g2 g3 g4) as [lo|]; [|discriminate Hr].
  now rewrite Hr.
Qed.

Lemma escape_char_surrogate (c : N) :
  (55296 <= c <= 57343)%N ->
  escape_char c = "\"%char :: "u"%char :: hex4 c.
Proof.
  intros Hc. unfold escape_char.
  destruct (N.eqb_spec c 92); [lia|]. destruct (N.eqb_spec c 34); [lia|].
  destruct (N.eqb_spec c 8); [lia|]. destruct (N.eqb_spec c 12); [lia|].
  destruct (N.eqb_spec c 10); [lia|]. destruct (N.eqb_spec c 13); [lia|].
  destruct (N.eqb_spec c 9); [lia|].
  destruct (N.leb_spec 32 c); [|lia]. destruct (N.leb_spec c 126); [lia|].
  cbn [andb]. destruct (N.ltb_spec c 65536); [reflexivity | lia].
Qed.

Lemma decode_codes_hex4 (c : N) (r : pystr) :
  (c < 65536)%N ->
  exists h1 h2 h3 h4,
    codes (hex4 c) ++ r = h1 :: h2 :: h3 :: h4 :: r /\
    decode_uXXXX h1 h2 h3 h4 = Some c.
Proof.
  intros Hc. pose proof (decode_hex4 c Hc) as Hd.
  unfold hex4 in *. cbn [codes map app] in *. eauto 6.
Qed.

(** The escape of a character that is not a low surrogate is not the
    escape of one. *)
Lemma escape_char_not_low (c : N) (r : pystr) :
  is_code_point c = true -> is_low_surrogate c = false ->
  starts_low_escape (codes (escape_char c) ++ r) = false.
Proof.
  intros Hcp Hlow. unfold is_code_point in Hcp. apply N.ltb_lt in Hcp.
  unfold escape_char.
  destruct (N.eqb_spec c 92) as [->|H92]; [reflexivity|].
  destruct (c =? 34)%N; [reflexivity|].
  destruct (c =? 8)%N; [reflexivity|]. destruct (c =? 12)%N; [reflexivity|].
  destruct (c =? 10)%N; [reflexivity|]. destruct (c =? 13)%N; [reflexivity|].
  destruct (c =? 9)%N; [reflexivity|].
  destruct ((32 <=? c)%N && (c <=? 126)%N) eqn:Hpr.
  { apply andb_true_iff in Hpr. destruct Hpr as [Hlo Hhi].
    apply N.leb_le in Hlo, Hhi. cbn [codes map app].
    rewrite N_ascii_embedding by lia.
    destruct r as [|u r']; [reflexivity|]. cbn [starts_low_escape].
    destruct (N.eqb_spec c 92) as [->|Hne]; [contradiction | reflexivity]. }
  destruct (N.ltb_spec c 65536) as [Hbmp|Hsup].
  - change (codes ("\"%char :: "u"%char :: hex4 c) ++ r)
      with (92%N :: 117%N :: codes (hex4 c) ++ r).
    destruct (decode_codes_hex4 c r Hbmp) as (h1 & h2 & h3 & h4 & -> & Hd).
    cbn [starts_low_escape]. rewrite Hd. exact Hlow.
  - destruct (surrogate_pair c ltac:(lia)) as (Hs1 & Hs2 & Hh & Hl & Hj).
    cbv zeta in *.
    set (s1 := N.lor 55296 _) in *. set (s2 := N.lor 56320 _) in *.
    clearbody s1 s2.
    rewrite codes_app, <- app_assoc.
    change (codes ("\"%char :: "u"%char :: hex4 s1) ++ ?t)
      with (92%N :: 117%N :: codes (hex4 s1) ++ t).
    destruct (decode_codes_hex4 s1 (codes ("\"%char :: "u"%char :: hex4 s2) ++ r) Hs1)
      as (h1 & h2 & h3 & h4 & -> & Hd).
    cbn [starts_low_escape]. rewrite Hd.
    unfold is_high_surrogate, is_low_surrogate in *.
    apply andb_true_iff in Hh. destruct Hh as [Ha Hb]. apply N.leb_le in Ha, Hb.
    destruct (N.leb_spec 56320 s1); [lia | reflexivity].
Qed.

(** What the decoder reads back from the escape of any code point but a
    high surrogate. *)
Lemma scanstring_escape_char_any (c : N) (r : pystr) :
  is_code_point c = true -> is_high_surrogate c = false ->
  scanstring (codes (escape_char c) ++ r) = cons_char c (scanstring r).
Proof.
  intros Hcp Hh.
  destruct (is_scalar c) eqn:Hsc; [now apply scanstring_escape_char|].
  unfold is_scalar, is_code_point in *. rewrite Hcp in Hsc. cbn [andb] in Hsc.
  apply negb_false_iff, andb_true_iff in Hsc. destruct Hsc as [Ha Hb].
  apply N.leb_le in Ha, Hb.
  rewrite escape_char_surrogate by lia.
  change (codes ("\"%char :: "u"%char :: hex4 c) ++ r)
    with (92%N :: 117%N :: codes (hex4 c) ++ r).
  destruct (decode_codes_hex4 c r ltac:(lia)) as (h1 & h2 & h3 & h4 & -> & Hd).
  now apply scanstring_u.
Qed.

(** The decoder reads back what the encoder writes for a string, lone
    surrogates included. *)
Lemma scanstring_encode_any (s : pystr) (r : pystr) :
  well_formed_str s = true ->
  scanstring (codes (flat_map escape_char s) ++ 34%N :: r) = Some (s, r).
Proof.
  unfold well_formed_str. intros H. apply andb_true_iff in H. destruct H as [Hcp Hns].
  induction s as [|c s IH]; [reflexivity|].
  cbn [forallb] in Hcp. apply andb_true_iff in Hcp. destruct Hcp as [Hc Hcp].
  cbn [no_split_pair] in Hns. apply andb_true_iff in Hns. destruct Hns as [Hpair Hns].
  cbn [flat_map]. rewrite codes_app, <- app_assoc.
  destruct (is_high_surrogate c) eqn:Hh.
  - assert (Hr : starts_low_escape (codes (flat_map escape_char s) ++ 34%N :: r) = false).
    { destruct s as [|c' s']; [now destruct r|].
      cbn [forallb] in Hcp. apply andb_true_iff in Hcp. destruct Hcp as [Hc' _].
      cbn [andb] in Hpair. apply negb_true_iff in Hpair.
      cbn [flat_map]. rewrite codes_app, <- app_assoc.
      now apply escape_char_not_low. }
    assert (Hrange : (55296 <= c <= 57343)%N).
    { unfold is_high_surrogate in Hh. apply andb_true_iff in Hh.
      destruct Hh as [Ha Hb]. apply N.leb_le in Ha, Hb. lia. }
    rewrite escape_char_surrogate by exact Hrange.
    change (codes ("\"%char :: "u"%char :: hex4 c) ++ ?t)
      with (92%N :: 117%N :: codes (hex4 c) ++ t).
    destruct (decode_codes_hex4 c (codes (flat_map escape_char s) ++ 34%N :: r)
                ltac:(lia)) as (h1 & h2 & h3 & h4 & -> & Hd).
    rewrite (scanstring_lone_high _ _ _ _ c _ Hd Hh Hr).
    now rewrite (IH Hcp Hns).
  - rewrite scanstring_escape_char_any by assumption.
    now rewrite (IH Hcp Hns).
Qed.

Lemma scalar_well_formed_str (s : pystr) :
  forallb is_scalar s = true -> well_formed_str s = true.
Proof.
  unfold well_formed_str. intros H. apply andb_true_iff. split.
  - rewrite forallb_forall in *. intros c Hc. specialize (H c Hc).
    unfold is_scalar in H. now apply andb_true_iff in H.
  - induction s as [|c s IH]; [reflexivity|].
    cbn [forallb] in H. apply andb_true_iff in H. destruct H as [Hc Hs].
    cbn [no_split_pair]. rewrite (IH Hs), andb_true_r.
    destruct s as [|c' s']; [reflexivity|].
    unfold is_scalar in Hc. apply andb_true_iff in Hc. destruct Hc as [_ Hc].
    apply negb_true_iff in Hc. unfold is_high_surrogate.
    apply negb_true_iff, andb_false_iff. left.
    apply andb_false_iff in Hc. apply andb_false_iff.
    destruct Hc as [Hc|Hc]; [now left|]. right.
    apply N.leb_gt in Hc. apply N.leb_gt. lia.
Qed.

(** ** Number literals, group by group *)

Lemma span_digits_split (s ds r : pystr) :
  span_digits s = (ds, r) -> s = ds ++ r /\ forallb is_digit ds = true.
Proof.
  revert ds r. induction s as [|c s IH]; intros ds r; cbn [span_digits].
  - intros [= <- <-]. now split.
  - destruct (is_digit c) eqn:Hc.
    + destruct (span_digits s) as [ds' r'] eqn:Hs. intros [= <- <-].
      destruct (IH ds' r' eq_refl) as [-> Hds]. cbn [forallb app].
      now rewrite Hc, Hds.
    + intros [= <- <-]. now split.
Qed.

Lemma span_digits_more (s rest : pystr) :
  number_ends rest = true ->
  span_digits (s ++ rest) = (fst (span_digits s), snd (span_digits s) ++ rest).
Proof.
  intros Hrest. induction s as [|c s IH]; cbn [app].
  - exact (span_digits_app [] rest eq_refl Hrest).
  - cbn [span_digits]. destruct (is_digit c); [|reflexivity].
    rewrite IH. now destruct (span_digits s).
Qed.

Lemma match_integer_split (s i r : pystr) :
  match_integer s = Some (i, r) ->
  s = i ++ r /\ exists c i', i = c :: i' /\ (c = 45%N \/ is_digit c = true).
Proof.
  unfold match_integer.
  destruct s as [|c s']; [discriminate|].
  destruct (N.eqb_spec c 45) as [->|Hc].
  - destruct s' as [|c' r']; [discriminate|].
    destruct (c' =? 48)%N.
    + intros [= <- <-]. split; [reflexivity|]. eexists _, _. split; [reflexivity | now left].
    + destruct (is_digit c'); [|discriminate].
      destruct (span_digits r') as [ds rest] eqn:Hs. intros [= <- <-].
      destruct (span_digits_split _ _ _ Hs) as [-> _].
      split; [reflexivity|]. eexists _, _. split; [reflexivity | now left].
  - destruct (N.eqb_spec c 48) as [->|H48].
    + intros [= <- <-]. split; [reflexivity|]. eexists _, _. split; [reflexivity | now right].
    + destruct (is_digit c) eqn:Hd; [|discriminate].
      destruct (span_digits s') as [ds rest] eqn:Hs. intros [= <- <-].
      destruct (span_digits_split _ _ _ Hs) as [-> _].
      split; [reflexivity|]. eexists _, _. split; [reflexivity | now right].
Qed.

Lemma match_integer_more (s i r rest : pystr) :
  match_integer s = Some (i, r) -> number_ends rest = true ->
  match_integer (s ++ rest) = Some (i, r ++ rest).
Proof.
  intros H Hrest. unfold match_integer in *.
  destruct s as [|c s']; [discriminate|]. cbn [app].
  destruct (c =? 45)%N.
  - destruct s' as [|c' r']; [discriminate|]. cbn [app].
    destruct (c' =? 48)%N; [now injection H as <- <-|].
    destruct (is_digit c'); [|discriminate].
    rewrite (span_digits_more r' rest Hrest).
    destruct (span_digits r') as [ds rest']. now injection H as <- <-.
  - destruct (c =? 48)%N; [now injection H as <- <-|].
    destruct (is_digit c); [|discriminate].
    rewrite (span_digits_more s' rest Hrest).
    destruct (span_digits s') as [ds rest']. now injection H as <- <-.
Qed.

Lemma match_frac_split (s : pystr) : s = fst (match_frac s) ++ snd (match_frac s).
Proof.
  unfold match_frac. destruct s as [|c r]; [reflexivity|].
  destruct (c =? 46)%N; [|reflexivity].
  destruct (span_digits r) as [ds rest] eqn:Hs.
  destruct (span_digits_split _ _ _ Hs) as [-> _].
  now destruct ds.
Qed.

Lemma match_frac_more (s rest : pystr) :
  number_ends rest = true ->
  match_frac (s ++ rest) = (fst (match_frac s), snd (match_frac s) ++ rest).
Proof.
  intros Hrest. destruct s as [|c r]; [exact (match_frac_none rest Hrest)|].
  unfold match_frac. cbn [app]. destruct (c =? 46)%N; [|reflexivity].
  rewrite (span_digits_more r rest Hrest).
  destruct (span_digits r) as [ds rest']. now destruct ds.
Qed.

Lemma match_exp_split (s : pystr) : s = fst (match_exp s) ++ snd (match_exp s).
Proof.
  unfold match_exp. destruct s as [|c r]; [reflexivity|].
  destruct ((c =? 101)%N || (c =? 69)%N); [|reflexivity].
  destruct r as [|c' r'].
  - reflexivity.
  - destruct ((c' =? 45)%N || (c' =? 43)%N).
    + destruct (span_digits r') as [ds rest] eqn:Hs.
      destruct (span_digits_split _ _ _ Hs) as [-> _]. now destruct ds.
    + destruct (span_digits (c' :: r')) as [ds rest] eqn:Hs.
      destruct (span_digits_split _ _ _ Hs) as [Heq _].
      destruct ds; [reflexivity|]. cbn [fst snd app]. now rewrite Heq.
Qed.

Lemma match_exp_more (s rest : pystr) :
  snd (match_exp s) = [] -> number_ends rest = true ->
  match_exp (s ++ rest) = (fst (match_exp s), rest).
Proof.
  intros Hall Hrest. destruct s as [|c r]; [exact (match_exp_none rest Hrest)|].
  unfold match_exp in *. cbn [app].
  destruct ((c =? 101)%N || (c =? 69)%N); [|discriminate Hall].
  destruct r as [|c' r']; [discriminate Hall|]. cbn [app].
  destruct ((c' =? 45)%N || (c' =? 43)%N).
  - rewrite (span_digits_more r' rest Hrest).
    destruct (span_digits r') as [ds rest']. destruct ds; [discriminate Hall|].
    cbn [fst snd] in *. now rewrite Hall.
  - change (c' :: r' ++ rest) with ((c' :: r') ++ rest).
    rewrite (span_digits_more (c' :: r') rest Hrest).
    destruct (span_digits (c' :: r')) as [ds rest']. destruct ds; [discriminate Hall|].
    cbn [fst snd] in *. now rewrite Hall.
Qed.

(** A number that the decoder reads in full is read the same when
    something that ends a number follows. *)
Lemma match_number_more (t rest : pystr) (v : json) :
  match_number t = Some (v, []) -> number_ends rest = true ->
  match_number (t ++ rest) = Some (v, rest).
Proof.
  unfold match_number. intros H Hrest.
  destruct (match_integer t) as [[i s1]|] eqn:Hi; [|discriminate].
  rewrite (match_integer_more t i s1 rest Hi Hrest).
  rewrite (match_frac_more s1 rest Hrest).
  destruct (match_frac s1) as [fr s2]. cbn [fst snd].
  destruct (match_exp s2) as [ex s3] eqn:Hex.
  assert (Hs3 : s3 = []) by (destruct fr, ex; now injection H).
  subst s3.
  rewrite (match_exp_more s2 rest ltac:(now rewrite Hex) Hrest), Hex. cbn [fst].
  destruct fr, ex; now injection H as <-.
Qed.

(** The float that the decoder reads from a number literal it reads in
    full is that literal. *)
Lemma match_number_float (t lit : pystr) :
  match_number t = Some (JFloat lit, []) -> lit = t.
Proof.
  unfold match_number.
  destruct (match_integer t) as [[i s1]|] eqn:Hi; [|discriminate].
  destruct (match_integer_split _ _ _ Hi) as [-> _].
  pose proof (match_frac_split s1) as Hf.
  destruct (match_frac s1) as [fr s2]. cbn [fst snd] in Hf.
  pose proof (match_exp_split s2) as He.
  destruct (match_exp s2) as [ex s3]. cbn [fst snd] in He.
  intros H. assert (Hs3 : s3 = []) by (destruct fr, ex; now injection H).
  subst s3 s1 s2. rewrite app_nil_r.
  destruct fr, ex; try discriminate H; injection H as <-; reflexivity.
Qed.

Lemma match_number_head (t : pystr) (v : json) (r : pystr) :
  match_number t = Some (v, r) ->
  exists c t', t = c :: t' /\ (c = 45%N \/ is_digit c = true).
Proof.
  unfold match_number.
  destruct (match_integer t) as [[i s1]|] eqn:Hi; [|discriminate].
  destruct (match_integer_split _ _ _ Hi) as [-> (c & i' & -> & Hc)].
  intros _. eexists _, _. split; [reflexivity | exact Hc].
Qed.

(** The first character of a float text. *)
Lemma is_float_text_head (t : pystr) :
  is_float_text t = true ->
  exists c t', t = c :: t' /\
    (c = 45%N \/ is_digit c = true \/ c = 78%N \/ c = 73%N).
Proof.
  unfold is_float_text. intros H. apply andb_true_iff in H. destruct H as [_ H].
  rewrite !orb_true_iff in H. destruct H as [[[H|H]|H]|H];
    try (apply bool_decide_eq_true_1 in H; subst t;
         eexists _, _; split; [reflexivity|]; auto; fail).
  destruct (match_number t) as [[v r]|] eqn:Hn; [|discriminate].
  destruct (match_number_head _ _ _ Hn) as (c & t' & -> & Hc).
  eexists _, _. split; [reflexivity|]. destruct Hc; auto.
Qed.

Lemma float_head_facts (c : N) :
  c = 45%N \/ is_digit c = true \/ c = 78%N \/ c = 73%N ->
  is_ws c = false /\ c <> 93%N /\ c <> 125%N /\
  (c =? 34)%N = false /\ (c =? 123)%N = false /\ (c =? 91)%N = false /\
  (110 =? c)%N = false /\ (116 =? c)%N = false /\ (102 =? c)%N = false.
Proof.
  intros [ -> | [H | [ -> | -> ]]]; try (repeat split; (reflexivity || discriminate)).
  unfold is_digit in H. apply andb_true_iff in H. destruct H as [H1 H2].
  apply N.leb_le in H1, H2. unfold is_ws.
  repeat split; try lia; try (apply N.eqb_neq; lia).
  destruct (N.eqb_spec c 32); [lia|]. destruct (N.eqb_spec c 9); [lia|].
  destruct (N.eqb_spec c 10); [lia|]. destruct (N.eqb_spec c 13); [lia|].
  reflexivity.
Qed.

(** The decoder reads a float text as a float whose literal is that text. *)
Lemma scan_once_float_text (t rest : pystr) (fuel : nat) :
  is_float_text t = true -> number_ends rest = true ->
  scan_once (S fuel) (t ++ rest) = Some (JFloat t, rest).
Proof.
  intros Ht Hrest. unfold is_float_text in Ht.
  apply andb_true_iff in Ht. destruct Ht as [_ Ht].
  rewrite !orb_true_iff in Ht. destruct Ht as [[[H|H]|H]|H];
    try (apply bool_decide_eq_true_1 in H; subst t; reflexivity).
  destruct (match_number t) as [[[| | |lit| | |] [|]]|] eqn:Hn; try discriminate H.
  pose proof (match_number_float _ _ Hn) as ->.
  pose proof (match_number_more _ rest _ Hn Hrest) as Hmore.
  destruct (match_number_head _ _ _ Hn) as (c & t' & -> & Hc).
  destruct (float_head_facts c ltac:(destruct Hc; auto))
    as (_ & _ & _ & H34 & H123 & H91 & Hn' & Ht' & Hf').
  cbn [app] in *. rewrite scan_once_S, H34, H123, H91.
  cbn [strip_prefix str_lit list_ascii_of_string map].
  change (N_of_ascii "n") with 110%N. change (N_of_ascii "t") with 116%N.
  change (N_of_ascii "f") with 102%N.
  now rewrite Hn', Ht', Hf', Hmore.
Qed.

(** The first character of the text of a document: not white space, not a
    closing bracket. *)
Lemma iterencode_head_any (fs : pystr -> string) (level : nat) (v : json) :
  dumpable fs v = true ->
  exists c r, str_lit (iterencode fs level v) = c :: r /\
              is_ws c = false /\ c <> 93%N /\ c <> 125%N.
Proof.
  destruct v as [| [|] | z | lit | s | [|x xs] | [|[k x] kvs]]; cbn [dumpable]; intros Hp;
    try (eexists _, _; split; [reflexivity|]; repeat split; discriminate).
  - destruct (int_repr_head z) as (c & ds & Heq & Hc).
    exists c, ds. split; [exact Heq|].
    destruct (float_head_facts c ltac:(destruct Hc; auto)) as (H1 & H2 & H3 & _).
    auto.
  - cbn [iterencode]. destruct (is_float_text_head _ Hp) as (c & t' & Heq & Hc).
    exists c, t'. split; [exact Heq|].
    destruct (float_head_facts c Hc) as (H1 & H2 & H3 & _). auto.
Qed.

Lemma array_items_encode_any (fs : pystr -> string) (level : nat) (xs : list json) :
  forall (x : json) (fuel : nat) (rest : pystr),
    reads_back fs x -> Forall (reads_back fs) xs ->
    dumpable fs x = true -> forallb (dumpable fs) xs = true ->
    (list_sum (map (fun x => S (decode_cost x)) (x :: xs)) <= fuel)%nat ->
    array_items fuel
      (str_lit (iterencode fs (S level) x) ++ str_lit (items_text fs level xs)
       ++ str_lit (newline_indent level) ++ 93%N :: rest)
    = Some (map (reread fs) (x :: xs), rest).
Proof.
  induction xs as [|y ys IH]; intros x fuel rest Hx Hxs Px Pxs Hfuel;
    cbn [map list_sum fold_right] in Hfuel;
    (destruct fuel as [|fuel]; [lia|]); rewrite array_items_S.
  - cbn [items_text]. change (str_lit "") with (@nil N). cbn [app].
    rewrite (Hx (S level) fuel _ ltac:(lia) (number_ends_indent _ _)).
    rewrite skip_ws_indent. reflexivity.
  - cbn [items_text]. rewrite !str_lit_app, <- !app_assoc.
    change (str_lit ",") with [44%N]. cbn [app].
    rewrite (Hx (S level) fuel (44%N :: _) ltac:(lia) eq_refl).
    rewrite skip_ws_head by reflexivity.
    change (44 =? 93)%N with false. change (44 =? 44)%N with true. cbv iota.
    rewrite skip_ws_indent.
    apply Forall_cons in Hxs. destruct Hxs as [Hy Hys].
    cbn [forallb] in Pxs. apply andb_true_iff in Pxs. destruct Pxs as [Py Pys].
    destruct (iterencode_head_any fs (S level) y Py) as (c & r & Heq & Hws & _).
    rewrite Heq. cbn [app]. rewrite skip_ws_head by exact Hws.
    change (c :: r ++ ?t) with ((c :: r) ++ t). rewrite <- Heq.
    rewrite (IH y fuel rest Hy Hys Py Pys); [reflexivity|].
    cbn [map list_sum fold_right]. lia.
Qed.

Lemma object_members_encode_any (fs : pystr -> string) (level : nat) (kvs : dict) :
  forall (k : pystr) (v : json) (acc : dict) (fuel : nat) (rest : pystr),
    reads_back fs v -> Forall (fun kv => reads_back fs (snd kv)) kvs ->
    well_formed_str k = true -> dumpable fs v = true ->
    forallb (fun kv => well_formed_str (fst kv) && dumpable fs (snd kv)) kvs = true ->
    NoDup (dict_keys (acc ++ (k, v) :: kvs)) ->
    (list_sum (map (fun kv => S (decode_cost (snd kv))) ((k, v) :: kvs)) <= fuel)%nat ->
    object_members fuel
      (codes (flat_map escape_char k) ++ 34%N :: 58%N :: 32%N
       :: str_lit (iterencode fs (S level) v) ++ str_lit (members_text fs level kvs)
       ++ str_lit (newline_indent level) ++ 125%N :: rest) acc
    = Some (acc ++ map (fun kv => (fst kv, reread fs (snd kv))) ((k, v) :: kvs), rest).
Proof.
  induction kvs as [|[k' v'] kvs IH]; intros k v acc fuel rest Hv Hkvs Pk Pv Pkvs Hnd Hfuel;
    cbn [map list_sum fold_right snd] in Hfuel;
    (destruct fuel as [|fuel]; [lia|]); rewrite object_members_S;
    rewrite (scanstring_encode_any k _ Pk);
    rewrite skip_ws_head by reflexivity;
    change (58 =? 58)%N with true; cbv iota;
    change (skip_ws (32%N :: ?t)) with (skip_ws t);
    destruct (iterencode_head_any fs (S level) v Pv) as (c & r & Heq & Hws & _);
    rewrite Heq; cbn [app]; rewrite skip_ws_head by exact Hws;
    change (c :: r ++ ?t) with ((c :: r) ++ t); rewrite <- Heq;
    (assert (Hfresh : k ∉ dict_keys acc);
     [ unfold dict_keys in Hnd |- *; rewrite map_app in Hnd;
       apply NoDup_app in Hnd; destruct Hnd as (_ & Hdis & _);
       intros Hin; apply (Hdis k Hin); cbn [map fst]; apply list_elem_of_here |]).
  - cbn [members_text]. change (str_lit "") with (@nil N). cbn [app].
    rewrite (Hv (S level) fuel _ ltac:(lia) (number_ends_indent _ _)).
    cbv zeta. rewrite (dict_set_fresh acc k _ Hfresh).
    rewrite skip_ws_indent. reflexivity.
  - cbn [members_text]. rewrite !str_lit_app, <- !app_assoc.
    change (str_lit ",") with [44%N]. change (str_lit ": ") with [58%N; 32%N].
    rewrite str_lit_encode_basestring. cbn [app]. rewrite <- !app_assoc. cbn [app].
    rewrite (Hv (S level) fuel (44%N :: _) ltac:(lia) eq_refl).
    cbv zeta. rewrite (dict_set_fresh acc k _ Hfresh).
    rewrite skip_ws_head by reflexivity.
    change (44 =? 125)%N with false. change (44 =? 44)%N with true. cbv iota.
    rewrite skip_ws_indent. rewrite skip_ws_head by reflexivity.
    change (34 =? 34)%N with true. cbv iota.
    apply Forall_cons in Hkvs. destruct Hkvs as [Hv' Hkvs]. cbn [snd] in Hv'.
    cbn [forallb fst snd] in Pkvs. apply andb_true_iff in Pkvs.
    destruct Pkvs as [Pkv' Pkvs]. apply andb_true_iff in Pkv'.
    destruct Pkv' as [Pk' Pv'].
    rewrite (IH k' v' (acc ++ [(k, reread fs v)]) fuel rest Hv' Hkvs Pk' Pv' Pkvs).
    + cbn [map fst snd]. now rewrite <- app_assoc.
    + unfold dict_keys in *. rewrite <- app_assoc. cbn [app].
      rewrite !map_app in *. cbn [map fst] in *. exact Hnd.
    + cbn [map list_sum fold_right snd]. lia.
Qed.

(** The decoder reads back every dumpable document from its text. *)
Lemma scan_once_iterencode_any (fs : pystr -> string) (v : json) :
  dumpable fs v = true -> reads_back fs v.
Proof.
  induction v as [| b | z | lit | s | items IH | members IH] using json_induction;
    intros Hp level fuel rest Hfuel Hrest;
    (destruct fuel as [|fuel]; [cbn in Hfuel; lia|]).
  - reflexivity.
  - destruct b; reflexivity.
  - exact (scan_once_iterencode fs (JInt z) eq_refl level (S fuel) rest Hfuel Hrest).
  - cbn [iterencode reread dumpable] in *. now apply scan_once_float_text.
  - cbn [iterencode dumpable reread] in *. rewrite str_lit_encode_basestring.
    cbn [app]. rewrite <- app_assoc. cbn [app]. rewrite scan_once_S.
    change (34 =? 34)%N with true. cbv iota.
    now rewrite (scanstring_encode_any s rest Hp).
  - destruct items as [|x xs]; [reflexivity|].
    cbn [dumpable forallb] in Hp. apply andb_true_iff in Hp. destruct Hp as [Px Pxs].
    apply Forall_cons in IH. destruct IH as [IHx IHxs].
    assert (Hall : Forall (reads_back fs) xs).
    { clear - IHxs Pxs. induction xs as [|y ys IHys]; [constructor|].
      cbn [forallb] in Pxs. apply andb_true_iff in Pxs. destruct Pxs as [Py Pys].
      apply Forall_cons in IHxs. destruct IHxs as [Hy Hys].
      constructor; [now apply Hy | now apply IHys]. }
    rewrite iterencode_array, !str_lit_app, <- !app_assoc.
    change (str_lit "[") with [91%N]. change (str_lit "]") with [93%N]. cbn [app].
    rewrite scan_once_S.
    change (91 =? 34)%N with false. change (91 =? 123)%N with false.
    change (91 =? 91)%N with true. cbv iota.
    rewrite skip_ws_indent.
    destruct (iterencode_head_any fs (S level) x Px) as (c & r & Heq & Hws & H93 & _).
    rewrite Heq. cbn [app]. rewrite skip_ws_head by exact Hws.
    destruct (N.eqb_spec c 93); [contradiction|].
    change (c :: r ++ ?t) with ((c :: r) ++ t). rewrite <- Heq.
    rewrite (array_items_encode_any fs level xs x fuel rest (IHx Px) Hall Px Pxs);
      [reflexivity|].
    cbn [decode_cost] in Hfuel. lia.
  - destruct members as [|[k x] kvs]; [reflexivity|].
    cbn [dumpable forallb fst snd] in Hp. apply andb_true_iff in Hp.
    destruct Hp as [Hp Hnd]. apply andb_true_iff in Hp. destruct Hp as [Pkx Pkvs].
    apply andb_true_iff in Pkx. destruct Pkx as [Pk Px].
    apply bool_decide_eq_true_1 in Hnd.
    apply Forall_cons in IH. destruct IH as [IHx IHkvs]. cbn [snd] in IHx.
    assert (Hall : Forall (fun kv => reads_back fs (snd kv)) kvs).
    { clear - IHkvs Pkvs. induction kvs as [|[k' y] ys IHys]; [constructor|].
      cbn [forallb fst snd] in Pkvs. apply andb_true_iff in Pkvs.
      destruct Pkvs as [Py Pys]. apply andb_true_iff in Py. destruct Py as [_ Py].
      apply Forall_cons in IHkvs. destruct IHkvs as [Hy Hys].
      constructor; [now apply Hy | now apply IHys]. }
    rewrite iterencode_object, !str_lit_app, <- !app_assoc.
    change (str_lit "{") with [123%N]. change (str_lit "}") with [125%N].
    change (str_lit ": ") with [58%N; 32%N].
    rewrite str_lit_encode_basestring. cbn [app]. rewrite <- !app_assoc. cbn [app].
    rewrite scan_once_S.
    change (123 =? 34)%N with false. change (123 =? 123)%N with true. cbv iota.
    rewrite skip_ws_indent. rewrite skip_ws_head by reflexivity.
    change (34 =? 125)%N with false. change (34 =? 34)%N with true. cbv iota.
    rewrite (object_members_encode_any fs level kvs k x [] fuel rest (IHx Px) Hall Pk Px
               Pkvs Hnd); [reflexivity|].
    cbn [decode_cost] in Hfuel. lia.
Qed.

(** The text of a dumpable document is long enough to pay for its
    decoding, and is made of clean characters. *)
Lemma iterencode_well_any (fs : pystr -> string) (v : json) :
  dumpable fs v = true -> encodes_well fs v.
Proof.
  induction v as [| b | z | lit | s | items IH | members IH] using json_induction;
    intros Hp level.
  - split; [cbn; lia | reflexivity].
  - destruct b; (split; [cbn; lia | reflexivity]).
  - exact (iterencode_well fs (JInt z) eq_refl level).
  - cbn [iterencode decode_cost dumpable] in *.
    destruct (is_float_text_head _ Hp) as (c & t' & Heq & _).
    unfold is_float_text in Hp. apply andb_true_iff in Hp. destruct Hp as [Hclean _].
    split; [rewrite Heq; cbn [length]; lia | exact Hclean].
  - cbn [iterencode decode_cost]. split; [|apply is_clean_encode_basestring].
    rewrite str_lit_encode_basestring. cbn [length]. lia.
  - destruct items as [|x xs]; [split; [cbn; lia | reflexivity]|].
    cbn [dumpable forallb] in Hp. apply andb_true_iff in Hp. destruct Hp as [Px Pxs].
    apply Forall_cons in IH. destruct IH as [IHx IHxs].
    assert (Hall : Forall (encodes_well fs) xs).
    { clear - IHxs Pxs. induction xs as [|y ys IHys]; [constructor|].
      cbn [forallb] in Pxs. apply andb_true_iff in Pxs. destruct Pxs as [Py Pys].
      apply Forall_cons in IHxs. destruct IHxs as [Hy Hys].
      constructor; [now apply Hy | now apply IHys]. }
    destruct (items_text_well fs level xs Hall) as [Hc Ht].
    destruct (IHx Px (S level)) as [Hxc Hxt].
    rewrite iterencode_array, !length_str_lit_app, !is_clean_app.
    pose proof (length_indent (S level)). pose proof (length_indent level).
    rewrite !is_clean_indent, Hxt, Ht.
    change (str_lit "[") with [91%N]. change (str_lit "]") with [93%N].
    cbn [length forallb decode_cost map list_sum fold_right]. split; [|reflexivity].
    unfold list_sum in Hc. lia.
  - destruct members as [|[k x] kvs]; [split; [cbn; lia | reflexivity]|].
    cbn [dumpable forallb fst snd] in Hp. apply andb_true_iff in Hp.
    destruct Hp as [Hp _]. apply andb_true_iff in Hp. destruct Hp as [Pkx Pkvs].
    apply andb_true_iff in Pkx. destruct Pkx as [_ Px].
    apply Forall_cons in IH. destruct IH as [IHx IHkvs]. cbn [snd] in IHx.
    assert (Hall : Forall (fun kv => encodes_well fs (snd kv)) kvs).
    { clear - IHkvs Pkvs. induction kvs as [|[k' y] ys IHys]; [constructor|].
      cbn [forallb fst snd] in Pkvs. apply andb_true_iff in Pkvs.
      destruct Pkvs as [Py Pys]. apply andb_true_iff in Py. destruct Py as [_ Py].
      apply Forall_cons in IHkvs. destruct IHkvs as [Hy Hys].
      constructor; [now apply Hy | now apply IHys]. }
    destruct (members_text_well fs level kvs Hall) as [Hc Ht].
    destruct (IHx Px (S level)) as [Hxc Hxt].
    rewrite iterencode_object, !length_str_lit_app, !is_clean_app.
    pose proof (length_indent (S level)). pose proof (length_indent level).
    rewrite !is_clean_indent, is_clean_encode_basestring, Hxt, Ht.
    change (str_lit "{") with [123%N]. change (str_lit "}") with [125%N].
    change (str_lit ": ") with [58%N; 32%N].
    cbn [length forallb decode_cost map list_sum fold_right snd]. split; [|reflexivity].
    unfold list_sum in Hc. lia.
Qed.

Lemma json_loads_dumps_any (fs : pystr -> string) (v : json) :
  dumpable fs v = true -> json_loads (str_lit (json_dumps fs v)) = Some (reread fs v).
Proof.
  intros Hp. unfold json_loads, json_dumps.
  destruct (iterencode_well_any fs v Hp 0%nat) as [Hcost _].
  destruct (iterencode_head_any fs 0 v Hp) as (c & r & Heq & Hws & _).
  rewrite Heq at 2. rewrite skip_ws_head by exact Hws. rewrite <- Heq.
  rewrite <- (app_nil_r (str_lit (iterencode fs 0 v))) at 2.
  rewrite (scan_once_iterencode_any fs v Hp 0%nat
             (2 * length (str_lit (iterencode fs 0 v)) + 2) [] ltac:(lia) eq_refl).
  reflexivity.
Qed.

Lemma decode_document_text_bytes_any (E : env) (v : json) :
  dumpable (floatstr E) v = true ->
  decode_document (text_bytes E (json_dumps (floatstr E) v))
  = Ok (reread (floatstr E) v).
Proof.
  intros Hp. unfold decode_document.
  destruct (iterencode_well_any (floatstr E) v Hp 0%nat) as [_ Hclean].
  pose proof (text_bytes_read_back E (json_dumps (floatstr E) v) Hclean) as H.
  destruct (utf8_decode _) as [t|]; [|discriminate H].
  cbn in H. injection H as ->. now rewrite json_loads_dumps_any.
Qed.

(** A well-formed document whose floats print back is dumpable, and is
    the same document as the one read back from its text. *)
Lemma well_formed_dumpable (fs : pystr -> string) (v : json) :
  well_formed v = true -> floats_print_back fs v -> dumpable fs v = true.
Proof.
  unfold floats_print_back.
  induction v as [| b | z | lit | s | items IH | members IH] using json_induction;
    cbn [well_formed dumpable floats_of]; intros Hw Hf; try reflexivity.
  - apply Forall_cons in Hf. now destruct Hf as [[Ht _] _].
  - exact Hw.
  - induction IH as [|x xs Hx Hxs IHxs]; [reflexivity|].
    cbn [forallb flat_map] in *. apply andb_true_iff in Hw. destruct Hw as [Hwx Hwxs].
    apply Forall_app in Hf. destruct Hf as [Hfx Hfxs].
    now rewrite (Hx Hwx Hfx), (IHxs Hwxs Hfxs).
  - apply andb_true_iff in Hw. destruct Hw as [Hw Hnd]. rewrite Hnd, andb_true_r.
    clear Hnd. induction IH as [|[k x] xs Hx Hxs IHxs]; [reflexivity|].
    cbn [forallb flat_map fst snd] in *. apply andb_true_iff in Hw.
    destruct Hw as [Hwx Hwxs]. apply andb_true_iff in Hwx. destruct Hwx as [Hk Hwx].
    apply Forall_app in Hf. destruct Hf as [Hfx Hfxs].
    now rewrite Hk, (Hx Hwx Hfx), (IHxs Hwxs Hfxs).
Qed.

Lemma same_document_reread (fs : pystr -> string) (v : json) :
  floats_print_back fs v -> same_document v (reread fs v).
Proof.
  unfold floats_print_back.
  induction v as [| b | z | lit | s | items IH | members IH] using json_induction;
    cbn [floats_of reread]; intros Hf; try constructor.
  - apply Forall_cons in Hf. destruct Hf as [[_ Hv] _]. now symmetry.
  - induction IH as [|x xs Hx Hxs IHxs]; [constructor|].
    cbn [flat_map map] in *. apply Forall_app in Hf. destruct Hf as [Hfx Hfxs].
    constructor; [now apply Hx | now apply IHxs].
  - induction IH as [|[k x] xs Hx Hxs IHxs]; [constructor|].
    cbn [flat_map map fst snd] in *. apply Forall_app in Hf. destruct Hf as [Hfx Hfxs].
    constructor; [split; [reflexivity | now apply Hx] | now apply IHxs].
Qed.

(** ** What the decoder produces *)

Lemma is_scalar_bounds (c : N) :
  (c < 55296 \/ 57343 < c < 1114112)%N -> is_scalar c = true.
Proof.
  intros H. unfold is_scalar.
  destruct (N.ltb_spec c 1114112); [|lia].
  destruct (N.leb_spec 55296 c); [|reflexivity].
  destruct (N.leb_spec c 57343); [lia | reflexivity].
Qed.

Lemma is_scalar_inv (c : N) :
  is_scalar c = true -> (c < 55296 \/ 57343 < c < 1114112)%N.
Proof.
  unfold is_scalar. intros H. apply andb_true_iff in H. destruct H as [H1 H2].
  apply N.ltb_lt in H1. apply negb_true_iff, andb_false_iff in H2.
  destruct H2 as [H2|H2]; apply N.leb_gt in H2; lia.
Qed.

Lemma fmap_cons_some (c : N) (o : option pystr) (t : pystr) :
  cons c <$> o = Some t -> exists t', o = Some t' /\ t = c :: t'.
Proof. destruct o as [t'|]; [intros [= <-]; eauto | discriminate]. Qed.

Lemma is_cont_bounds (b : N) : is_cont b = true -> (128 <= b <= 191)%N.
Proof.
  unfold is_cont. intros H. apply andb_true_iff in H. destruct H as [H1 H2].
  apply N.leb_le in H1, H2. lia.
Qed.

(** Strict UTF-8 decoding yields scalar values only. *)
Lemma utf8_decode_scalar (bs : list N) (t : pystr) :
  utf8_decode_N bs = Some t -> forallb is_scalar t = true.
Proof.
  assert (H : forall n bs t, (length bs <= n)%nat -> utf8_decode_N bs = Some t ->
                             forallb is_scalar t = true).
  { clear bs t. induction n as [|n IH]; intros bs t Hlen.
    - destruct bs; [intros [= <-]; reflexivity | cbn in Hlen; lia].
    - destruct bs as [|b0 r0]; [intros [= <-]; reflexivity|].
      cbn [length] in Hlen. cbn [utf8_decode_N].
      destruct (N.ltb_spec b0 128) as [H0|H0].
      { intros Hdec. apply fmap_cons_some in Hdec. destruct Hdec as (t' & Ht' & ->).
        cbn [forallb]. rewrite (IH r0 t' ltac:(lia) Ht'), andb_true_r.
        apply is_scalar_bounds. lia. }
      destruct (N.ltb_spec b0 194) as [H1|H1]; [discriminate|].
      destruct (N.ltb_spec b0 224) as [H2|H2].
      { destruct r0 as [|b1 r1]; [discriminate|].
        destruct (is_cont b1) eqn:Hc1; [|discriminate].
        apply is_cont_bounds in Hc1. cbn [length] in Hlen.
        intros Hdec. apply fmap_cons_some in Hdec. destruct Hdec as (t' & Ht' & ->).
        cbn [forallb]. rewrite (IH r1 t' ltac:(lia) Ht'), andb_true_r.
        apply is_scalar_bounds. unfold cont_bits. lia. }
      destruct (N.ltb_spec b0 240) as [H3|H3].
      { destruct r0 as [|b1 [|b2 r2]]; try discriminate.
        destruct (is_cont b1) eqn:Hc1; [|discriminate].
        destruct (is_cont b2) eqn:Hc2; [|discriminate].
        apply is_cont_bounds in Hc1, Hc2. cbn [length andb] in *.
        destruct (N.eqb_spec b0 224) as [He|He]; cbn [andb negb].
        - destruct (N.ltb_spec b1 160); [discriminate|]. cbn [negb andb].
          destruct (N.eqb_spec b0 237); [lia|]. cbn [andb negb].
          intros Hdec. apply fmap_cons_some in Hdec. destruct Hdec as (t' & Ht' & ->).
          cbn [forallb]. rewrite (IH r2 t' ltac:(lia) Ht'), andb_true_r.
          apply is_scalar_bounds. unfold cont_bits. lia.
        - destruct (N.eqb_spec b0 237) as [Hd|Hd]; cbn [andb negb].
          + destruct (N.leb_spec 160 b1); [discriminate|]. cbn [negb].
            intros Hdec. apply fmap_cons_some in Hdec. destruct Hdec as (t' & Ht' & ->).
            cbn [forallb]. rewrite (IH r2 t' ltac:(lia) Ht'), andb_true_r.
            apply is_scalar_bounds. unfold cont_bits. lia.
          + intros Hdec. apply fmap_cons_some in Hdec. destruct Hdec as (t' & Ht' & ->).
            cbn [forallb]. rewrite (IH r2 t' ltac:(lia) Ht'), andb_true_r.
            apply is_scalar_bounds. unfold cont_bits. lia. }
      destruct (N.ltb_spec b0 245) as [H4|H4]; [|discriminate].
      destruct r0 as [|b1 [|b2 [|b3 r3]]]; try discriminate.
      destruct (is_cont b1) eqn:Hc1; [|discriminate].
      destruct (is_cont b2) eqn:Hc2; [|discriminate].
      destruct (is_cont b3) eqn:Hc3; [|discriminate].
      apply is_cont_bounds in Hc1, Hc2, Hc3. cbn [length andb] in *.
      destruct (N.eqb_spec b0 240) as [He|He]; cbn [andb negb].
      + destruct (N.ltb_spec b1 144); [discriminate|]. cbn [negb andb].
        destruct (N.eqb_spec b0 244); [lia|]. cbn [andb negb].
        intros Hdec. apply fmap_cons_some in Hdec. destruct Hdec as (t' & Ht' & ->).
        cbn [forallb]. rewrite (IH r3 t' ltac:(lia) Ht'), andb_true_r.
        apply is_scalar_bounds. unfold cont_bits. lia.
      + destruct (N.eqb_spec b0 244) as [Hd|Hd]; cbn [andb negb].
        * destruct (N.leb_spec 144 b1); [discriminate|]. cbn [negb].
          intros Hdec. apply fmap_cons_some in Hdec. destruct Hdec as (t' & Ht' & ->).
          cbn [forallb]. rewrite (IH r3 t' ltac:(lia) Ht'), andb_true_r.
          apply is_scalar_bounds. unfold cont_bits. lia.
        * intros Hdec. apply fmap_cons_some in Hdec. destruct Hdec as (t' & Ht' & ->).
          cbn [forallb]. rewrite (IH r3 t' ltac:(lia) Ht'), andb_true_r.
          apply is_scalar_bounds. unfold cont_bits. lia. }
  apply (H (length bs)). lia.
Qed.

Lemma universal_newlines_scalar (s : pystr) :
  forallb is_scalar s = true -> forallb is_scalar (universal_newlines s) = true.
Proof.
  assert (H : forall n s, (length s <= n)%nat -> forallb is_scalar s = true ->
                          forallb is_scalar (universal_newlines s) = true).
  { clear s. induction n as [|n IH]; intros s Hlen Hs.
    - destruct s; [reflexivity | cbn in Hlen; lia].
    - destruct s as [|c r]; [reflexivity|].
      cbn [forallb] in Hs. apply andb_true_iff in Hs. destruct Hs as [Hc Hr].
      cbn [length] in Hlen. cbn [universal_newlines].
      destruct (c =? 13)%N.
      + destruct r as [|c' r']; [reflexivity|].
        cbn [forallb] in Hr. apply andb_true_iff in Hr. destruct Hr as [Hc' Hr'].
        cbn [length] in Hlen.
        destruct (c' =? 10)%N; cbn [forallb]; change (is_scalar 10) with true;
          cbn [andb]; apply IH; cbn [length]; try lia; try exact Hr'.
        cbn [forallb]. now rewrite Hc', Hr'.
      + cbn [forallb]. rewrite Hc. apply IH; [lia | exact Hr]. }
  apply (H (length s)). lia.
Qed.

Lemma cons_char_some (c : N) (o : option (pystr * pystr)) (t rest : pystr) :
  cons_char c o = Some (t, rest) -> exists t', o = Some (t', rest) /\ t = c :: t'.
Proof. destruct o as [[t' rest']|]; [intros [= <- <-]; eauto | discriminate]. Qed.

Lemma hex_value_bound (c v : N) : hex_value c = Some v -> (v < 16)%N.
Proof.
  unfold hex_value, is_digit.
  destruct (N.leb_spec 48 c); destruct (N.leb_spec c 57); cbn [andb];
    try (intros [= <-]; lia);
    destruct (N.leb_spec 97 c); destruct (N.leb_spec c 102); cbn [andb];
    try (intros [= <-]; lia);
    destruct (N.leb_spec 65 c); destruct (N.leb_spec c 70); cbn [andb];
    try (intros [= <-]; lia); discriminate.
Qed.

Lemma decode_uXXXX_bound (h1 h2 h3 h4 u : N) :
  decode_uXXXX h1 h2 h3 h4 = Some u -> (u < 65536)%N.
Proof.
  unfold decode_uXXXX.
  destruct (hex_value h1) as [a|] eqn:Ha; [|discriminate].
  destruct (hex_value h2) as [b|] eqn:Hb; [|discriminate].
  destruct (hex_value h3) as [c|] eqn:Hc; [|discriminate].
  destruct (hex_value h4) as [d|] eqn:Hd; [|discriminate].
  apply hex_value_bound in Ha, Hb, Hc, Hd. intros [= <-]. lia.
Qed.

Lemma simple_escape_bound (e ch : N) : simple_escape e = Some ch -> (ch < 128)%N.
Proof.
  unfold simple_escape.
  repeat match goal with |- context [if ?b then _ else _] => destruct b end;
    try discriminate; intros [= <-]; lia.
Qed.

Lemma high_surrogate_bounds (u : N) :
  is_high_surrogate u = true -> (55296 <= u <= 56319)%N.
Proof.
  unfold is_high_surrogate. intros H. apply andb_true_iff in H.
  destruct H as [H1 H2]. apply N.leb_le in H1, H2. lia.
Qed.

Lemma low_surrogate_bounds (u : N) :
  is_low_surrogate u = true -> (56320 <= u <= 57343)%N.
Proof.
  unfold is_low_surrogate. intros H. apply andb_true_iff in H.
  destruct H as [H1 H2]. apply N.leb_le in H1, H2. lia.
Qed.

Lemma not_low_surrogate (u : N) :
  (u < 56320 \/ 57343 < u)%N -> is_low_surrogate u = false.
Proof.
  intros H. unfold is_low_surrogate.
  destruct (N.leb_spec 56320 u); [|reflexivity].
  destruct (N.leb_spec u 57343); [lia | reflexivity].
Qed.

Lemma not_high_surrogate (u : N) :
  (u < 55296 \/ 56319 < u)%N -> is_high_surrogate u = false.
Proof.
  intros H. unfold is_high_surrogate.
  destruct (N.leb_spec 55296 u); [|reflexivity].
  destruct (N.leb_spec u 56319); [lia | reflexivity].
Qed.

Lemma well_formed_str_cons (x : N) (t : pystr) :
  is_code_point x = true ->
  is_high_surrogate x = false \/ head_low t = false ->
  well_formed_str t = true -> well_formed_str (x :: t) = true.
Proof.
  unfold well_formed_str. intros Hx Hpair Ht.
  apply andb_true_iff in Ht. destruct Ht as [Hcp Hns].
  cbn [forallb no_split_pair]. rewrite Hx, Hcp, Hns, andb_true_r. cbn [andb].
  destruct t as [|c' t']; [reflexivity|]. cbn [head_low] in Hpair.
  rewrite andb_true_r. apply negb_true_iff, andb_false_iff. exact Hpair.
Qed.

(** The steps of [scanstring]. *)
Lemma scanstring_step (c : N) (r : pystr) :
  scanstring (c :: r) =
    if (c =? 34)%N then Some ([], r)
    else if (c =? 92)%N then
      match r with
      | [] => None
      | e :: r1 =>
        if (e =? 117)%N then
          match r1 with
          | h1 :: h2 :: h3 :: h4 :: r2 =>
            match decode_uXXXX h1 h2 h3 h4 with
            | None => None
            | Some uni =>
              if is_high_surrogate uni then
                match r2 with
                | b :: u :: g1 :: g2 :: g3 :: g4 :: r3 =>
                  if (b =? 92)%N && (u =? 117)%N then
                    match decode_uXXXX g1 g2 g3 g4 with
                    | None => None
                    | Some uni2 =>
                      if is_low_surrogate uni2
                      then cons_char (join_surrogates uni uni2) (scanstring r3)
                      else cons_char uni (scanstring r2)
                    end
                  else cons_char uni (scanstring r2)
                | _ => cons_char uni (scanstring r2)
                end
              else cons_char uni (scanstring r2)
            end
          | _ => None
          end
        else
          match simple_escape e with
          | Some ch => cons_char ch (scanstring r1)
          | None => None
          end
      end
    else if (c <? 32)%N then None
    else cons_char c (scanstring r).
Proof. reflexivity. Qed.

(** A decoded string starts with a low surrogate only when the input
    starts with the escape of one. *)
Lemma scanstring_head_low (s t rest : pystr) :
  forallb is_scalar s = true -> scanstring s = Some (t, rest) ->
  head_low t = true -> starts_low_escape s = true.
Proof.
  destruct s as [|c r]; [discriminate|]. cbn [forallb]. intros Hs.
  apply andb_true_iff in Hs. destruct Hs as [Hc _]. apply is_scalar_inv in Hc.
  rewrite scanstring_step.
  destruct (c =? 34)%N; [intros [= <- <-]; discriminate|].
  destruct (N.eqb_spec c 92) as [->|H92].
  - destruct r as [|e r1]; [discriminate|].
    destruct (N.eqb_spec e 117) as [->|H117].
    + destruct r1 as [|h1 [|h2 [|h3 [|h4 r2]]]]; try discriminate.
      cbn [starts_low_escape]. change (92 =? 92)%N with true.
      change (117 =? 117)%N with true. cbn [andb].
      destruct (decode_uXXXX h1 h2 h3 h4) as [uni|]; [|discriminate].
      destruct (is_high_surrogate uni) eqn:Hh.
      * apply high_surrogate_bounds in Hh.
        assert (Huni : forall o, cons_char uni o = Some (t, rest) ->
                                 head_low t = true -> is_low_surrogate uni = true).
        { intros o Ho. apply cons_char_some in Ho. destruct Ho as (t' & _ & ->).
          cbn [head_low]. rewrite not_low_surrogate by lia. discriminate. }
        destruct r2 as [|b [|u [|g1 [|g2 [|g3 [|g4 r3]]]]]]; try apply Huni.
        destruct ((b =? 92)%N && (u =? 117)%N); [|apply Huni].
        destruct (decode_uXXXX g1 g2 g3 g4) as [uni2|]; [|discriminate].
        destruct (is_low_surrogate uni2) eqn:Hl; [|apply Huni].
        apply low_surrogate_bounds in Hl.
        intros Ho. apply cons_char_some in Ho. destruct Ho as (t' & _ & ->).
        cbn [head_low]. unfold join_surrogates.
        rewrite not_low_surrogate by lia. discriminate.
      * intros Ho. apply cons_char_some in Ho. destruct Ho as (t' & _ & ->).
        cbn [head_low]. auto.
    + destruct (simple_escape e) as [ch|] eqn:He; [|discriminate].
      apply simple_escape_bound in He.
      intros Ho. apply cons_char_some in Ho. destruct Ho as (t' & _ & ->).
      cbn [head_low]. rewrite not_low_surrogate by lia. discriminate.
  - destruct (c <? 32)%N; [discriminate|].
    intros Ho. apply cons_char_some in Ho. destruct Ho as (t' & _ & ->).
    cbn [head_low]. rewrite not_low_surrogate by lia. discriminate.
Qed.

Lemma forallb_skipn {A} (f : A -> bool) (n : nat) (l : list A) :
  forallb f l = true -> forallb f (skipn n l) = true.
Proof.
  revert l. induction n as [|n IH]; intros l H; [exact H|].
  destruct l as [|x l]; [reflexivity|]. cbn [forallb skipn] in *.
  apply andb_true_iff in H. apply IH, H.
Qed.

Lemma starts_low_escape_short (r : pystr) :
  (length r < 6)%nat -> starts_low_escape r = false.
Proof.
  destruct r as [|b [|u [|g1 [|g2 [|g3 [|g4 r3]]]]]]; cbn [length starts_low_escape];
    intros H; try lia; try reflexivity; apply andb_false_r.
Qed.

(** A string decoded from a text of scalar values is well formed, and
    what follows it in the text is made of scalar values. *)
Lemma scanstring_well_formed (s t rest : pystr) :
  forallb is_scalar s = true -> scanstring s = Some (t, rest) ->
  well_formed_str t = true /\ forallb is_scalar rest = true.
Proof.
  assert (H : forall n s t rest, (length s <= n)%nat ->
                forallb is_scalar s = true -> scanstring s = Some (t, rest) ->
                well_formed_str t = true /\ forallb is_scalar rest = true).
  { clear s t rest. induction n as [|n IH]; intros s t rest Hlen Hs.
    { destruct s; [discriminate | cbn in Hlen; lia]. }
    destruct s as [|c r]; [discriminate|]. cbn [length] in Hlen.
    pose proof Hs as Hall.
    cbn [forallb] in Hs. apply andb_true_iff in Hs. destruct Hs as [Hc Hr].
    rewrite scanstring_step.
    assert (Hstep : forall x k o, (k <= length r)%nat ->
              o = scanstring (skipn k r) ->
              is_code_point x = true ->
              (is_high_surrogate x = false \/
               starts_low_escape (skipn k r) = false) ->
              cons_char x o = Some (t, rest) ->
              well_formed_str t = true /\ forallb is_scalar rest = true).
    { intros x k o Hk -> Hx Hpair Ho.
      apply cons_char_some in Ho. destruct Ho as (t' & Ht' & ->).
      assert (Hsk : forallb is_scalar (skipn k r) = true) by now apply forallb_skipn.
      destruct (IH (skipn k r) t' rest
                  ltac:(rewrite length_skipn; lia) Hsk Ht') as [Hw Hrest].
      split; [|exact Hrest].
      apply well_formed_str_cons; [exact Hx | | exact Hw].
      destruct Hpair as [Hp|Hp]; [now left|]. right.
      destruct (head_low t') eqn:Hhl; [|reflexivity].
      rewrite (scanstring_head_low _ _ _ Hsk Ht' Hhl) in Hp. discriminate. }
    destruct (c =? 34)%N; [intros [= <- <-]; now split|].
    destruct (N.eqb_spec c 92) as [->|H92].
    - destruct r as [|e r1]; [discriminate|].
      destruct (N.eqb_spec e 117) as [->|H117].
      + destruct r1 as [|h1 [|h2 [|h3 [|h4 r2]]]]; try discriminate.
        destruct (decode_uXXXX h1 h2 h3 h4) as [uni|] eqn:Hd; [|discriminate].
        apply decode_uXXXX_bound in Hd.
        assert (Hcp : is_code_point uni = true)
          by (unfold is_code_point; apply N.ltb_lt; lia).
        destruct (is_high_surrogate uni) eqn:Hh.
        * assert (Hlone : starts_low_escape r2 = false ->
                    cons_char uni (scanstring r2) = Some (t, rest) ->
                    well_formed_str t = true /\ forallb is_scalar rest = true).
          { intros Hp. apply (Hstep uni 5%nat); [cbn [length]; lia | reflexivity
                                                 | exact Hcp | now right]. }
          destruct r2 as [|b [|u [|g1 [|g2 [|g3 [|g4 r3]]]]]];
            try (apply Hlone; apply starts_low_escape_short; cbn [length]; lia).
          destruct ((b =? 92)%N && (u =? 117)%N) eqn:Hbu;
            [|apply Hlone; cbn [starts_low_escape]; now rewrite Hbu].
          destruct (decode_uXXXX g1 g2 g3 g4) as [uni2|] eqn:Hd2; [|discriminate].
          destruct (is_low_surrogate uni2) eqn:Hl;
            [|apply Hlone; cbn [starts_low_escape]; now rewrite Hbu, Hd2].
          apply high_surrogate_bounds in Hh. apply low_surrogate_bounds in Hl.
          apply (Hstep _ 11%nat); [cbn [length]; lia | reflexivity | | left].
          -- unfold is_code_point, join_surrogates. apply N.ltb_lt. lia.
          -- apply not_high_surrogate. unfold join_surrogates. lia.
        * apply (Hstep uni 5%nat); [cbn [length]; lia | reflexivity
                                    | exact Hcp | now left].
      + destruct (simple_escape e) as [ch|] eqn:He; [|discriminate].
        apply simple_escape_bound in He.
        apply (Hstep ch 1%nat); [cbn [length]; lia | reflexivity | | left].
        * unfold is_code_point. apply N.ltb_lt. lia.
        * apply not_high_surrogate. lia.
    - destruct (c <? 32)%N; [discriminate|].
      apply is_scalar_inv in Hc.
      apply (Hstep c 0%nat); [lia | reflexivity | | left].
      + unfold is_code_point. apply N.ltb_lt. lia.
      + apply not_high_surrogate. lia. }
  apply (H (length s)). lia.
Qed.

Lemma skip_ws_scalar (s : pystr) :
  forallb is_scalar s = true -> forallb is_scalar (skip_ws s) = true.
Proof.
  induction s as [|c r IH]; [reflexivity|]. intros H. cbn [skip_ws].
  destruct (is_ws c); [|exact H].
  cbn [forallb] in H. apply andb_true_iff in H. now apply IH.
Qed.

Lemma strip_prefix_scalar (lit s rest : pystr) :
  forallb is_scalar s = true -> strip_prefix lit s = Some rest ->
  forallb is_scalar rest = true.
Proof.
  revert s. induction lit as [|a lit IH]; intros s Hs; cbn [strip_prefix].
  - now intros [= <-].
  - destruct s as [|b s']; [discriminate|].
    cbn [forallb] in Hs. apply andb_true_iff in Hs.
    destruct (a =? b)%N; [|discriminate]. now apply IH.
Qed.

(** A number read by the decoder is well formed, and what follows it is
    the rest of the text. *)
Lemma match_number_rest (s : pystr) (v : json) (rest : pystr) :
  match_number s = Some (v, rest) ->
  well_formed v = true /\ exists pre, s = pre ++ rest.
Proof.
  unfold match_number.
  destruct (match_integer s) as [[i s1]|] eqn:Hi; [|discriminate].
  destruct (match_integer_split _ _ _ Hi) as [-> _].
  pose proof (match_frac_split s1) as Hf.
  destruct (match_frac s1) as [fr s2]. cbn [fst snd] in Hf.
  pose proof (match_exp_split s2) as He.
  destruct (match_exp s2) as [ex s3]. cbn [fst snd] in He.
  intros H. assert (Hrest : s3 = rest) by (destruct fr, ex; now injection H).
  split; [destruct fr, ex; injection H as <- _; reflexivity|].
  exists (i ++ fr ++ ex). subst. now rewrite <- !app_assoc.
Qed.

Lemma dict_set_well_formed (acc : dict) (k : pystr) (v : json) :
  well_formed (JObject acc) = true -> well_formed_str k = true ->
  well_formed v = true -> well_formed (JObject (dict_set acc k v)) = true.
Proof.
  cbn [well_formed]. intros H Hk Hv. apply andb_true_iff in H. destruct H as [Hall Hnd].
  apply bool_decide_eq_true_1 in Hnd. apply andb_true_iff. split.
  - apply dict_set_forallb; [exact Hall|]. cbn [fst snd]. now rewrite Hk, Hv.
  - apply bool_decide_eq_true_2. now apply dict_set_NoDup.
Qed.

(** Every document the decoder reads from a text of scalar values is well
    formed. *)
Lemma decoder_well_formed (fuel : nat) :
  (forall s v rest, forallb is_scalar s = true -> scan_once fuel s = Some (v, rest) ->
     well_formed v = true /\ forallb is_scalar rest = true) /\
  (forall s l rest, forallb is_scalar s = true -> array_items fuel s = Some (l, rest) ->
     forallb well_formed l = true /\ forallb is_scalar rest = true) /\
  (forall s acc d rest, forallb is_scalar s = true ->
     well_formed (JObject acc) = true -> object_members fuel s acc = Some (d, rest) ->
     well_formed (JObject d) = true /\ forallb is_scalar rest = true).
Proof.
  induction fuel as [|fuel (IHv & IHa & IHo)];
    [repeat split; intros; discriminate|].
  split; [|split].
  - intros s v rest Hs. destruct s as [|c r]; [discriminate|].
    rewrite scan_once_S.
    assert (Hr : forallb is_scalar r = true)
      by (cbn [forallb] in Hs; now apply andb_true_iff in Hs).
    destruct (c =? 34)%N.
    { destruct (scanstring r) as [[str rest']|] eqn:Hstr; [|discriminate].
      intros [= <- <-]. exact (scanstring_well_formed _ _ _ Hr Hstr). }
    destruct (c =? 123)%N.
    { pose proof (skip_ws_scalar r Hr) as Hsk.
      destruct (skip_ws r) as [|c1 r1]; [discriminate|].
      cbn [forallb] in Hsk. apply andb_true_iff in Hsk. destruct Hsk as [_ Hr1].
      destruct (c1 =? 125)%N; [intros [= <- <-]; now split|].
      destruct (c1 =? 34)%N; [|discriminate].
      destruct (object_members fuel r1 []) as [[d rest']|] eqn:Hom; [|discriminate].
      intros [= <- <-]. exact (IHo r1 [] d rest' Hr1 eq_refl Hom). }
    destruct (c =? 91)%N.
    { pose proof (skip_ws_scalar r Hr) as Hsk.
      destruct (skip_ws r) as [|c1 r1]; [discriminate|].
      destruct (c1 =? 93)%N.
      { intros [= <- <-]. cbn [forallb] in Hsk. apply andb_true_iff in Hsk.
        now split. }
      destruct (array_items fuel (c1 :: r1)) as [[l rest']|] eqn:Hai; [|discriminate].
      intros [= <- <-]. exact (IHa _ l rest' Hsk Hai). }
    destruct (strip_prefix (str_lit "null") (c :: r)) as [r'|] eqn:H1.
    { intros [= <- <-]. split; [reflexivity|]. exact (strip_prefix_scalar _ _ _ Hs H1). }
    destruct (strip_prefix (str_lit "true") (c :: r)) as [r'|] eqn:H2.
    { intros [= <- <-]. split; [reflexivity|]. exact (strip_prefix_scalar _ _ _ Hs H2). }
    destruct (strip_prefix (str_lit "false") (c :: r)) as [r'|] eqn:H3.
    { intros [= <- <-]. split; [reflexivity|]. exact (strip_prefix_scalar _ _ _ Hs H3). }
    destruct (match_number (c :: r)) as [[v' rest']|] eqn:Hn.
    { intros [= <- <-]. destruct (match_number_rest _ _ _ Hn) as [Hw [pre Heq]].
      split; [exact Hw|]. rewrite Heq, forallb_app in Hs.
      now apply andb_true_iff in Hs. }
    destruct (strip_prefix (str_lit "NaN") (c :: r)) as [r'|] eqn:H4.
    { intros [= <- <-]. split; [reflexivity|]. exact (strip_prefix_scalar _ _ _ Hs H4). }
    destruct (strip_prefix (str_lit "Infinity") (c :: r)) as [r'|] eqn:H5.
    { intros [= <- <-]. split; [reflexivity|]. exact (strip_prefix_scalar _ _ _ Hs H5). }
    destruct (strip_prefix (str_lit "-Infinity") (c :: r)) as [r'|] eqn:H6;
      [|discriminate].
    intros [= <- <-]. split; [reflexivity|]. exact (strip_prefix_scalar _ _ _ Hs H6).
  - intros s l rest Hs. rewrite array_items_S.
    destruct (scan_once fuel s) as [[v s1]|] eqn:Hv; [|discriminate].
    destruct (IHv _ _ _ Hs Hv) as [Hw Hs1].
    pose proof (skip_ws_scalar s1 Hs1) as Hsk.
    destruct (skip_ws s1) as [|c r]; [discriminate|].
    cbn [forallb] in Hsk. apply andb_true_iff in Hsk. destruct Hsk as [_ Hr].
    destruct (c =? 93)%N.
    { intros [= <- <-]. cbn [forallb]. now rewrite Hw. }
    destruct (c =? 44)%N; [|discriminate].
    destruct (array_items fuel (skip_ws r)) as [[vs rest']|] eqn:Hai; [|discriminate].
    intros [= <- <-].
    destruct (IHa _ _ _ (skip_ws_scalar r Hr) Hai) as [Hvs Hrest].
    cbn [forallb]. now rewrite Hw, Hvs.
  - intros s acc d rest Hs Hacc. rewrite object_members_S.
    destruct (scanstring s) as [[key s1]|] eqn:Hkey; [|discriminate].
    destruct (scanstring_well_formed _ _ _ Hs Hkey) as [Hk Hs1].
    pose proof (skip_ws_scalar s1 Hs1) as Hsk.
    destruct (skip_ws s1) as [|c r]; [discriminate|].
    cbn [forallb] in Hsk. apply andb_true_iff in Hsk. destruct Hsk as [_ Hr].
    destruct (c =? 58)%N; [|discriminate].
    destruct (scan_once fuel (skip_ws r)) as [[v s2]|] eqn:Hv; [|discriminate].
    destruct (IHv _ _ _ (skip_ws_scalar r Hr) Hv) as [Hw Hs2].
    cbv zeta.
    pose proof (dict_set_well_formed acc key v Hacc Hk Hw) as Hacc'.
    pose proof (skip_ws_scalar s2 Hs2) as Hsk2.
    destruct (skip_ws s2) as [|c2 r2]; [discriminate|].
    cbn [forallb] in Hsk2. apply andb_true_iff in Hsk2. destruct Hsk2 as [_ Hr2].
    destruct (c2 =? 125)%N; [intros [= <- <-]; now split|].
    destruct (c2 =? 44)%N; [|discriminate].
    pose proof (skip_ws_scalar r2 Hr2) as Hsk3.
    destruct (skip_ws r2) as [|c3 r3]; [discriminate|].
    cbn [forallb] in Hsk3. apply andb_true_iff in Hsk3. destruct Hsk3 as [_ Hr3].
    destruct (c3 =? 34)%N; [|discriminate].
    intros Hom. exact (IHo r3 _ d rest Hr3 Hacc' Hom).
Qed.

(** Every document that [json.load] returns is well formed. *)
Lemma decode_document_well_formed (c : list byte) (v : json) :
  decode_document c = Ok v -> well_formed v = true.
Proof.
  unfold decode_document, utf8_decode.
  destruct (utf8_decode_N (map Byte.to_N c)) as [text|] eqn:Hd; [|discriminate].
  pose proof (universal_newlines_scalar _ (utf8_decode_scalar _ _ Hd)) as Hs.
  unfold json_loads.
  destruct (scan_once _ _) as [[v' rest]|] eqn:Hv; [|discriminate].
  destruct (skip_ws rest); [|discriminate]. intros [= <-].
  destruct (decoder_well_formed (2 * length (universal_newlines text) + 2))
    as (IHv & _ & _).
  exact (proj1 (IHv _ _ _ (skip_ws_scalar _ Hs) Hv)).
Qed.

(** ** The identifiers in a well-formed document *)

Lemma str_lit_well_formed (s : string) : well_formed_str (str_lit s) = true.
Proof. apply scalar_well_formed_str, str_lit_scalar. Qed.

Lemma set_ids_well_formed (E : env) (pos : nat) (d : dict) :
  well_formed (JObject d) = true -> well_formed (JObject (set_ids E pos d)) = true.
Proof.
  intros H. unfold set_ids, key_machineId, key_macMachineId, key_devDeviceId.
  repeat (apply dict_set_well_formed;
          [| apply str_lit_well_formed | cbn [well_formed]; apply str_lit_well_formed]).
  exact H.
Qed.

Lemma dict_set_floats (P : pystr -> Prop) (d : dict) (k : pystr) (s : pystr) :
  Forall P (floats_of (JObject d)) ->
  Forall P (floats_of (JObject (dict_set d k (JString s)))).
Proof.
  cbn [floats_of]. induction d as [|[k0 v0] d IH]; cbn [dict_set flat_map snd]; intros H.
  - constructor.
  - apply Forall_app in H. destruct H as [H0 Hd].
    destruct (decide (k0 = k)); cbn [flat_map snd floats_of app].
    + exact Hd.
    + apply Forall_app. split; [exact H0 | now apply IH].
Qed.

Lemma set_ids_floats (fs : pystr -> string) (E : env) (pos : nat) (d : dict) :
  floats_print_back fs (JObject d) -> floats_print_back fs (JObject (set_ids E pos d)).
Proof.
  unfold floats_print_back, set_ids. intros H. now do 3 apply dict_set_floats.
Qed.

(** The document saved by a run is read back from the file as the same
    document. *)
Lemma saved_document_reads_back (E : env) (pos : nat) (d : dict) :
  well_formed (JObject d) = true -> floats_print_back (floatstr E) (JObject d) ->
  decode_document (saved_bytes E (set_ids E pos d))
  = Ok (reread (floatstr E) (JObject (set_ids E pos d))) /\
  same_document (JObject (set_ids E pos d))
                (reread (floatstr E) (JObject (set_ids E pos d))).
Proof.
  intros Hw Hf.
  pose proof (set_ids_well_formed E pos d Hw) as Hw'.
  pose proof (set_ids_floats (floatstr E) E pos d Hf) as Hf'.
  split; [|now apply same_document_reread].
  unfold saved_bytes. apply decode_document_text_bytes_any.
  now apply well_formed_dumpable.
Qed.

Lemma reread_no_floats (fs : pystr -> string) (v : json) :
  floats_of v = [] -> reread fs v = v.
Proof.
  induction v as [| b | z | lit | s | items IH | members IH] using json_induction;
    cbn [floats_of reread]; intros Hf; try reflexivity.
  - discriminate Hf.
  - f_equal. induction IH as [|x xs Hx Hxs IHxs]; [reflexivity|].
    cbn [flat_map map] in *. apply app_eq_nil in Hf. destruct Hf as [Hfx Hfxs].
    now rewrite (Hx Hfx), (IHxs Hfxs).
  - f_equal. induction IH as [|[k x] xs Hx Hxs IHxs]; [reflexivity|].
    cbn [flat_map map fst snd] in *. apply app_eq_nil in Hf. destruct Hf as [Hfx Hfxs].
    now rewrite (Hx Hfx), (IHxs Hfxs).
Qed.

Lemma set_ids_no_floats (E : env) (pos : nat) (d : dict) :
  floats_of (JObject d) = [] -> floats_of (JObject (set_ids E pos d)) = [].
Proof.
  intros Hf.
  assert (H : Forall (fun _ => False) (floats_of (JObject (set_ids E pos d)))).
  { unfold set_ids. do 3 apply dict_set_floats. rewrite Hf. constructor. }
  destruct (floats_of (JObject (set_ids E pos d))) as [|lit l]; [reflexivity|].
  apply Forall_cons in H. now destruct H.
Qed.

(** The document saved by a run is read back from the file as it is when
    the loaded document has no float. *)
Lemma saved_document_reads_back_exactly (E : env) (pos : nat) (d : dict) :
  well_formed (JObject d) = true -> floats_of (JObject d) = [] ->
  decode_document (saved_bytes E (set_ids E pos d)) = Ok (JObject (set_ids E pos d)).
Proof.
  intros Hw Hf.
  assert (Hpb : floats_print_back (floatstr E) (JObject d))
    by (unfold floats_print_back; rewrite Hf; constructor).
  destruct (saved_document_reads_back E pos d Hw Hpb) as [Hback _].
  rewrite Hback. f_equal. apply reread_no_floats. now apply set_ids_no_floats.
Qed.

(** ** The document of a first run *)

Lemma three_keys_plain (E : env) (pos : nat) :
  plain (JObject
           [(key_machineId, JString (str_lit (machine_id_at E pos)));
            (key_macMachineId, JString (str_lit (mac_machine_id_at E pos)));
            (key_devDeviceId, JString (str_lit (dev_device_id_at E pos)))]) = true.
Proof.
  rewrite <- set_ids_empty. now apply set_ids_plain.
Qed.

(** ** What a step never removes *)

Lemma keeps_entries_bind {A B} (m : M A) (k : A -> M B) :
  keeps_entries m -> (forall a, keeps_entries (k a)) -> keeps_entries (bind m k).
Proof.
  intros Hm Hk w r w'. unfold bind.
  destruct (m w) as [[a|e] w1] eqn:Hmw; intros H q n Hq.
  - destruct (Hm _ _ _ Hmw q n Hq) as (n1 & Hq1 & Hd1).
    destruct (Hk a _ _ _ H q n1 Hq1) as (n2 & Hq2 & Hd2).
    exists n2. split; [exact Hq2 | auto].
  - injection H as <- <-. exact (Hm _ _ _ Hmw q n Hq).
Qed.

Lemma keeps_entries_same_fs {A} (m : M A) :
  (forall w r w', m w = (r, w') -> fs w' = fs w) -> keeps_entries m.
Proof.
  intros Hm w r w' H q n Hq. rewrite (Hm _ _ _ H). eauto.
Qed.

Lemma keeps_entries_read_file (p : path) : keeps_entries (read_file p).
Proof.
  apply keeps_entries_same_fs. intros w r w'. unfold read_file.
  destruct (node_at (fs w) p) as [[|c st]|]; try (intros [= <- <-]; auto; fail).
  destruct (check_parent (fs w) (parent p)) as [[]|]; intros [= <- <-]; auto.
Qed.

Lemma keeps_entries_write_file (E : env) (p : path) (c : list byte) :
  keeps_entries (write_file E p c).
Proof.
  intros w r w'. unfold write_file.
  destruct (node_at (fs w) p) as [[|c0 st]|] eqn:Hn.
  - intros [= <- <-] q n Hq. eauto.
  - intros [= <- <-] q n Hq. cbn [fs log tick set_fs].
    destruct (decide (q = p)) as [->|Hne].
    + rewrite lookup_insert_eq. eexists. split; [reflexivity|].
      intros ->. destruct p; [discriminate Hn|]. cbn [node_at] in Hn. congruence.
    + rewrite lookup_insert_ne by congruence. eauto.
  - destruct (check_parent (fs w) (parent p)); intros [= <- <-] q n Hq; [eauto|].
    cbn [fs log tick set_fs].
    destruct (decide (q = p)) as [->|Hne].
    + exfalso. destruct p; [discriminate Hn|]. cbn [node_at] in Hn. congruence.
    + rewrite lookup_insert_ne by congruence. eauto.
Qed.

Lemma keeps_entries_shutil_copystat (src dst : path) :
  keeps_entries (shutil_copystat src dst).
Proof.
  intros w r w'. unfold shutil_copystat.
  destruct (node_at (fs w) src) as [[|c st]|];
    destruct (node_at (fs w) dst) as [[|c' st']|] eqn:Hd;
    intros [= <- <-] q n Hq; eauto.
  cbn [fs log set_fs].
  destruct (decide (q = dst)) as [->|Hne].
  - rewrite lookup_insert_eq. eexists. split; [reflexivity|].
    intros ->. destruct dst; [discriminate Hd|]. cbn [node_at] in Hd. congruence.
  - rewrite lookup_insert_ne by congruence. eauto.
Qed.

Lemma keeps_entries_Path_mkdir_parents (dir : path) :
  keeps_entries (Path_mkdir_parents true dir).
Proof.
  intros w r w'. rewrite Path_mkdir_parents_spec.
  destruct (dirs_clear (fs w) dir); intros [= <- <-] q n Hq; [|eauto].
  unfold after_mkdir. cbn [fs]. rewrite makedirs_lookup, Hq. eauto.
Qed.

Lemma keeps_entries_backup_file (E : env) (p : path) : keeps_entries (backup_file E p).
Proof.
  unfold backup_file. apply keeps_entries_bind.
  { apply keeps_entries_same_fs. now intros w r w' [= <- <-]. }
  intros [|]; [|apply keeps_entries_same_fs; now intros w r w' [= <- <-]].
  apply keeps_entries_bind.
  { apply keeps_entries_same_fs. now intros w r w' [= <- <-]. }
  intros now. unfold shutil_copy2. apply keeps_entries_bind.
  { apply keeps_entries_same_fs. now intros w r w' [= <- <-]. }
  intros isd. apply keeps_entries_bind; [|intros; apply keeps_entries_shutil_copystat].
  unfold shutil_copyfile. destruct (decide _).
  - apply keeps_entries_same_fs. now intros w r w' [= <- <-].
  - apply keeps_entries_bind; [apply keeps_entries_read_file|].
    intros; apply keeps_entries_write_file.
Qed.

(* ===================================================================== *)
(** * The claims *)
(* ===================================================================== *)

(** C3.  On an operating system other than Windows, Darwin and Linux the
    run raises the unsupported-platform [OSError] and leaves the world
    exactly as it found it: no directory made, no backup, nothing read,
    nothing written (the trace of file-system calls is unchanged too). *)
Theorem unsupported_platform_has_no_side_effects (E : env) (w : world) :
  platform_system E <> "Windows" ->
  platform_system E <> "Darwin" ->
  platform_system E <> "Linux" ->
  reset_cursor_id E w
  = (Raise (OSError ("Unsupported operating system: " +:+ platform_system E)), w).
Proof.
  intros HW HD HL.
  apply String.eqb_neq in HW, HD, HL.
  unfold reset_cursor_id, bind, get_storage_file.
  rewrite HW, HD, HL. reflexivity.
Qed.

Lemma unsupported_platform_has_no_side_effects_witness :
  reset_cursor_id freebsd_env (world_with "{}")
  = (Raise (OSError "Unsupported operating system: FreeBSD"), world_with "{}").
Proof.
  apply (unsupported_platform_has_no_side_effects freebsd_env (world_with "{}"));
    cbn; discriminate.
Defined.

(** C9.  On Windows with [APPDATA] unset, path resolution raises
    [TypeError] (from [Path(None)]), not the unsupported-platform error,
    and the run stops there with the world untouched; with [APPDATA] set it
    returns the path under that directory. *)
Theorem windows_path_needs_APPDATA (E : env) (w : world) :
  platform_system E = "Windows" ->
  (environ_APPDATA E = None ->
     get_storage_file E w = (Raise TypeError, w) /\
     reset_cursor_id E w = (Raise TypeError, w)) /\
  (forall appdata, environ_APPDATA E = Some appdata ->
     get_storage_file E w
     = (Ok (appdata // "Cursor" // "User" // "globalStorage" // "storage.json"), w)).
Proof.
  intros HW.
  assert (Heq : String.eqb (platform_system E) "Windows" = true)
    by (rewrite HW; reflexivity).
  split.
  - intros HA. unfold reset_cursor_id, bind, get_storage_file.
    rewrite Heq, HA. split; reflexivity.
  - intros appdata HA. unfold get_storage_file. rewrite Heq, HA. reflexivity.
Qed.

Lemma windows_path_needs_APPDATA_witness :
  get_storage_file windows_env_no_appdata empty_world = (Raise TypeError, empty_world)
  /\ reset_cursor_id windows_env_no_appdata empty_world = (Raise TypeError, empty_world).
Proof.
  apply (windows_path_needs_APPDATA windows_env_no_appdata empty_world);
    reflexivity.
Defined.

Lemma next_backup_path_sibling (E : env) (w : world) (p : path) :
  next_backup_path E w p
  = parent p // (basename p +:+ ".backup_"
                 +:+ strftime_Ymd_HMS (clock E (clock_pos w))).
Proof. unfold next_backup_path, backup_path_of. now destruct p. Qed.

(** C5.  [backup_file path] does nothing and raises nothing when [path]
    does not exist.  When [path] is a file, it succeeds and changes the
    file system at exactly one place: the sibling
    [<path>.backup_<timestamp>], which then holds the content and the
    metadata of the source, the source itself being untouched.  (The
    directory of the file is a directory, and no directory sits at the
    backup path.) *)
Theorem backup_file_contract (E : env) (w : world) (p : path) :
  (exists_at (fs w) p = false -> backup_file E p w = (Ok tt, w)) /\
  (forall (c : list byte) (st : stat),
     node_at (fs w) p = Some (File c st) ->
     isdir_at (fs w) (parent p) = true ->
     isdir_at (fs w) (next_backup_path E w p) = false ->
     exists w',
       backup_file E p w = (Ok tt, w') /\
       fs w' = <[next_backup_path E w p := File c st]> (fs w) /\
       next_backup_path E w p
       = parent p // (basename p +:+ ".backup_"
                      +:+ strftime_Ymd_HMS (clock E (clock_pos w))) /\
       fs w' !! p = Some (File c st)).
Proof.
  split; [apply backup_file_absent|].
  intros c st Hf Hdir Hbp.
  destruct p as [|name dir]; [discriminate|].
  cbn [node_at parent tail] in Hf, Hdir.
  eexists. split; [apply (backup_file_present E w dir name c st Hf Hdir Hbp)|].
  cbn [fs]. split; [reflexivity|]. split; [apply next_backup_path_sibling|].
  rewrite lookup_insert_ne by (symmetry; apply backup_path_fresh). exact Hf.
Qed.

Lemma backup_file_contract_witness :
  exists w',
    backup_file linux_env example_file (world_with "not json") = (Ok tt, w') /\
    fs w' = <[next_backup_path linux_env (world_with "not json") example_file
              := File (str_encode_ascii "not json") example_stat]>
              (fs (world_with "not json")) /\
    next_backup_path linux_env (world_with "not json") example_file
    = parent example_file
        // (basename example_file +:+ ".backup_"
            +:+ strftime_Ymd_HMS (clock linux_env (clock_pos (world_with "not json")))) /\
    fs w' !! example_file = Some (File (str_encode_ascii "not json") example_stat).
Proof.
  apply (proj2 (backup_file_contract linux_env (world_with "not json") example_file));
    vm_compute; reflexivity.
Defined.

(** C7.  Whatever path the backup step creates or changes is the original
    path with its last component extended by [.backup_] and a timestamp of
    the form [YYYYMMDD_HHMMSS] (fourteen digits, an underscore after the
    first eight), in the same directory.  (The clock reading is a valid
    [datetime], and no directory sits at the backup path.) *)
Theorem backup_file_naming (E : env) (w : world) (p : path) (r : result unit)
        (w' : world) (changed : path) :
  datetime_valid (clock E (clock_pos w)) = true ->
  isdir_at (fs w) (next_backup_path E w p) = false ->
  backup_file E p w = (r, w') ->
  fs w' !! changed <> fs w !! changed ->
  exists timestamp : string,
    changed = parent p // (basename p +:+ ".backup_" +:+ timestamp) /\
    matches pattern_timestamp timestamp = true /\
    count_digits timestamp = 14%nat.
Proof.
  intros Hv Hbp Hrun Hch.
  exists (strftime_Ymd_HMS (clock E (clock_pos w))).
  split; [|split; [now apply strftime_matches | now apply strftime_count_digits]].
  rewrite <- next_backup_path_sibling.
  destruct (decide (changed = next_backup_path E w p)) as [->|Hne]; [reflexivity|].
  exfalso. apply Hch. exact (backup_file_frame E p w r w' Hbp Hrun changed Hne).
Qed.

Lemma backup_file_naming_witness :
  exists timestamp : string,
    example_dir // "storage.json.backup_20241210_153000"
    = parent example_file // (basename example_file +:+ ".backup_" +:+ timestamp) /\
    matches pattern_timestamp timestamp = true /\
    count_digits timestamp = 14%nat.
Proof.
  refine (backup_file_naming linux_env (world_with "not json") example_file
            (Ok tt) _ _ _ _
            (backup_file_present linux_env (world_with "not json") example_dir
               "storage.json" (str_encode_ascii "not json") example_stat _ _ _)
            _);
    try (vm_compute; reflexivity).
  vm_compute. discriminate.
Defined.



Lemma storage_file_cons (E : env) (w : world) (p : path) :
  get_storage_file E w = (Ok p, w) -> p = parent p // "storage.json".
Proof.
  intros H. destruct (get_storage_file_name _ _ _ _ H) as [dir ->]. reflexivity.
Qed.




(** C10.  When the configuration file holds valid JSON whose top-level
    value is not an object, loading succeeds and the run raises [TypeError]
    at the first item assignment: the backup has been taken by then (the
    backup path holds a copy), the configuration file still has its content
    and metadata, its directory exists, and the trace ends with the load,
    with no write to the configuration file. *)
Theorem non_object_document_raises_TypeError (E : env) (w : world) (p : path)
        (c : list byte) (st : stat) (v : json) :
  get_storage_file E w = (Ok p, w) ->
  node_at (fs w) p = Some (File c st) ->
  decode_document c = Ok v ->
  is_object v = false ->
  isdir_at (fs w) (parent p) = true ->
  isdir_at (fs w) (next_backup_path E w p) = false ->
  exists w',
    reset_cursor_id E w = (Raise TypeError, w') /\
    fs w' !! p = Some (File c st) /\
    fs w' !! next_backup_path E w p = Some (File c st) /\
    isdir_at (fs w') (parent p) = true /\
    trace w' = trace w ++ [EvRead p; EvWrite (next_backup_path E w p);
                           EvCopystat p (next_backup_path E w p); EvRead p].
Proof.
  intros Hget Hf Hdoc Hv Hdir Hbp.
  destruct (get_storage_file_name _ _ _ _ Hget) as [dir ->].
  cbn [node_at parent tail] in Hf, Hdir |- *.
  eexists. split;
    [exact (reset_existing_not_object E w dir c st v Hget Hf Hdir Hbp Hdoc Hv)|].
  cbn [fs trace log after_backup after_draws]. repeat split.
  - rewrite lookup_insert_ne by (symmetry; apply backup_path_fresh). exact Hf.
  - apply lookup_insert_eq.
  - unfold isdir_at in *. destruct dir as [|n up]; [reflexivity|].
    cbn [node_at] in *. rewrite lookup_insert_ne; [exact Hdir|].
    unfold next_backup_path, backup_path_of. intros Heq.
    apply (f_equal (@length string)) in Heq. cbn [length] in Heq. lia.
  - rewrite <- app_assoc. reflexivity.
Qed.

Lemma non_object_document_raises_TypeError_witness :
  exists w',
    reset_cursor_id linux_env (world_with "[1, 2]") = (Raise TypeError, w') /\
    fs w' !! example_file = Some (File (str_encode_ascii "[1, 2]") example_stat) /\
    fs w' !! next_backup_path linux_env (world_with "[1, 2]") example_file
    = Some (File (str_encode_ascii "[1, 2]") example_stat) /\
    isdir_at (fs w') (parent example_file) = true /\
    trace w'
    = trace (world_with "[1, 2]")
      ++ [EvRead example_file;
          EvWrite (next_backup_path linux_env (world_with "[1, 2]") example_file);
          EvCopystat example_file
            (next_backup_path linux_env (world_with "[1, 2]") example_file);
          EvRead example_file].
Proof.
  apply (non_object_document_raises_TypeError linux_env (world_with "[1, 2]")
           example_file (str_encode_ascii "[1, 2]") example_stat
           (JArray [JInt 1; JInt 2]));
    [reflexivity | vm_compute; reflexivity ..].
Defined.

(** C1.  When the configuration file exists and loads as a JSON object [d],
    the run succeeds and the document it saves is [d] with the three
    telemetry keys set to the identifiers generated by the run, which it
    also prints: every other key has the value it had, and the entries
    under the other keys are the same, in the same order.  The bytes left
    in the file are the text of that document.  When [d] has no float,
    [json.load] reads exactly that document back from them.  When the
    encoder prints each float of [d] as a float text that denotes the same
    float (as the [repr] of a Python float does), [json.load] reads back a
    document with the same keys in the same order and the same values, a
    float being compared by the binary64 number it denotes.  (The directory
    of the file is a directory, and no directory sits at the backup path.) *)
Theorem reset_preserves_unrelated_keys (E : env) (w : world) (p : path)
        (c : list byte) (st : stat) (d : dict) :
  get_storage_file E w = (Ok p, w) ->
  node_at (fs w) p = Some (File c st) ->
  decode_document c = Ok (JObject d) ->
  isdir_at (fs w) (parent p) = true ->
  isdir_at (fs w) (next_backup_path E w p) = false ->
  let pos := entropy_pos w in
  let saved := set_ids E pos d in
  exists w',
    reset_cursor_id E w = (Ok tt, w') /\
    (exists st', fs w' !! p = Some (File (saved_bytes E saved) st')) /\
    (floats_of (JObject d) = [] ->
     decode_document (saved_bytes E saved) = Ok (JObject saved)) /\
    (floats_print_back (floatstr E) (JObject d) ->
     exists again : dict,
       decode_document (saved_bytes E saved) = Ok (JObject again) /\
       same_document (JObject saved) (JObject again)) /\
    stdout w' = stdout w ++ [success_message; report E pos] /\
    dict_get saved key_machineId = Some (JString (str_lit (machine_id_at E pos))) /\
    dict_get saved key_macMachineId
    = Some (JString (str_lit (mac_machine_id_at E pos))) /\
    dict_get saved key_devDeviceId
    = Some (JString (str_lit (dev_device_id_at E pos))) /\
    (forall k, is_id_key k = false -> dict_get saved k = dict_get d k) /\
    List.filter (fun kv => negb (is_id_key (fst kv))) saved
    = List.filter (fun kv => negb (is_id_key (fst kv))) d.
Proof.
  intros Hget Hf Hdoc Hdir Hbp pos saved.
  destruct (get_storage_file_name _ _ _ _ Hget) as [dir ->].
  cbn [node_at parent tail] in Hf, Hdir.
  pose proof (decode_document_well_formed c _ Hdoc) as Hw.
  eexists. split;
    [exact (reset_existing_object E w dir c st d Hget Hf Hdir Hbp Hdoc)|].
  cbn [fs stdout log after_backup after_draws after_save].
  split; [eexists; apply lookup_insert_eq|].
  split; [intros Hnone; now apply saved_document_reads_back_exactly|].
  split.
  { intros Hfloats.
    destruct (saved_document_reads_back E pos d Hw Hfloats) as [Hback Hsame].
    eexists. split; [exact Hback | exact Hsame]. }
  split; [reflexivity|].
  split; [apply set_ids_get_machineId|].
  split; [apply set_ids_get_macMachineId|].
  split; [apply set_ids_get_devDeviceId|].
  split; [intros k Hk; now apply set_ids_get_other | apply set_ids_others].
Qed.

Lemma reset_preserves_unrelated_keys_witness :
  (let E := linux_env in
   let w := world_with example_document in
   let saved := set_ids E 0 example_dict in
   exists w',
     reset_cursor_id E w = (Ok tt, w') /\
     (exists st', fs w' !! example_file = Some (File (saved_bytes E saved) st')) /\
     decode_document (saved_bytes E saved) = Ok (JObject saved) /\
     dict_get saved (str_lit "A") = Some (JInt 1) /\
     dict_keys saved
     = [str_lit "A"; key_machineId; key_macMachineId; key_devDeviceId]) /\
  (let E := linux_env_floats in
   let w := world_with float_document in
   let saved := set_ids E 0 float_dict in
   exists (w' : world) (again : dict),
     reset_cursor_id E w = (Ok tt, w') /\
     (exists st', fs w' !! example_file = Some (File (saved_bytes E saved) st')) /\
     decode_document (saved_bytes E saved) = Ok (JObject again) /\
     same_document (JObject saved) (JObject again) /\
     dict_get saved (str_lit "A") = Some (JFloat (str_lit "1.5"))).
Proof.
  cbv zeta. split.
  - pose proof (reset_preserves_unrelated_keys linux_env (world_with example_document)
                  example_file (str_encode_ascii example_document) example_stat
                  example_dict) as H.
    cbv zeta in H.
    destruct H as (w' & Hrun & Hfile & Hexact & _);
      [reflexivity | vm_compute; reflexivity .. |].
    exists w'. split; [exact Hrun|]. split; [exact Hfile|].
    split; [apply Hexact; reflexivity|].
    split; vm_compute; reflexivity.
  - pose proof (reset_preserves_unrelated_keys linux_env_floats
                  (world_with float_document) example_file
                  (str_encode_ascii float_document) example_stat float_dict) as H.
    cbv zeta in H.
    destruct H as (w' & Hrun & Hfile & _ & Hback & _);
      [reflexivity | vm_compute; reflexivity .. |].
    destruct Hback as (again & Hdec & Hsame); [repeat constructor|].
    exists w', again. split; [exact Hrun|]. split; [exact Hfile|].
    split; [exact Hdec|]. split; [exact Hsame|].
    vm_compute. reflexivity.
Defined.

(** C2.  When the configuration file does not exist (and nothing on the
    way to its directory is a file), the run starts from the empty mapping
    and succeeds: the file it creates holds the document whose entries are
    exactly the three telemetry keys, in the order they are assigned, and
    [json.load] reads that document back from the bytes of the file. *)
Theorem reset_first_run_saves_three_keys (E : env) (w : world) (p : path) :
  get_storage_file E w = (Ok p, w) ->
  node_at (fs w) p = None ->
  dirs_clear (fs w) (parent p) = true ->
  let pos := entropy_pos w in
  let saved :=
    [(key_machineId, JString (str_lit (machine_id_at E pos)));
     (key_macMachineId, JString (str_lit (mac_machine_id_at E pos)));
     (key_devDeviceId, JString (str_lit (dev_device_id_at E pos)))] in
  exists w',
    reset_cursor_id E w = (Ok tt, w') /\
    fs w' !! p
    = Some (File (saved_bytes E saved) (mkStat (create_mode E) (fs_time w))) /\
    decode_document (saved_bytes E saved) = Ok (JObject saved) /\
    dict_keys saved = [key_machineId; key_macMachineId; key_devDeviceId] /\
    trace w' = trace w ++ map EvMkdir (made_dirs (fs w) (parent p)) ++ [EvWrite p].
Proof.
  intros Hget Hf Hc pos saved.
  destruct (get_storage_file_name _ _ _ _ Hget) as [dir ->].
  cbn [node_at parent tail] in Hf, Hc |- *.
  eexists. split; [exact (reset_absent E w dir Hget Hf Hc)|].
  cbn [fs fs_time trace after_mkdir after_draws after_save].
  rewrite set_ids_empty. split; [apply lookup_insert_eq|].
  split; [apply decode_document_text_bytes, three_keys_plain|].
  split; [reflexivity | now rewrite <- app_assoc].
Qed.

Lemma reset_first_run_saves_three_keys_witness :
  let saved :=
    [(key_machineId, JString (str_lit (machine_id_at linux_env 0)));
     (key_macMachineId, JString (str_lit (mac_machine_id_at linux_env 0)));
     (key_devDeviceId, JString (str_lit (dev_device_id_at linux_env 0)))] in
  exists w',
    reset_cursor_id linux_env empty_world = (Ok tt, w') /\
    fs w' !! example_file
    = Some (File (saved_bytes linux_env saved) (mkStat 420 0)) /\
    decode_document (saved_bytes linux_env saved) = Ok (JObject saved) /\
    dict_keys saved = [key_machineId; key_macMachineId; key_devDeviceId] /\
    trace w' = [] ++ map EvMkdir (made_dirs ∅ (parent example_file))
               ++ [EvWrite example_file].
Proof.
  apply (reset_first_run_saves_three_keys linux_env empty_world example_file);
    [reflexivity | vm_compute; reflexivity ..].
Defined.

Lemma urandom_length (E : env) (pos n : nat) :
  length (map (urandom_source E) (seq pos n)) = n.
Proof. now rewrite length_map, length_seq. Qed.

(** C6.  In every run that succeeds, the saved document and the printed
    report carry the identifiers drawn at the entry position of the random
    stream; the two machine identifiers match [^[0-9a-f]{64}$] (the hex
    encoding of 32 bytes) and the device identifier matches the canonical
    version-4 UUID pattern (36 characters). *)
Theorem generated_identifiers_have_their_formats (E : env) (w w' : world) :
  reset_cursor_id E w = (Ok tt, w') ->
  let pos := entropy_pos w in
  (exists (p : path) (d : dict) (st' : stat),
     get_storage_file E w = (Ok p, w) /\
     fs w' !! p = Some (File (saved_bytes E (set_ids E pos d)) st') /\
     stdout w' = stdout w ++ [success_message; report E pos]) /\
  matches pattern_hex64 (machine_id_at E pos) = true /\
  matches pattern_hex64 (mac_machine_id_at E pos) = true /\
  matches pattern_uuid4 (dev_device_id_at E pos) = true /\
  String.length (dev_device_id_at E pos) = 36%nat.
Proof.
  intros Hrun pos. split; [exact (reset_success E w w' Hrun)|].
  split; [apply bytes_hex_matches, urandom_length|].
  split; [apply bytes_hex_matches, urandom_length|].
  split; [apply UUID_str_matches|].
  unfold dev_device_id_at, UUID_str, hex32. reflexivity.
Qed.

Lemma generated_identifiers_have_their_formats_witness :
  matches pattern_hex64 (machine_id_at linux_env 0) = true /\
  matches pattern_hex64 (mac_machine_id_at linux_env 0) = true /\
  matches pattern_uuid4 (dev_device_id_at linux_env 0) = true /\
  String.length (dev_device_id_at linux_env 0) = 36%nat.
Proof.
  refine (proj2 (generated_identifiers_have_their_formats linux_env
                   (world_with example_document) _
                   (reset_existing_object linux_env (world_with example_document)
                      example_dir (str_encode_ascii example_document)
                      example_stat example_dict _ _ _ _ _)));
    [reflexivity | vm_compute; reflexivity ..].
Defined.

(** Two runs within the same second: the second backup has the name of the
    first and replaces it, so a single backup file is left, and it holds
    the document saved by the first run, not the original one. *)
Lemma successive_runs_in_one_second_leave_one_backup :
  let w0 := world_with example_document in
  let run1 := reset_cursor_id linux_env_frozen w0 in
  let run2 := reset_cursor_id linux_env_frozen (snd run1) in
  exists_at (fs w0) example_file = true /\
  fst run1 = Ok tt /\
  exists_at (fs (snd run1)) example_file = true /\
  fst run2 = Ok tt /\
  machine_id_at linux_env_frozen (entropy_pos w0)
    <> machine_id_at linux_env_frozen (entropy_pos (snd run1)) /\
  backups_of (fs (snd run2)) example_file
  = [example_dir // "storage.json.backup_20241210_153000"] /\
  fs (snd run2) !! (example_dir // "storage.json.backup_20241210_153000")
  = Some (File (saved_bytes linux_env_frozen
                  (set_ids linux_env_frozen 0 example_dict))
               (mkStat 384 11)).
Proof.
  cbv zeta.
  split; [vm_compute; reflexivity|].
  split; [vm_compute; reflexivity|].
  split; [vm_compute; reflexivity|].
  split; [vm_compute; reflexivity|].
  split; [vm_compute; discriminate|].
  split; vm_compute; reflexivity.
Qed.

(** C8, as amended.  Two successive runs on a configuration file that
    loads as a JSON object each time, with clock readings that render to
    different timestamps, both succeed and leave two distinct backup files:
    the first holds the original content, the second the document saved by
    the first run.  The second run draws its identifiers 80 bytes further
    down the random stream, and a machine identifier of the second run
    equals that of the first exactly when the 32 bytes drawn are equal. *)
Theorem successive_runs_with_distinct_timestamps (E : env) (w : world)
        (p : path) (c : list byte) (st : stat) (d d1 : dict) :
  get_storage_file E w = (Ok p, w) ->
  node_at (fs w) p = Some (File c st) ->
  decode_document c = Ok (JObject d) ->
  isdir_at (fs w) (parent p) = true ->
  let pos := entropy_pos w in
  let timestamp1 := strftime_Ymd_HMS (clock E (clock_pos w)) in
  let timestamp2 := strftime_Ymd_HMS (clock E (S (clock_pos w))) in
  let backup1 := backup_path_of p timestamp1 in
  let backup2 := backup_path_of p timestamp2 in
  let saved1 := saved_bytes E (set_ids E pos d) in
  isdir_at (fs w) backup1 = false ->
  isdir_at (fs w) backup2 = false ->
  decode_document saved1 = Ok (JObject d1) ->
  timestamp1 <> timestamp2 ->
  exists w1 w2,
    reset_cursor_id E w = (Ok tt, w1) /\
    reset_cursor_id E w1 = (Ok tt, w2) /\
    backup1 <> backup2 /\
    fs w2 !! backup1 = Some (File c st) /\
    (exists st1, fs w2 !! backup2 = Some (File saved1 st1)) /\
    entropy_pos w1 = (pos + 32 + 32 + 16)%nat /\
    (machine_id_at E (entropy_pos w1) = machine_id_at E pos <->
     map (urandom_source E) (seq (entropy_pos w1) 32)
     = map (urandom_source E) (seq pos 32)) /\
    (mac_machine_id_at E (entropy_pos w1) = mac_machine_id_at E pos <->
     map (urandom_source E) (seq (entropy_pos w1 + 32) 32)
     = map (urandom_source E) (seq (pos + 32) 32)).
Proof.
  intros Hget Hf Hdoc Hdir pos ts1 ts2 bp1 bp2 saved1 Hbp1 Hbp2 Hdoc1 Hts.
  destruct (get_storage_file_name _ _ _ _ Hget) as [dir ->].
  cbn [node_at parent tail] in Hf, Hdir.
  set (p := dir // "storage.json") in *.
  assert (Hne12 : bp1 <> bp2).
  { intros Heq. apply Hts. exact (backup_path_of_inj _ _ _ _ Heq). }
  assert (Hp1 : p <> bp1) by apply backup_path_fresh.
  assert (Hp2 : p <> bp2) by apply backup_path_fresh.
  pose proof (reset_existing_object E w dir c st d Hget Hf Hdir Hbp1 Hdoc) as Hrun1.
  fold p in Hrun1.
  set (w1 := after_save E
               (after_draws (log (EvRead p) (after_backup E w p c st))) p
               (saved_bytes E (set_ids E (entropy_pos w) d)) (st_mode st)
               (entropy_pos w)) in *.
  assert (Hfs1 : fs w1 = <[p := File saved1 (mkStat (st_mode st) (fs_time w + 1))]>
                           (<[bp1 := File c st]> (fs w))) by reflexivity.
  assert (Hget1 : get_storage_file E w1 = (Ok p, w1))
    by (apply (get_storage_file_state _ _ _ _ Hget)).
  assert (Hf1 : fs w1 !! p = Some (File saved1 (mkStat (st_mode st) (fs_time w + 1))))
    by (rewrite Hfs1; apply lookup_insert_eq).
  assert (Hdir1 : isdir_at (fs w1) dir = true).
  { unfold isdir_at in *. destruct dir as [|n up]; [reflexivity|].
    cbn [node_at] in *. rewrite Hfs1.
    rewrite lookup_insert_ne by (unfold p; intros H;
      apply (f_equal (@length string)) in H; cbn [length] in H; lia).
    rewrite lookup_insert_ne by apply backup_path_not_dir. exact Hdir. }
  assert (Hnext : next_backup_path E w1 p = bp2) by reflexivity.
  assert (He1 : entropy_pos w1 = (pos + 32 + 32 + 16)%nat) by reflexivity.
  clearbody w1.
  assert (Hbp2' : isdir_at (fs w1) (next_backup_path E w1 p) = false).
  { rewrite Hnext. unfold isdir_at in *. unfold bp2, p, backup_path_of in *.
    cbn [node_at] in *. rewrite Hfs1.
    rewrite !lookup_insert_ne by (unfold bp1, bp2, p, backup_path_of in *; congruence).
    exact Hbp2. }
  pose proof (reset_existing_object E w1 dir saved1 _ d1 Hget1 Hf1 Hdir1 Hbp2' Hdoc1)
    as Hrun2.
  fold p in Hrun2.
  exists w1. eexists. split; [exact Hrun1|]. split; [exact Hrun2|].
  split; [exact Hne12|].
  cbn [fs log after_backup after_draws after_save].
  rewrite Hnext.
  split.
  { rewrite lookup_insert_ne by congruence.
    rewrite lookup_insert_ne by congruence.
    rewrite Hfs1. rewrite lookup_insert_ne by congruence.
    apply lookup_insert_eq. }
  split.
  { eexists. rewrite lookup_insert_ne by congruence. apply lookup_insert_eq. }
  split; [exact He1|].
  unfold machine_id_at, mac_machine_id_at.
  split; (split; [apply bytes_hex_inj | intros ->; reflexivity]).
Qed.

Lemma successive_runs_with_distinct_timestamps_witness :
  let E := linux_env in
  let w := world_with example_document in
  let backup1 := example_dir // "storage.json.backup_20241210_153000" in
  let backup2 := example_dir // "storage.json.backup_20241210_153001" in
  let saved1 := saved_bytes E (set_ids E 0 example_dict) in
  exists w1 w2,
    reset_cursor_id E w = (Ok tt, w1) /\
    reset_cursor_id E w1 = (Ok tt, w2) /\
    backup1 <> backup2 /\
    fs w2 !! backup1 = Some (File (str_encode_ascii example_document) example_stat) /\
    (exists st1, fs w2 !! backup2 = Some (File saved1 st1)) /\
    entropy_pos w1 = (0 + 32 + 32 + 16)%nat /\
    (machine_id_at E (entropy_pos w1) = machine_id_at E 0 <->
     map (urandom_source E) (seq (entropy_pos w1) 32)
     = map (urandom_source E) (seq 0 32)) /\
    (mac_machine_id_at E (entropy_pos w1) = mac_machine_id_at E 0 <->
     map (urandom_source E) (seq (entropy_pos w1 + 32) 32)
     = map (urandom_source E) (seq (0 + 32) 32)).
Proof.
  cbv zeta.
  refine (successive_runs_with_distinct_timestamps linux_env
            (world_with example_document) example_file
            (str_encode_ascii example_document) example_stat example_dict
            (set_ids linux_env 0 example_dict) _ _ _ _ _ _ _ _);
    [reflexivity | vm_compute; reflexivity .. | vm_compute; discriminate].
Defined.

(* ===================================================================== *)
(** * Further properties of the script *)
(* ===================================================================== *)

(** The errors that the structure of the paths causes are modelled with the
    kinds a POSIX system gives them; a property that names such a kind is
    stated for the platforms other than Windows. *)

(** X3.  Whatever the state of the file system and whether it succeeds
    or raises, [backup_file] never changes the file it is given, changes no
    path other than the one [copy2] writes to, draws no random bytes,
    prints nothing, and reads the clock exactly when the file exists. *)
Theorem backup_file_footprint (E : env) (p : path) (w : world) :
  let w' := snd (backup_file E p w) in
  fs w' !! p = fs w !! p /\
  (forall q, q <> backup_target E w p -> fs w' !! q = fs w !! q) /\
  entropy_pos w' = entropy_pos w /\
  stdout w' = stdout w /\
  clock_pos w' = (if exists_at (fs w) p then S (clock_pos w) else clock_pos w).
Proof.
  cbv zeta. destruct (backup_file E p w) as [r w'] eqn:Hbk. cbn [snd].
  destruct (quiet_backup_file E p _ _ _ Hbk) as [He Hs].
  split.
  { apply (backup_file_touches E p w r w' Hbk).
    intros H. exact (backup_target_not_source E w p (eq_sym H)). }
  split; [exact (backup_file_touches E p w r w' Hbk)|].
  split; [exact He|]. split; [exact Hs|].
  exact (backup_file_clock E p w r w' Hbk).
Qed.

(** X5.  When a directory already has the name of the backup, [copy2]
    puts the copy inside that directory, under the name of the source: the
    backup step succeeds, the directory entry itself is unchanged, and the
    content and metadata of the source are found one level deeper. *)
Theorem backup_into_existing_directory (E : env) (w : world) (dir : path)
        (name : string) (c : list byte) (st : stat) :
  let backup_path := next_backup_path E w (dir // name) in
  fs w !! (dir // name) = Some (File c st) ->
  isdir_at (fs w) backup_path = true ->
  isdir_at (fs w) (backup_path // name) = false ->
  exists w',
    backup_file E (dir // name) w = (Ok tt, w') /\
    fs w' = <[backup_path // name := File c st]> (fs w) /\
    fs w' !! backup_path = fs w !! backup_path /\
    trace w' = trace w ++ [EvRead (dir // name); EvWrite (backup_path // name);
                           EvCopystat (dir // name) (backup_path // name)].
Proof.
  intros bp Hf Hbd Hnd.
  assert (Hne : dir // name <> bp // name).
  { intros H. apply (f_equal (@length string)) in H.
    unfold bp, next_backup_path, backup_path_of in H. cbn [length] in H. lia. }
  assert (Hnb : bp // name <> bp).
  { intros H. apply (f_equal (@length string)) in H. cbn [length] in H. lia. }
  unfold backup_file, bind at 1, os_path_exists, exists_at.
  cbn [node_at]. rewrite Hf.
  unfold bind at 1, datetime_now. fold (next_backup_path E w (dir // name)). fold bp.
  unfold shutil_copy2, bind at 1, os_path_isdir. simpl_world.
  rewrite Hbd. cbn [basename hd].
  unfold shutil_copyfile.
  destruct (decide (name :: dir = name :: bp)) as [Heq|_]; [contradiction|].
  unfold bind.
  rewrite (read_file_ok _ _ c st) by exact Hf. simpl_world.
  rewrite write_file_ok; simpl_world; [| exact Hnd | right; exact Hbd].
  erewrite shutil_copystat_ok; simpl_world.
  - eexists. split; [reflexivity|]. simpl_world.
    rewrite insert_insert_eq, <- !app_assoc.
    split; [reflexivity|]. split; [|reflexivity].
    apply lookup_insert_ne. exact Hnb.
  - cbn [node_at]. rewrite lookup_insert_ne by congruence. exact Hf.
  - cbn [node_at]. apply lookup_insert_eq.
Qed.

Lemma backup_into_existing_directory_witness :
  let backup_path := example_dir // "storage.json.backup_20241210_153000" in
  exists w',
    backup_file linux_env example_file backup_dir_world = (Ok tt, w') /\
    fs w' = <[backup_path // "storage.json" := File (str_encode_ascii "{}") example_stat]>
              (fs backup_dir_world) /\
    fs w' !! backup_path = fs backup_dir_world !! backup_path /\
    trace w' = trace backup_dir_world
               ++ [EvRead example_file; EvWrite (backup_path // "storage.json");
                   EvCopystat example_file (backup_path // "storage.json")].
Proof.
  apply (backup_into_existing_directory linux_env backup_dir_world example_dir
           "storage.json" (str_encode_ascii "{}") example_stat);
    vm_compute; reflexivity.
Defined.



(** X7.  For valid clock readings, the backup path determines the
    reading to the second: two backups of one file have the same name exactly
    when year, month, day, hour, minute and second all agree. *)
Theorem backup_names_differ_by_second (dir : path) (name : string) (d d' : datetime) :
  datetime_valid d = true -> datetime_valid d' = true ->
  (backup_path_of (dir // name) (strftime_Ymd_HMS d)
   = backup_path_of (dir // name) (strftime_Ymd_HMS d') <-> d = d').
Proof.
  intros Hv Hv'. split; [|intros ->; reflexivity].
  intros H. apply backup_path_of_inj in H. now apply strftime_inj.
Qed.

Lemma backup_names_differ_by_second_witness :
  backup_path_of example_file (strftime_Ymd_HMS example_datetime)
  = backup_path_of example_file (strftime_Ymd_HMS (ticking_clock 0))
  <-> example_datetime = ticking_clock 0.
Proof.
  apply (backup_names_differ_by_second example_dir "storage.json"); reflexivity.
Defined.

(** X8.  [Path.mkdir(parents=True, exist_ok=True)], as line 67 calls it:
    it succeeds exactly when the first existing entry met on the way up from
    the directory is a directory; then the directory exists afterwards and
    the trace lists the directories made, outermost first; otherwise it
    raises with the world unchanged.  In both cases every existing entry is
    kept as it was, and every new entry is a directory on the way to the
    requested one. *)
Theorem mkdir_parents_exist_ok (dir : path) (w : world) (r : result unit)
        (w' : world) :
  Path_mkdir_parents true dir w = (r, w') ->
  (r = Ok tt <-> dirs_clear (fs w) dir = true) /\
  (r = Ok tt ->
     isdir_at (fs w') dir = true /\
     trace w' = trace w ++ map EvMkdir (made_dirs (fs w) dir)) /\
  (dirs_clear (fs w) dir = false -> (exists e, r = Raise e) /\ w' = w) /\
  (forall q n, fs w !! q = Some n -> fs w' !! q = Some n) /\
  (forall q, fs w !! q = None -> fs w' !! q <> None ->
     fs w' !! q = Some Dir /\ q `suffix_of` dir).
Proof.
  rewrite Path_mkdir_parents_spec.
  destruct (dirs_clear (fs w) dir) eqn:Hc; intros [= <- <-].
  - split; [tauto|]. split.
    { intros _. split; [now apply makedirs_isdir | reflexivity]. }
    split; [discriminate|]. unfold after_mkdir. cbn [fs]. split.
    + intros q n Hq. now rewrite makedirs_lookup, Hq.
    + intros q Hq. rewrite makedirs_lookup, Hq.
      destruct (bool_decide (q ∈ made_dirs (fs w) dir)) eqn:Hin; [|congruence].
      apply bool_decide_eq_true_1 in Hin. apply made_dirs_suffix in Hin.
      intros _. tauto.
  - split; [split; discriminate|]. split; [discriminate|].
    split; [eauto|]. split; [auto | congruence].
Qed.

Lemma mkdir_parents_exist_ok_witness :
  (Ok tt = Ok tt <-> dirs_clear (fs empty_world) example_dir = true) /\
  (Ok tt = Ok tt ->
     isdir_at (fs (after_mkdir empty_world example_dir)) example_dir = true /\
     trace (after_mkdir empty_world example_dir)
     = trace empty_world ++ map EvMkdir (made_dirs (fs empty_world) example_dir)) /\
  (dirs_clear (fs empty_world) example_dir = false ->
     (exists e, Ok tt = Raise e) /\
     after_mkdir empty_world example_dir = empty_world) /\
  (forall q n, fs empty_world !! q = Some n ->
     fs (after_mkdir empty_world example_dir) !! q = Some n) /\
  (forall q, fs empty_world !! q = None ->
     fs (after_mkdir empty_world example_dir) !! q <> None ->
     fs (after_mkdir empty_world example_dir) !! q = Some Dir /\
     q `suffix_of` example_dir).
Proof.
  apply (mkdir_parents_exist_ok example_dir empty_world (Ok tt)
           (after_mkdir empty_world example_dir)).
  apply Path_mkdir_parents_clear. reflexivity.
Defined.

(** X9.  When a regular file stands where a directory of the storage path
    should be, the run raises at line 67 and leaves the world exactly as it
    found it: no directory, no backup, nothing printed.  On a POSIX platform
    the error is [FileExistsError] when the file is at the directory of
    [storage.json] itself and [NotADirectoryError] when it is further up. *)
Theorem run_blocked_by_a_file (E : env) (w : world) (p : path) :
  get_storage_file E w = (Ok p, w) ->
  dirs_clear (fs w) (parent p) = false ->
  exists e,
    reset_cursor_id E w = (Raise e, w) /\
    (platform_system E <> "Windows" ->
     e = if exists_at (fs w) (parent p) then FileExistsError
         else NotADirectoryError).
Proof.
  intros Hget Hc. eexists. split.
  - rewrite (reset_steps E w p Hget).
    rewrite Path_mkdir_parents_spec, Hc. reflexivity.
  - intros _. reflexivity.
Qed.

Lemma run_blocked_by_a_file_witness :
  exists e,
    reset_cursor_id linux_env blocked_world = (Raise e, blocked_world) /\
    (platform_system linux_env <> "Windows" ->
     e = if exists_at (fs blocked_world) (parent example_file)
         then FileExistsError else NotADirectoryError).
Proof.
  apply (run_blocked_by_a_file linux_env blocked_world example_file);
    [reflexivity | vm_compute; reflexivity].
Defined.

(** X10.  When [storage.json] is a directory, [os.path.exists] holds, the
    timestamp is taken and [copy2] raises on opening the source
    ([IsADirectoryError] on a POSIX platform): the backup step and the whole
    run stop there, having read the clock once and changed nothing else. *)
Theorem run_when_storage_path_is_a_directory (E : env) (w : world) (p : path) :
  get_storage_file E w = (Ok p, w) ->
  node_at (fs w) p = Some Dir ->
  isdir_at (fs w) (parent p) = true ->
  exists e,
    backup_file E p w = (Raise e, after_clock w) /\
    reset_cursor_id E w = (Raise e, after_clock w) /\
    (platform_system E <> "Windows" -> e = IsADirectoryError).
Proof.
  intros Hget Hd Hpar.
  pose proof (backup_file_directory E p w Hd) as Hbk.
  exists IsADirectoryError. split; [exact Hbk|]. split; [|reflexivity].
  rewrite (reset_steps E w p Hget).
  rewrite Path_mkdir_parents_isdir by exact Hpar. rewrite Hbk. reflexivity.
Qed.

Lemma run_when_storage_path_is_a_directory_witness :
  exists e,
    backup_file linux_env example_file directory_world
    = (Raise e, after_clock directory_world) /\
    reset_cursor_id linux_env directory_world = (Raise e, after_clock directory_world) /\
    (platform_system linux_env <> "Windows" -> e = IsADirectoryError).
Proof.
  apply (run_when_storage_path_is_a_directory linux_env directory_world example_file);
    [reflexivity | vm_compute; reflexivity ..].
Defined.

(** X11.  An empty [storage.json], or one holding only JSON white space,
    does not decode ([JSONDecodeError]): the run takes its backup and then
    raises at line 77, before any identifier is generated. *)
Theorem run_on_blank_file (E : env) (w : world) (p : path) (c : list byte)
        (st : stat) :
  get_storage_file E w = (Ok p, w) ->
  node_at (fs w) p = Some (File c st) ->
  forallb is_ws (map Byte.to_N c) = true ->
  isdir_at (fs w) (parent p) = true ->
  isdir_at (fs w) (next_backup_path E w p) = false ->
  decode_document c = Raise JSONDecodeError /\
  reset_cursor_id E w
  = (Raise JSONDecodeError, log (EvRead p) (after_backup E w p c st)).
Proof.
  intros Hget Hf Hws Hdir Hbp.
  pose proof (blank_document c Hws) as Hdoc. split; [exact Hdoc|].
  destruct (get_storage_file_name _ _ _ _ Hget) as [dir ->].
  cbn [node_at parent tail] in Hf, Hdir.
  exact (reset_existing_malformed E w dir c st _ Hget Hf Hdir Hbp Hdoc).
Qed.

Lemma run_on_blank_file_witness :
  let w := world_with "" in
  decode_document [] = Raise JSONDecodeError /\
  reset_cursor_id linux_env w
  = (Raise JSONDecodeError,
     log (EvRead example_file) (after_backup linux_env w example_file [] example_stat)).
Proof.
  cbv zeta.
  apply (run_on_blank_file linux_env (world_with "") example_file [] example_stat);
    [reflexivity | vm_compute; reflexivity ..].
Defined.

(** X12.  A file that starts with the UTF-8 byte order mark never loads:
    [encoding='utf-8'] keeps the mark as U+FEFF and the decoder rejects it
    ([JSONDecodeError]), unless the rest is not UTF-8 at all
    ([UnicodeDecodeError]). *)
Theorem byte_order_mark_is_rejected (rest : list byte) :
  decode_document (Byte.xef :: Byte.xbb :: Byte.xbf :: rest)
  = Raise (match utf8_decode rest with
           | Some _ => JSONDecodeError
           | None => UnicodeDecodeError
           end).
Proof.
  unfold decode_document, utf8_decode. cbn [map].
  change (utf8_decode_N (Byte.to_N Byte.xef :: Byte.to_N Byte.xbb :: Byte.to_N Byte.xbf
                           :: map Byte.to_N rest))
    with (cons 65279%N <$> utf8_decode_N (map Byte.to_N rest)).
  destruct (utf8_decode_N (map Byte.to_N rest)) as [t|]; [|reflexivity].
  cbn [fmap option_fmap option_map].
  change (universal_newlines (65279%N :: t)) with (65279%N :: universal_newlines t).
  unfold json_loads.
  change (skip_ws (65279%N :: universal_newlines t))
    with (65279%N :: universal_newlines t).
  cbn [length]. rewrite Nat.mul_succ_r, Nat.add_comm. cbn [Nat.add].
  rewrite scan_once_S. reflexivity.
Qed.

(** X13.  A JSON object that [json.loads] returns has no repeated key
    (a repeated name in the text keeps its first position and its last
    value), so the mapping that lines 85-87 update is a proper dictionary. *)
Theorem loaded_object_has_distinct_keys (s : pystr) (d : dict) :
  json_loads s = Some (JObject d) -> NoDup (dict_keys d).
Proof.
  unfold json_loads.
  destruct (scan_once _ _) as [[v rest]|] eqn:Hs; [|discriminate].
  destruct (skip_ws rest); [|discriminate].
  intros [= ->]. exact (scan_once_object_NoDup _ _ _ _ Hs).
Qed.

Lemma loaded_object_has_distinct_keys_witness :
  NoDup (dict_keys example_dict).
Proof.
  apply (loaded_object_has_distinct_keys (str_lit example_document)).
  vm_compute. reflexivity.
Defined.

(** X15.  The footprint of a run, whatever its outcome: a path whose entry
    differs afterwards is the storage file, or the path [copy2] writes the
    backup to, or a directory on the way to the storage file that did not
    exist and has been made. *)
Theorem run_changes_only_its_files (E : env) (w : world) (r : result unit)
        (w' : world) (p q : path) :
  get_storage_file E w = (Ok p, w) ->
  reset_cursor_id E w = (r, w') ->
  fs w' !! q <> fs w !! q ->
  q = p \/ q = backup_target E w p \/
  (q `suffix_of` parent p /\ fs w !! q = None /\ fs w' !! q = Some Dir).
Proof.
  intros Hget Hrun Hch.
  destruct (decide (q = p)) as [|Hq]; [auto|].
  destruct (decide (q = backup_target E w p)) as [|Hqb]; [auto|].
  right. right.
  destruct (get_storage_file_name _ _ _ _ Hget) as [dir ->]. cbn [parent tail].
  rewrite (reset_fs_elsewhere E w dir r w' q Hget Hrun Hq Hqb) in Hch |- *.
  destruct (dirs_clear (fs w) dir); [|congruence].
  rewrite makedirs_lookup in Hch |- *.
  destruct (fs w !! q) as [n|]; [congruence|].
  destruct (bool_decide (q ∈ made_dirs (fs w) dir)) eqn:Hin; [|congruence].
  apply bool_decide_eq_true_1 in Hin. apply made_dirs_suffix in Hin. tauto.
Qed.

Lemma run_changes_only_its_files_witness :
  example_dir = example_file \/
  example_dir = backup_target linux_env empty_world example_file \/
  (example_dir `suffix_of` parent example_file /\
   fs empty_world !! example_dir = None /\
   fs (after_save linux_env (after_draws (after_mkdir empty_world example_dir))
         example_file (saved_bytes linux_env (set_ids linux_env 0 []))
         420 0) !! example_dir = Some Dir).
Proof.
  refine (run_changes_only_its_files linux_env empty_world (Ok tt) _ example_file
            example_dir _ (reset_absent linux_env empty_world example_dir _ _ _) _);
    [reflexivity | reflexivity | vm_compute; reflexivity ..| vm_compute; discriminate].
Defined.

(** X16.  Every run that succeeds has drawn exactly 80 bytes from
    [os.urandom] (32 + 32 + 16), has read the clock once if the storage file
    existed and not at all otherwise, and leaves the storage file in
    existence inside an existing directory; it can only succeed when no file
    was in the way of that directory. *)
Theorem successful_run_resources (E : env) (w w' : world) :
  reset_cursor_id E w = (Ok tt, w') ->
  exists p,
    get_storage_file E w = (Ok p, w) /\
    entropy_pos w' = (entropy_pos w + 80)%nat /\
    clock_pos w' = (if exists_at (fs w) p then S (clock_pos w) else clock_pos w) /\
    dirs_clear (fs w) (parent p) = true /\
    isdir_at (fs w') (parent p) = true /\
    exists_at (fs w') p = true.
Proof.
  intros Hrun.
  destruct (reset_success E w w' Hrun) as (p & d & st' & Hget & Hf & _).
  exists p. split; [exact Hget|].
  destruct (get_storage_file_name _ _ _ _ Hget) as [dir ->]. cbn [parent tail].
  destruct (reset_ok_facts E w dir w' Hget Hrun) as (He & Hc & Hcl & Hd).
  repeat (split; [assumption|]).
  unfold exists_at. cbn [node_at]. now rewrite Hf.
Qed.

Lemma successful_run_resources_witness :
  let w := empty_world in
  let w' := after_save linux_env (after_draws (after_mkdir empty_world example_dir))
              example_file (saved_bytes linux_env (set_ids linux_env 0 [])) 420 0 in
  exists p,
    get_storage_file linux_env w = (Ok p, w) /\
    entropy_pos w' = (entropy_pos w + 80)%nat /\
    clock_pos w' = (if exists_at (fs w) p then S (clock_pos w) else clock_pos w) /\
    dirs_clear (fs w) (parent p) = true /\
    isdir_at (fs w') (parent p) = true /\
    exists_at (fs w') p = true.
Proof.
  cbv zeta.
  refine (successful_run_resources linux_env empty_world _
            (reset_absent linux_env empty_world example_dir _ _ _));
    [reflexivity | vm_compute; reflexivity ..].
Defined.

(** X17.  In a successful run on an existing configuration the backup is
    complete before the file is rewritten: afterwards the backup path holds
    the original content and metadata, the storage file holds the new
    document with its permission bits unchanged and a new modification time,
    and the trace is read, write backup, copystat, read, write. *)
Theorem successful_run_keeps_the_original (E : env) (w : world) (p : path)
        (c : list byte) (st : stat) (d : dict) :
  get_storage_file E w = (Ok p, w) ->
  node_at (fs w) p = Some (File c st) ->
  decode_document c = Ok (JObject d) ->
  isdir_at (fs w) (parent p) = true ->
  isdir_at (fs w) (next_backup_path E w p) = false ->
  let backup_path := next_backup_path E w p in
  exists w',
    reset_cursor_id E w = (Ok tt, w') /\
    fs w' = <[p := File (saved_bytes E (set_ids E (entropy_pos w) d))
                        (mkStat (st_mode st) (fs_time w + 1))]>
              (<[backup_path := File c st]> (fs w)) /\
    fs w' !! backup_path = Some (File c st) /\
    fs_time w' = (fs_time w + 2)%N /\
    trace w' = trace w ++ [EvRead p; EvWrite backup_path; EvCopystat p backup_path;
                           EvRead p; EvWrite p].
Proof.
  intros Hget Hf Hdoc Hdir Hbp bp.
  destruct (get_storage_file_name _ _ _ _ Hget) as [dir ->].
  cbn [node_at parent tail] in Hf, Hdir.
  eexists. split;
    [exact (reset_existing_object E w dir c st d Hget Hf Hdir Hbp Hdoc)|].
  cbn [fs fs_time trace log after_backup after_draws after_save]. fold bp.
  split; [reflexivity|]. split.
  { rewrite lookup_insert_ne by apply backup_path_fresh. apply lookup_insert_eq. }
  split; [lia|]. rewrite <- !app_assoc. reflexivity.
Qed.

Lemma successful_run_keeps_the_original_witness :
  let E := linux_env in
  let w := world_with example_document in
  let backup_path := next_backup_path E w example_file in
  exists w',
    reset_cursor_id E w = (Ok tt, w') /\
    fs w' = <[example_file := File (saved_bytes E (set_ids E (entropy_pos w) example_dict))
                        (mkStat (st_mode example_stat) (fs_time w + 1))]>
              (<[backup_path := File (str_encode_ascii example_document) example_stat]>
                 (fs w)) /\
    fs w' !! backup_path = Some (File (str_encode_ascii example_document) example_stat) /\
    fs_time w' = (fs_time w + 2)%N /\
    trace w' = trace w ++ [EvRead example_file; EvWrite backup_path;
                           EvCopystat example_file backup_path;
                           EvRead example_file; EvWrite example_file].
Proof.
  cbv zeta.
  apply (successful_run_keeps_the_original linux_env (world_with example_document)
           example_file (str_encode_ascii example_document) example_stat example_dict);
    [reflexivity | vm_compute; reflexivity ..].
Defined.

(** X18.  [uuid4] keeps 122 of the 128 random bits: bits 63 and 78 are
    set, bits 62, 76, 77 and 79 are cleared (variant [10], version [0100]),
    and every other bit is the bit of the 16 bytes read as a big-endian
    integer; for 16 bytes the result is below [2^128], so its hexadecimal
    text has 32 digits. *)
Theorem UUID_v4_bits (bs : list byte) :
  (forall i : Z,
     Z.testbit (UUID_v4 bs) i
     = if (i =? 63)%Z || (i =? 78)%Z then true
       else if (i =? 62)%Z || (i =? 76)%Z || (i =? 77)%Z || (i =? 79)%Z then false
       else Z.testbit (int_from_bytes bs) i) /\
  (length bs = 16%nat -> (0 <= UUID_v4 bs < 2 ^ 128)%Z).
Proof.
  assert (Hbits : forall i : Z,
            Z.testbit (UUID_v4 bs) i
            = if (i =? 63)%Z || (i =? 78)%Z then true
              else if (i =? 62)%Z || (i =? 76)%Z || (i =? 77)%Z || (i =? 79)%Z
                   then false
                   else Z.testbit (int_from_bytes bs) i).
  { intros i.
    destruct (Z_lt_le_dec i 0) as [Hneg|Hi].
    { rewrite !Z.testbit_neg_r by exact Hneg.
      destruct (Z.eqb_spec i 63); [lia|]. destruct (Z.eqb_spec i 78); [lia|].
      destruct (Z.eqb_spec i 62); [lia|]. destruct (Z.eqb_spec i 76); [lia|].
      destruct (Z.eqb_spec i 77); [lia|]. destruct (Z.eqb_spec i 79); [lia|].
      reflexivity. }
    unfold UUID_v4. cbv zeta.
    rewrite Z.lor_spec, Z.land_spec, Z.lor_spec, Z.land_spec, !Z.lnot_spec by exact Hi.
    rewrite (testbit_const (Z.shiftl 49152 48) (fun i => (i =? 62) || (i =? 63))%Z i);
      [| vm_compute; split; [discriminate | reflexivity] | vm_compute; reflexivity
       | intros j Hj; destruct (Z.eqb_spec j 62); [lia|];
         destruct (Z.eqb_spec j 63); [lia | reflexivity]
       | exact Hi].
    rewrite (testbit_const (Z.shiftl 32768 48) (fun i => (i =? 63))%Z i);
      [| vm_compute; split; [discriminate | reflexivity] | vm_compute; reflexivity
       | intros j Hj; destruct (Z.eqb_spec j 63); [lia | reflexivity]
       | exact Hi].
    rewrite (testbit_const (Z.shiftl 61440 64)
               (fun i => (i =? 76) || (i =? 77) || (i =? 78) || (i =? 79))%Z i);
      [| vm_compute; split; [discriminate | reflexivity] | vm_compute; reflexivity
       | intros j Hj; destruct (Z.eqb_spec j 76); [lia|];
         destruct (Z.eqb_spec j 77); [lia|]; destruct (Z.eqb_spec j 78); [lia|];
         destruct (Z.eqb_spec j 79); [lia | reflexivity]
       | exact Hi].
    rewrite (testbit_const (Z.shiftl 4 76) (fun i => (i =? 78))%Z i);
      [| vm_compute; split; [discriminate | reflexivity] | vm_compute; reflexivity
       | intros j Hj; destruct (Z.eqb_spec j 78); [lia | reflexivity]
       | exact Hi].
    destruct (Z.eqb_spec i 63), (Z.eqb_spec i 78), (Z.eqb_spec i 62),
      (Z.eqb_spec i 76), (Z.eqb_spec i 77), (Z.eqb_spec i 79); try lia;
      destruct (Z.testbit (int_from_bytes bs) i); reflexivity. }
  split; [exact Hbits|].
  intros Hlen.
  pose proof (int_from_bytes_range bs) as HW. rewrite Hlen in HW.
  change (256 ^ Z.of_nat 16)%Z with (2 ^ 128)%Z in HW.
  assert (Hnn : (0 <= UUID_v4 bs)%Z).
  { unfold UUID_v4. cbv zeta. apply Z.lor_nonneg. split; [|vm_compute; discriminate].
    apply Z.land_nonneg. left. apply Z.lor_nonneg. split; [|vm_compute; discriminate].
    apply Z.land_nonneg. left. apply HW. }
  split; [exact Hnn|].
  assert (Heq : UUID_v4 bs = (UUID_v4 bs mod 2 ^ 128)%Z).
  { apply Z.bits_inj'. intros i Hi.
    destruct (Z_lt_le_dec i 128) as [Hlt|Hge].
    - now rewrite Z.mod_pow2_bits_low by lia.
    - rewrite Z.mod_pow2_bits_high by lia.
      rewrite Hbits.
      destruct (Z.eqb_spec i 63); [lia|]. destruct (Z.eqb_spec i 78); [lia|].
      destruct (Z.eqb_spec i 62); [lia|]. destruct (Z.eqb_spec i 76); [lia|].
      destruct (Z.eqb_spec i 77); [lia|]. destruct (Z.eqb_spec i 79); [lia|].
      cbn. destruct (Z.eq_dec (int_from_bytes bs) 0%Z) as [->|Hne];
        [apply Z.testbit_0_l|].
      apply Z.bits_above_log2; [lia|].
      assert (Z.log2 (int_from_bytes bs) < 128)%Z by (apply Z.log2_lt_pow2; lia). lia. }
  rewrite Heq. apply Z.mod_pos_bound. reflexivity.
Qed.

(** X19.  The order of the keys in the saved document: the keys of the
    loaded document in their order (a telemetry key that was present keeps
    its place), followed by the telemetry keys that were missing, in the
    order machineId, macMachineId, devDeviceId. *)
Theorem saved_document_key_order (E : env) (pos : nat) (d : dict) :
  dict_keys (set_ids E pos d)
  = dict_keys d
    ++ List.filter (fun k => negb (bool_decide (k ∈ dict_keys d)))
         [key_machineId; key_macMachineId; key_devDeviceId].
Proof.
  destruct id_keys_distinct as (H12 & H13 & H23).
  unfold set_ids.
  rewrite (dict_keys_set _ key_devDeviceId).
  rewrite !(bool_decide_keys_set_ne _ _ key_devDeviceId) by congruence.
  rewrite (dict_keys_set _ key_macMachineId).
  rewrite !(bool_decide_keys_set_ne _ _ key_macMachineId) by congruence.
  rewrite (dict_keys_set _ key_machineId).
  cbn [List.filter].
  destruct (bool_decide (key_machineId ∈ dict_keys d)),
    (bool_decide (key_macMachineId ∈ dict_keys d)),
    (bool_decide (key_devDeviceId ∈ dict_keys d)); cbn [negb];
    rewrite <- ?app_assoc, ?app_nil_r; reflexivity.
Qed.

(** X20.  Lines 85-87 leave no trace of earlier identifiers: updating a
    document that an earlier run has updated gives the same document as
    updating the original one. *)
Theorem set_ids_overrides (E : env) (pos pos' : nat) (d : dict) :
  set_ids E pos' (set_ids E pos d) = set_ids E pos' d.
Proof.
  destruct id_keys_distinct as (H12 & H13 & H23).
  unfold set_ids.
  set (a := JString (str_lit (machine_id_at E pos))).
  set (b := JString (str_lit (mac_machine_id_at E pos))).
  set (c := JString (str_lit (dev_device_id_at E pos))).
  set (a' := JString (str_lit (machine_id_at E pos'))).
  set (b' := JString (str_lit (mac_machine_id_at E pos'))).
  set (c' := JString (str_lit (dev_device_id_at E pos'))).
  rewrite (dict_set_comm_present _ key_machineId key_devDeviceId a' c)
    by (congruence || (rewrite !dict_keys_set_elem; tauto)).
  rewrite (dict_set_comm_present _ key_machineId key_macMachineId a' b)
    by (congruence || (rewrite !dict_keys_set_elem; tauto)).
  rewrite dict_set_twice.
  rewrite (dict_set_comm_present _ key_macMachineId key_devDeviceId b' c)
    by (congruence || (rewrite !dict_keys_set_elem; tauto)).
  rewrite dict_set_twice.
  rewrite dict_set_twice. reflexivity.
Qed.

(** X21.  [json.load] undoes [json.dump(..., indent=2)]: for every
    document without floats, whose strings are made of Unicode scalar values
    and whose objects have no repeated key, the decoder returns the document
    from the text the encoder writes, and reading the file written in text
    mode gives it back on every platform (on Windows the line ends written
    as CR LF are read as LF). *)
Theorem dump_then_load (E : env) (v : json) :
  plain v = true ->
  json_loads (str_lit (json_dumps (floatstr E) v)) = Some v /\
  decode_document (text_bytes E (json_dumps (floatstr E) v)) = Ok v.
Proof.
  intros Hp. split; [now apply json_loads_dumps | now apply decode_document_text_bytes].
Qed.

Lemma dump_then_load_witness :
  json_loads (str_lit (json_dumps (floatstr windows_env_no_appdata) example_value))
  = Some example_value /\
  decode_document (text_bytes windows_env_no_appdata
                     (json_dumps (floatstr windows_env_no_appdata) example_value))
  = Ok example_value.
Proof.
  apply (dump_then_load windows_env_no_appdata example_value). vm_compute. reflexivity.
Defined.

(** X22.  What a run saves, the next run can load: when the loaded
    document is of that kind, so is the document with the three identifiers
    set, and the bytes written at line 91 decode to exactly that document. *)
Theorem saved_document_loads_back (E : env) (pos : nat) (d : dict) :
  plain (JObject d) = true ->
  plain (JObject (set_ids E pos d)) = true /\
  decode_document (saved_bytes E (set_ids E pos d)) = Ok (JObject (set_ids E pos d)).
Proof.
  intros Hp. pose proof (set_ids_plain E pos d Hp) as Hp'.
  split; [exact Hp'|]. unfold saved_bytes. now apply decode_document_text_bytes.
Qed.

Lemma saved_document_loads_back_witness :
  plain (JObject (set_ids linux_env 0 example_dict)) = true /\
  decode_document (saved_bytes linux_env (set_ids linux_env 0 example_dict))
  = Ok (JObject (set_ids linux_env 0 example_dict)).
Proof.
  apply (saved_document_loads_back linux_env 0 example_dict). vm_compute. reflexivity.
Defined.

(** X23.  The second thing a successful run prints is the text of a JSON
    object: it parses to the object whose members are, in this order,
    [machineId], [macMachineId] and [devDeviceId] with the identifiers of
    the run. *)
Theorem printed_report_is_json (E : env) (pos : nat) :
  json_loads (report E pos)
  = Some (JObject
            [(str_lit "machineId", JString (str_lit (machine_id_at E pos)));
             (str_lit "macMachineId", JString (str_lit (mac_machine_id_at E pos)));
             (str_lit "devDeviceId", JString (str_lit (dev_device_id_at E pos)))]).
Proof.
  unfold report. apply json_loads_dumps.
  cbn [plain forallb fst snd]. rewrite !str_lit_scalar. reflexivity.
Qed.



(** X25.  A run removes nothing: whatever its outcome, every entry of
    the file system that existed before still exists afterwards, and every
    directory is still a directory. *)
Theorem run_removes_nothing (E : env) (w : world) (r : result unit) (w' : world)
        (q : path) (n : node) :
  reset_cursor_id E w = (r, w') ->
  fs w !! q = Some n ->
  exists n', fs w' !! q = Some n' /\ (n = Dir -> n' = Dir).
Proof.
  revert w r w' q n.
  assert (Hkeeps : keeps_entries (reset_cursor_id E)).
  { unfold reset_cursor_id.
    apply keeps_entries_bind.
    { apply keeps_entries_same_fs. intros w r w' H.
      now destruct (get_storage_file_state _ _ _ _ H) as [-> _]. }
    intros p. apply keeps_entries_bind; [apply keeps_entries_Path_mkdir_parents|].
    intros _. apply keeps_entries_bind; [apply keeps_entries_backup_file|].
    intros _. apply keeps_entries_bind.
    { apply keeps_entries_same_fs. now intros w r w' [= <- <-]. }
    intros present. apply keeps_entries_bind.
    { destruct (negb present).
      - apply keeps_entries_same_fs. now intros w r w' [= <- <-].
      - unfold json_load. apply keeps_entries_bind; [apply keeps_entries_read_file|].
        intros c. apply keeps_entries_same_fs. now intros w r w' [= <- <-]. }
    intros data.
    assert (Hur : forall n, keeps_entries (os_urandom E n)).
    { intros n. apply keeps_entries_same_fs. now intros w r w' [= <- <-]. }
    assert (Hret : forall A (a : A), keeps_entries (ret a)).
    { intros A a. apply keeps_entries_same_fs. now intros w r w' [= <- <-]. }
    assert (Hset : forall v k x, keeps_entries (setitem v k x)).
    { intros v k x. apply keeps_entries_same_fs.
      destruct v; now intros w r w' [= <- <-]. }
    assert (Hpr : forall s, keeps_entries (print s)).
    { intros s. apply keeps_entries_same_fs. now intros w r w' [= <- <-]. }
    apply keeps_entries_bind; [apply keeps_entries_bind; [apply Hur | intros; apply Hret]|].
    intros machine_id.
    apply keeps_entries_bind; [apply keeps_entries_bind; [apply Hur | intros; apply Hret]|].
    intros mac_machine_id.
    apply keeps_entries_bind.
    { apply keeps_entries_bind; [|intros; apply Hret].
      unfold uuid_uuid4. apply keeps_entries_bind; [apply Hur | intros; apply Hret]. }
    intros dev_device_id.
    apply keeps_entries_bind; [apply Hset|]. intros d1.
    apply keeps_entries_bind; [apply Hset|]. intros d2.
    apply keeps_entries_bind; [apply Hset|]. intros d3.
    apply keeps_entries_bind; [apply keeps_entries_write_file|]. intros _.
    apply keeps_entries_bind; [apply Hpr | intros; apply Hpr]. }
  intros w r w' q n Hrun. exact (Hkeeps w r w' Hrun q n).
Qed.

Lemma run_removes_nothing_witness :
  let w := world_with "not json" in
  let w' := log (EvRead example_file)
                (after_backup linux_env w example_file
                   (str_encode_ascii "not json") example_stat) in
  exists n', fs w' !! example_dir = Some n' /\ (Dir = Dir -> n' = Dir).
Proof.
  cbv zeta.
  refine (run_removes_nothing linux_env (world_with "not json") (Raise JSONDecodeError)
            _ example_dir Dir
            (reset_existing_malformed linux_env (world_with "not json") example_dir
               (str_encode_ascii "not json") example_stat JSONDecodeError _ _ _ _ _) _);
    [reflexivity | vm_compute; reflexivity ..].
Defined.

(** X26.  Every document that [json.load] returns from a file is well
    formed, at every depth: no object has a repeated key, and no string
    holds a value beyond U+10FFFF or a high surrogate directly followed by
    a low one (the decoder joins the escapes of such a pair, and strict
    UTF-8 decoding yields no surrogate). *)
Theorem loaded_document_is_well_formed (c : list byte) (v : json) :
  decode_document c = Ok v -> well_formed v = true.
Proof. exact (decode_document_well_formed c v). Qed.

Lemma loaded_document_is_well_formed_witness :
  well_formed surrogate_value = true.
Proof.
  apply (loaded_document_is_well_formed (str_encode_ascii surrogate_document)).
  vm_compute. reflexivity.
Defined.

(** X27.  [json.load] undoes [json.dump(..., indent=2)] on every document
    that [json.load] can produce, floats and lone surrogates included: when
    the encoder prints each float of a well-formed document as a float text
    that denotes the same float, reading the file written in text mode
    gives, on every platform, a document with the same structure, keys,
    strings and integers, and at each float the same binary64 number. *)
Theorem dump_then_load_any_document (E : env) (v : json) :
  well_formed v = true -> floats_print_back (floatstr E) v ->
  exists again : json,
    decode_document (text_bytes E (json_dumps (floatstr E) v)) = Ok again /\
    same_document v again.
Proof.
  intros Hw Hf. exists (reread (floatstr E) v).
  split; [|now apply same_document_reread].
  apply decode_document_text_bytes_any. now apply well_formed_dumpable.
Qed.

Lemma dump_then_load_any_document_witness :
  exists again : json,
    decode_document (text_bytes linux_env_floats
                       (json_dumps (floatstr linux_env_floats) surrogate_value))
    = Ok again /\
    same_document surrogate_value again.
Proof.
  apply (dump_then_load_any_document linux_env_floats surrogate_value);
    [vm_compute; reflexivity | repeat constructor].
Defined.
